(** * Wave Runner: jump-window level generation

    A shallow embedding of the level-generation core of the game
    (the jump-window version of levels.ts, and the copy of its generator
    inlined in the two test scripts): the trajectory
    simulator [simulateJump], the clearance solver
    [calculateClearanceWindow] and the two generators
    [generateJumpWindowLevel] and [generateWaveObstacles].

    JavaScript numbers are idealised as exact rationals: every arithmetic
    result is the exact value, kept in lowest terms so that trajectories
    can be evaluated.  Rounding, NaN and the infinities of IEEE doubles
    are outside the model.  [Math.random()] is an explicit stream of
    draws, read through a cursor that the generators thread along. *)

From Stdlib Require Import QArith Qminmax Qround Lqa Lia List Bool ZArith.
From Stdlib Require Import Sorted.
Import ListNotations.

Open Scope Q_scope.

(** ** Numbers *)

Definition number : Type := Q.

Module Num.

Definition add (a b : number) : number := Qred (a + b).
Definition sub (a b : number) : number := Qred (a - b).
Definition mul (a b : number) : number := Qred (a * b).
Definition div (a b : number) : number := Qred (a / b).

Definition ltb (a b : number) : bool :=
  match a ?= b with Lt => true | _ => false end.
Definition leb (a b : number) : bool :=
  match a ?= b with Gt => false | _ => true end.
Definition gtb (a b : number) : bool := ltb b a.
Definition geb (a b : number) : bool := leb b a.
(** [===] on numbers. *)
Definition eqb (a b : number) : bool :=
  match a ?= b with Eq => true | _ => false end.

(** [Math.max] and [Math.min]. *)
Definition max (a b : number) : number := if ltb a b then b else a.
Definition min (a b : number) : number := if ltb b a then b else a.

End Num.

Arguments Num.add : simpl never.
Arguments Num.sub : simpl never.
Arguments Num.mul : simpl never.
Arguments Num.div : simpl never.
Arguments Num.ltb : simpl never.
Arguments Num.leb : simpl never.
Arguments Num.gtb : simpl never.
Arguments Num.geb : simpl never.
Arguments Num.eqb : simpl never.
Arguments Num.max : simpl never.
Arguments Num.min : simpl never.

Declare Scope js_scope.
Delimit Scope js_scope with js.
Infix "+" := Num.add : js_scope.
Infix "-" := Num.sub : js_scope.
Infix "*" := Num.mul : js_scope.
Infix "/" := Num.div : js_scope.
Infix "<" := Num.ltb : js_scope.
Infix "<=" := Num.leb : js_scope.
Infix ">" := Num.gtb : js_scope.
Infix ">=" := Num.geb : js_scope.
Infix "===" := Num.eqb (at level 70) : js_scope.

(** ** Data model *)

Inductive ObstacleType := spike | block | gap | moving.
Inductive WindowType := tap | hold.
Inductive Mode := gravity | wave.

Record Obstacle := mkObstacle {
  o_x : number;
  o_y : number;
  o_width : number;
  o_height : number;
  o_type : ObstacleType
}.

(** [holdDuration] is optional; a property that is absent and one that
    holds [undefined] both read as [None]. *)
Record JumpWindow := mkJumpWindow {
  startX : number;
  endX : number;
  jw_type : WindowType;
  jw_holdDuration : option number
}.

Record Level := mkLevel {
  obstacles : list Obstacle;
  jumpWindows : list JumpWindow
}.

(** One sample [{x, y, t}] of a trajectory. *)
Record Position := mkPosition {
  pos_x : number;
  pos_y : number;
  pos_t : number
}.

(** ** Physics constants *)

Definition GROUND_HEIGHT : number := 50.
Definition PLAYABLE_TOP : number := 60.
Definition SCREEN_HEIGHT : number := 768.
Definition GROUND_Y : number := (SCREEN_HEIGHT - GROUND_HEIGHT)%js.
Definition PLAYER_SIZE : number := 40.
Definition PLAYER_GROUND_Y : number := (GROUND_Y - PLAYER_SIZE / 2)%js.
Definition GROUND_DETECTION_THRESHOLD : number := 5.

(** ** Trajectory simulator *)

Definition dt : number := (1 / 60)%js.

(** The local variables of [simulateJump]. *)
Record SimState := mkSimState {
  sim_x : number;
  sim_y : number;
  sim_vy : number;
  sim_t : number;
  isHolding : bool;
  holdTimeRemaining : number
}.

Section Simulator.

Variables (jumpForce grav speed : number).

(** The loop condition [y < PLAYER_GROUND_Y || vy < 0]. *)
Definition airborne (s : SimState) : bool :=
  (sim_y s < PLAYER_GROUND_Y)%js || (sim_vy s < 0)%js.

(** Gravity, then the hold block: re-apply the impulse near the ground
    and count the hold time down. *)
Definition applyHold (s : SimState) : SimState :=
  let vy := (sim_vy s + grav * dt)%js in
  if isHolding s && (holdTimeRemaining s > 0)%js then
    let vy :=
      if (sim_y s >= PLAYER_GROUND_Y - GROUND_DETECTION_THRESHOLD)%js
         && (vy >= 0)%js
      then jumpForce else vy in
    let remaining := (holdTimeRemaining s - dt)%js in
    mkSimState (sim_x s) (sim_y s) vy (sim_t s)
               (if (remaining <= 0)%js then false else isHolding s)
               remaining
  else
    mkSimState (sim_x s) (sim_y s) vy (sim_t s)
               (isHolding s) (holdTimeRemaining s).

(** Position update. *)
Definition integrate (s : SimState) : SimState :=
  mkSimState (sim_x s + speed * dt)%js
             (sim_y s + sim_vy s * dt)%js
             (sim_vy s)
             (sim_t s + dt)%js
             (isHolding s) (holdTimeRemaining s).

(** Ceiling collision. *)
Definition ceiling (s : SimState) : SimState :=
  if (sim_y s < PLAYABLE_TOP + PLAYER_SIZE / 2)%js then
    mkSimState (sim_x s) (PLAYABLE_TOP + PLAYER_SIZE / 2)%js 0 (sim_t s)
               (isHolding s) (holdTimeRemaining s)
  else s.

(** One pass through the loop body, up to the ground test. *)
Definition advance (s : SimState) : SimState :=
  ceiling (integrate (applyHold s)).

(** The ground test [y >= PLAYER_GROUND_Y && vy > 0 && !isHolding]. *)
Definition landed (s : SimState) : bool :=
  (sim_y s >= PLAYER_GROUND_Y)%js && (sim_vy s > 0)%js
  && negb (isHolding s).

Definition sample (s : SimState) : Position :=
  mkPosition (sim_x s) (sim_y s) (sim_t s).

(** The [while] loop.  The result lists the pushed samples in order;
    [None] means the fuel ran out before the loop was left. *)
Fixpoint simLoop (fuel : nat) (s : SimState) : option (list Position) :=
  match fuel with
  | O => None
  | S fuel' =>
      if airborne s then
        let s' := advance s in
        if landed s' then
          Some [sample s;
                mkPosition (sim_x s') PLAYER_GROUND_Y (sim_t s')]
        else if (sim_t s' > 10)%js then Some [sample s]
        else option_map (cons (sample s)) (simLoop fuel' s')
      else Some []
  end.

End Simulator.

Definition simInit (startX jumpForce holdDuration : number) : SimState :=
  mkSimState startX PLAYER_GROUND_Y jumpForce 0
             (holdDuration > 0)%js holdDuration.

Definition simulateJump_fuel (fuel : nat)
    (startX jumpForce grav speed holdDuration : number)
    : option (list Position) :=
  simLoop jumpForce grav speed fuel (simInit startX jumpForce holdDuration).

(** Iterations that always suffice: the clock passes 10 on the 601st. *)
Definition simFuel : nat := 601.

(** [simulateJump]; the [None] branch is dead, see
    [simulateJump_fuel_enough]. *)
Definition simulateJump (startX jumpForce grav speed holdDuration : number)
    : list Position :=
  match simulateJump_fuel simFuel startX jumpForce grav speed holdDuration with
  | Some positions => positions
  | None => []
  end.

Arguments simulateJump : simpl never.

(** ** Clearance solver *)

Record Clearance := mkClearance {
  earliestJumpX : number;
  latestJumpX : number;
  needsHold : bool;
  cw_holdDuration : number
}.

(** [peakY], [firstAboveX] and [lastAboveX] while a trajectory is
    scanned. *)
Record Scan := mkScan {
  peakY : number;
  firstAboveX : number;
  lastAboveX : number
}.

(** The solver's variables when the search is over, before the defaults
    are substituted. *)
Record Search := mkSearch {
  s_firstAboveX : number;
  s_lastAboveX : number;
  s_needsHold : bool;
  s_holdDuration : number
}.

Definition requiredY (obstacleHeight : number) : number :=
  let obstacleTopY := (GROUND_Y - obstacleHeight)%js in
  let playerBottomClearance := (PLAYER_SIZE / 2 + 10)%js in
  (obstacleTopY - playerBottomClearance)%js.

Section Solver.

Variables (jumpForce grav speed requiredPlayerY : number).

Definition peakStep (peak : number) (pos : Position) : number :=
  if (pos_y pos < peak)%js then pos_y pos else peak.

(** [if (pos.y <= requiredPlayerY) { if (firstAboveX < 0) ...; ... }] *)
Definition aboveStep (fl : number * number) (pos : Position)
    : number * number :=
  if (pos_y pos <= requiredPlayerY)%js then
    ((if (fst fl < 0)%js then pos_x pos else fst fl), pos_x pos)
  else fl.

(** Body of the loop over the tap trajectory. *)
Definition scanStep (acc : Scan) (pos : Position) : Scan :=
  let fl := aboveStep (firstAboveX acc, lastAboveX acc) pos in
  mkScan (peakStep (peakY acc) pos) (fst fl) (snd fl).

Definition tapScan (tapPositions : list Position) : Scan :=
  fold_left scanStep tapPositions (mkScan PLAYER_GROUND_Y (-1) (-1)).

Definition holdPeak (holdPositions : list Position) : number :=
  fold_left peakStep holdPositions PLAYER_GROUND_Y.

Definition aboveRange (holdPositions : list Position) : number * number :=
  fold_left aboveStep holdPositions (-1, -1).

(** [for (let hd = 0.1; hd <= 1.0; hd += 0.1)], entered with the
    variables [st]; [None] means the fuel ran out. *)
Fixpoint holdSweep_fuel (fuel : nat) (hd : number) (st : Search)
    : option Search :=
  match fuel with
  | O => None
  | S fuel' =>
      if (hd <= 1.0)%js then
        let holdPositions := simulateJump 0 jumpForce grav speed hd in
        if (holdPeak holdPositions <= requiredPlayerY)%js then
          let fl := aboveRange holdPositions in
          Some (mkSearch (fst fl) (snd fl) (s_needsHold st) hd)
        else holdSweep_fuel fuel' (hd + 0.1)%js st
      else Some st
  end.

Definition sweepFuel : nat := 11.

(** The sweep; the [None] branch is dead, see [holdSweep_fuel_enough]. *)
Definition holdSweep (st : Search) : Search :=
  match holdSweep_fuel sweepFuel 0.1 st with
  | Some st' => st'
  | None => st
  end.

(** The solver up to the end of the search. *)
Definition searchOffsets : Search :=
  let tapPositions := simulateJump 0 jumpForce grav speed 0 in
  let scan := tapScan tapPositions in
  if (peakY scan > requiredPlayerY)%js || (firstAboveX scan < 0)%js then
    holdSweep (mkSearch (firstAboveX scan) (lastAboveX scan) true 0)
  else mkSearch (firstAboveX scan) (lastAboveX scan) false 0.

End Solver.

(** [if (firstAboveX < 0) firstAboveX = 50] and
    [if (lastAboveX < 0) lastAboveX = 150]. *)
Definition firstOffset (st : Search) : number :=
  if (s_firstAboveX st < 0)%js then 50 else s_firstAboveX st.

Definition lastOffset (st : Search) : number :=
  if (s_lastAboveX st < 0)%js then 150 else s_lastAboveX st.

Definition calculateClearanceWindow
    (obstacleX obstacleWidth obstacleHeight jumpForce grav speed : number)
    : Clearance :=
  let requiredPlayerY := requiredY obstacleHeight in
  let st := searchOffsets jumpForce grav speed requiredPlayerY in
  let firstAboveX := firstOffset st in
  let lastAboveX := lastOffset st in
  let latestJumpX := (obstacleX - firstAboveX)%js in
  let earliestJumpX := (obstacleX + obstacleWidth - lastAboveX)%js in
  mkClearance (Num.min earliestJumpX latestJumpX)
              (Num.max earliestJumpX latestJumpX)
              (s_needsHold st) (s_holdDuration st).

Arguments calculateClearanceWindow : simpl never.

(** ** Level generators *)

(** A [while (cond) body] loop over the variables [s]; [None] means the
    fuel ran out before the condition turned false. *)
Fixpoint while_fuel {St : Type} (cond : St -> bool) (body : St -> St)
    (fuel : nat) (s : St) : option St :=
  match fuel with
  | O => None
  | S fuel' =>
      if cond s then while_fuel cond body fuel' (body s) else Some s
  end.

(** The generators' accumulators: the cursor [x], [obstacleCount], the
    number of [Math.random()] draws made so far, and the two output
    arrays in push order. *)
Record GenState := mkGenState {
  gen_x : number;
  obstacleCount : nat;
  drawn : nat;
  gen_obstacles : list Obstacle;
  gen_windows : list JumpWindow
}.

Definition genInit : GenState := mkGenState 600 0 0 [] [].

Definition levelOf (s : GenState) : Level :=
  mkLevel (gen_obstacles s) (gen_windows s).

(** Height, width and type picked for one obstacle. *)
Record Shape := mkShape {
  obstacleHeight : number;
  obstacleWidth : number;
  obstacleType : ObstacleType
}.

Definition isGap (t : ObstacleType) : bool :=
  match t with gap => true | _ => false end.

Section Gravity.

Variables (difficulty length speed jumpForce grav : number).
(** The stream of [Math.random()] results. *)
Variable random : nat -> number.

Definition baseWindowWidth : number :=
  Num.max (220 - difficulty * 12)%js 60.
Definition minSpacing : number :=
  Num.max (400 - difficulty * 15)%js 180.
Definition maxSpacing : number := (minSpacing + 150)%js.
Definition baseObstacleHeight : number := (45 + difficulty * 3)%js.
Definition obstacleHeightVariation : number := 15.
Definition holdJumpProbability : number :=
  Num.min (0.1 + difficulty * 0.04)%js 0.5.

(** The four-way choice of the obstacle; [n] is the index of the next
    draw, the result carries the index after the choice (a gap draws
    nothing). *)
Definition chooseObstacle (isHoldJump : bool) (rand : number) (n : nat)
    : Shape * nat :=
  if isHoldJump then
    (mkShape (baseObstacleHeight + 30 + random n * 20)%js
             (50 + difficulty * 2)%js block, S n)
  else if (rand < 0.5)%js then
    (mkShape (baseObstacleHeight + random n * obstacleHeightVariation)%js
             (35 + difficulty * 2)%js spike, S n)
  else if (rand < 0.85)%js then
    (mkShape (baseObstacleHeight - 10
              + random n * obstacleHeightVariation)%js
             (50 + difficulty * 3)%js block, S n)
  else
    (mkShape 100 (70 + difficulty * 4)%js gap, n).

(** [if (actualWindowWidth > baseWindowWidth) { ... }] *)
Definition shrinkWindow (windowStart windowEnd : number)
    : number * number :=
  let actualWindowWidth := (windowEnd - windowStart)%js in
  if (actualWindowWidth > baseWindowWidth)%js then
    let excess := (actualWindowWidth - baseWindowWidth)%js in
    ((windowStart + excess * 0.3)%js, (windowEnd - excess * 0.7)%js)
  else (windowStart, windowEnd).

(** [if (windowEnd < windowStart) windowEnd = windowStart + 30] *)
Definition clampWindow (w : number * number) : number * number :=
  if (snd w < fst w)%js then (fst w, (fst w + 30)%js) else w.

Definition fitWindow (clearance : Clearance) : number * number :=
  clampWindow
    (shrinkWindow (earliestJumpX clearance) (latestJumpX clearance)).

Definition gapJumpWindow (x : number) : JumpWindow :=
  mkJumpWindow (x - 120)%js (x - 20)%js tap None.

(** The obstacle and the window pushed for one placement. *)
Definition emitPair (x : number) (sh : Shape) (clearance : Clearance)
    : Obstacle * JumpWindow :=
  if isGap (obstacleType sh) then
    (mkObstacle x 1 (obstacleWidth sh) (obstacleHeight sh) gap,
     gapJumpWindow x)
  else
    let w := fitWindow clearance in
    (mkObstacle x 1 (obstacleWidth sh) (obstacleHeight sh)
                (obstacleType sh),
     mkJumpWindow (fst w) (snd w)
       (if needsHold clearance then hold else tap)
       (if needsHold clearance
        then Some (cw_holdDuration clearance * 1000)%js else None)).

Definition clearanceFor (x : number) (sh : Shape) : Clearance :=
  calculateClearanceWindow x (obstacleWidth sh)
    (if isGap (obstacleType sh) then 0 else obstacleHeight sh)
    jumpForce grav speed.

(** Body of the [while] loop of [generateJumpWindowLevel]. *)
Definition placeObstacle (s : GenState) : GenState :=
  let rand := random (drawn s) in
  let isHoldJump := (rand < holdJumpProbability)%js && (difficulty >= 3)%js in
  let (sh, n) := chooseObstacle isHoldJump rand (S (drawn s)) in
  let x := gen_x s in
  let (o, w) := emitPair x sh (clearanceFor x sh) in
  let spacing := (minSpacing + random n * (maxSpacing - minSpacing))%js in
  mkGenState (x + (obstacleWidth sh + spacing))%js
             (S (obstacleCount s)) (S n)
             (gen_obstacles s ++ [o]) (gen_windows s ++ [w]).

(** [while (x < length - 400)] *)
Definition gravityLoop : nat -> GenState -> option GenState :=
  while_fuel (fun s => (gen_x s < length - 400)%js) placeObstacle.

End Gravity.

Section Wave.

Variables (difficulty length : number).
Variable random : nat -> number.

Definition waveSpacing : number := Num.max (180 - difficulty * 8)%js 100.
Definition gapSize : number := Num.max (0.42 - difficulty * 0.015)%js 0.22.

(** Body of the [while] loop of [generateWaveObstacles]: two obstacles
    and one window. *)
Definition placeWavePair (s : GenState) : GenState :=
  let x := gen_x s in
  let gapY := (0.2 + random (drawn s) * 0.5)%js in
  let actualGapSize := (gapSize + random (S (drawn s)) * 0.08)%js in
  let obstacleWidth := (55 + difficulty * 2)%js in
  let top :=
    mkObstacle x 0 obstacleWidth (gapY - actualGapSize / 2)%js block in
  let bottom :=
    mkObstacle x (gapY + actualGapSize / 2)%js obstacleWidth
               (1 - (gapY + actualGapSize / 2))%js block in
  let w :=
    mkJumpWindow (x - 100)%js (x + obstacleWidth)%js
                 (if (gapY < 0.4)%js then hold else tap) None in
  mkGenState (x + (waveSpacing + random (S (S (drawn s))) * 80))%js
             (obstacleCount s) (S (S (S (drawn s))))
             (gen_obstacles s ++ [top; bottom]) (gen_windows s ++ [w]).

(** [while (x < length - 200)] *)
Definition waveLoop : nat -> GenState -> option GenState :=
  while_fuel (fun s => (gen_x s < length - 200)%js) placeWavePair.

End Wave.

Definition generateWaveObstacles (fuel : nat) (difficulty length : number)
    (random : nat -> number) : option Level :=
  option_map levelOf (waveLoop difficulty length random fuel genInit).

Definition generateJumpWindowLevel (fuel : nat)
    (difficulty length : number) (mode : Mode)
    (speed jumpForce grav : number) (random : nat -> number)
    : option Level :=
  match mode with
  | wave => generateWaveObstacles fuel difficulty length random
  | gravity =>
      option_map levelOf
        (gravityLoop difficulty length speed jumpForce grav random
                     fuel genInit)
  end.

(** ** The level table *)

(** The parameters of the loop [for (let i = 0; i < 15; i++)] that fills
    [levels]; tier [i + 1] is built at index [i]. *)
Section Tier.

Variable i : nat.

Definition tierDifficulty : number := (inject_Z (Z.of_nat i) + 1)%js.
Definition tierMode : Mode := if Nat.even i then gravity else wave.
Definition tierLength : number := (3000 + tierDifficulty * 400)%js.
Definition tierSpeed : number := (180 + tierDifficulty * 12)%js.
Definition tierGravity : number :=
  match tierMode with
  | gravity => (650 + tierDifficulty * 20)%js
  | wave => 0
  end.
Definition tierJumpForce : number :=
  match tierMode with
  | gravity => (-420 - tierDifficulty * 6)%js
  | wave => (-200 - tierDifficulty * 6)%js
  end.

Definition generateTier (fuel : nat) (random : nat -> number)
    : option Level :=
  generateJumpWindowLevel fuel tierDifficulty tierLength tierMode
    tierSpeed tierJumpForce tierGravity random.

End Tier.

(** ** The generator inlined in the test scripts

    test_levels.mjs and test_levels_detailed.mjs carry their own copy of
    the gravity generator.  Its simulator, solver, obstacle choice and
    window fitting are those above; it differs in the forced hold of
    level 1, in the threshold [difficulty >= 2], and in tagging a window
    [hold] when the obstacle was picked as a held jump. *)

Module TestScript.

Record ScriptState := mkScriptState {
  gen : GenState;
  hasHadHeldJump : bool
}.

Definition scriptInit : ScriptState := mkScriptState genInit false.

Section Script.

Variables (difficulty length speed jumpForce grav : number).
Variable random : nat -> number.

(** [clearance.holdDuration] is always a number, so the fallback of
    [?? 0.2] is never taken. *)
Definition emitPair (isHoldJump : bool) (x : number) (sh : Shape)
    (clearance : Clearance) : Obstacle * JumpWindow :=
  if isGap (obstacleType sh) then
    (mkObstacle x 1 (obstacleWidth sh) (obstacleHeight sh) gap,
     gapJumpWindow x)
  else
    let w := fitWindow difficulty clearance in
    (mkObstacle x 1 (obstacleWidth sh) (obstacleHeight sh)
                (obstacleType sh),
     mkJumpWindow (fst w) (snd w)
       (if isHoldJump || needsHold clearance then hold else tap)
       (if isHoldJump || needsHold clearance
        then Some (cw_holdDuration clearance * 1000)%js else None)).

Definition placeObstacle (s : ScriptState) : ScriptState :=
  let g := gen s in
  let rand := random (drawn g) in
  let forceHeldForLevel1 :=
    (difficulty === 1)%js && negb (hasHadHeldJump s)
    && (2 <=? obstacleCount g)%nat in
  let isHoldJump :=
    forceHeldForLevel1
    || ((rand < holdJumpProbability difficulty)%js
        && (difficulty >= 2)%js) in
  let (sh, n) :=
    chooseObstacle difficulty random isHoldJump rand (S (drawn g)) in
  let x := gen_x g in
  let (o, w) :=
    emitPair isHoldJump x sh
             (clearanceFor speed jumpForce grav x sh) in
  let spacing :=
    (minSpacing difficulty
     + random n * (maxSpacing difficulty - minSpacing difficulty))%js in
  mkScriptState
    (mkGenState (x + (obstacleWidth sh + spacing))%js
                (S (obstacleCount g)) (S n)
                (gen_obstacles g ++ [o]) (gen_windows g ++ [w]))
    (hasHadHeldJump s || isHoldJump).

Definition scriptLoop : nat -> ScriptState -> option ScriptState :=
  while_fuel (fun s => (gen_x (gen s) < length - 400)%js) placeObstacle.

End Script.

Definition generateJumpWindowLevel (fuel : nat)
    (difficulty length speed jumpForce grav : number)
    (random : nat -> number) : option Level :=
  option_map (fun s => levelOf (gen s))
    (scriptLoop difficulty length speed jumpForce grav random
                fuel scriptInit).

End TestScript.

(** ** Notions used in the statements *)

(** The hold durations that the sweep
    [for (let hd = 0.1; hd <= 1.0; hd += 0.1)] visits. *)
Fixpoint sweepDurations (fuel : nat) (hd : number) : list number :=
  match fuel with
  | O => []
  | S fuel' =>
      if (hd <= 1.0)%js then hd :: sweepDurations fuel' (hd + 0.1)%js
      else []
  end.

Definition holdDurations : list number := sweepDurations sweepFuel 0.1.

(** The sweep as a search through a list of durations: the first one
    whose trajectory peaks high enough is kept. *)
Fixpoint sweepOver (jumpForce grav speed requiredPlayerY : number)
    (hds : list number) (st : Search) : Search :=
  match hds with
  | [] => st
  | hd :: rest =>
      let holdPositions := simulateJump 0 jumpForce grav speed hd in
      if (holdPeak holdPositions <= requiredPlayerY)%js then
        let fl := aboveRange requiredPlayerY holdPositions in
        mkSearch (fst fl) (snd fl) (s_needsHold st) hd
      else sweepOver jumpForce grav speed requiredPlayerY rest st
  end.

(** No sample of the trajectory is at or above the required height
    (heights grow downwards: above means a smaller [y]). *)
Definition noneAbove (requiredPlayerY : number) (positions : list Position)
    : bool :=
  forallb (fun pos => negb (pos_y pos <= requiredPlayerY)%js) positions.

(** Neither the tap trajectory nor any trajectory of the sweep has a
    qualifying sample. *)
Definition searchFindsNothing
    (jumpForce grav speed requiredPlayerY : number) : bool :=
  noneAbove requiredPlayerY (simulateJump 0 jumpForce grav speed 0)
  && forallb
       (fun hd =>
          noneAbove requiredPlayerY (simulateJump 0 jumpForce grav speed hd))
       holdDurations.

(** The contract of [Math.random()]: every draw lies in [0, 1). *)
Definition unitDraws (random : nat -> number) : Prop :=
  forall n : nat, 0 <= random n /\ random n < 1.

(** What every obstacle/window pair pushed by the gravity generator
    satisfies. *)
Definition pairOK (o : Obstacle) (w : JumpWindow) : Prop :=
  (jw_holdDuration w <> None <-> jw_type w = hold)
  /\ (o_type o = gap -> w = gapJumpWindow (o_x o)).

(** What the wave generator keeps true of its two arrays. *)
Definition waveOK (s : GenState) : Prop :=
  List.length (gen_obstacles s) = (2 * List.length (gen_windows s))%nat
  /\ Forall (fun w => jw_holdDuration w = None) (gen_windows s)
  /\ Forall (fun o => o_type o = block) (gen_obstacles s).

(** Two tap states at the same instant, the first at least as high and
    rising at least as fast as the second, which is between the ceiling
    and the ground. *)
Definition tapOrdered (s1 s2 : SimState) : Prop :=
  isHolding s1 = false /\ isHolding s2 = false
  /\ sim_t s1 = sim_t s2
  /\ sim_y s1 <= sim_y s2 /\ sim_vy s1 <= sim_vy s2
  /\ sim_y s2 <= 698 /\ 80 <= sim_y s2.

(** One pass of the production generator with the parameters of
    level 1, and one pass of the scripts' generator at difficulty 1. *)
Definition level1Place (random : nat -> number) : GenState -> GenState :=
  placeObstacle 1 192 (-426) 670 random.

Definition scriptLevel1Place (speed jumpForce grav : number)
    (random : nat -> number)
    : TestScript.ScriptState -> TestScript.ScriptState :=
  TestScript.placeObstacle 1 speed jumpForce grav random.

(** ** The game scene

    The parts of GameScene.ts that consume a level: the placement of the
    obstacles on the screen, one frame of the player's motion in either
    mode, and the collision test.  Drawing, sound and input binding are
    left out; [isHolding] is the state of the key, [delta] the length of
    the frame in milliseconds, [height] the height of the camera. *)

Module GameScene.

(** The [obstacleData] stored on every obstacle graphic. *)
Record ObstacleData := mkObstacleData {
  d_x : number;
  d_y : number;
  d_width : number;
  d_height : number;
  d_type : ObstacleType
}.

(** [this.player.y] and the [velocityY] stored on the player. *)
Record Player := mkPlayer {
  p_y : number;
  velocityY : number
}.

Definition checkAABB (x1 y1 w1 h1 x2 y2 w2 h2 : number) : bool :=
  (x1 < x2 + w2)%js && (x1 + w1 > x2)%js
  && (y1 < y2 + h2)%js && (y1 + h1 > y2)%js.

Section Scene.

Variable height : number.
(** [level.mode], [level.gravity] and [level.jumpForce]. *)
Variables (mode : Mode) (levelGravity levelJumpForce : number).

Definition groundHeight : number := 50.
Definition topMargin : number := 60.
(** Set by [create]. *)
Definition playableTop : number := topMargin.
Definition playableHeight : number :=
  (height - topMargin - groundHeight)%js.

(** The data [createObstacles] stores for one obstacle of the level. *)
Definition obstacleData (obstacle : Obstacle) : ObstacleData :=
  match mode with
  | gravity =>
      let obsHeight := o_height obstacle in
      let obsY := (height - groundHeight - obsHeight)%js in
      mkObstacleData (o_x obstacle) obsY (o_width obstacle) obsHeight
                     (o_type obstacle)
  | wave =>
      let obsY := (playableTop + o_y obstacle * playableHeight)%js in
      let obsHeight := (o_height obstacle * playableHeight)%js in
      mkObstacleData (o_x obstacle) obsY (o_width obstacle) obsHeight
                     (o_type obstacle)
  end.

Definition createObstacles (level : list Obstacle) : list ObstacleData :=
  map obstacleData level.

(** Where [createPlayer] puts the player. *)
Definition createPlayer : Player :=
  let playerSize : number := 40 in
  match mode with
  | gravity => mkPlayer (height - groundHeight - playerSize / 2)%js 0
  | wave => mkPlayer (height / 2)%js 0
  end.

Definition updateGravityMode (isHolding : bool) (delta : number)
    (player : Player) : Player :=
  let groundY := (height - groundHeight - 20)%js in
  let vy := (velocityY player + levelGravity * (delta / 1000))%js in
  let vy :=
    if isHolding && (p_y player >= groundY - 5)%js
    then levelJumpForce else vy in
  let y := (p_y player + vy * (delta / 1000))%js in
  let (y, vy) := if (y > groundY)%js then (groundY, 0) else (y, vy) in
  if (y < playableTop + 20)%js then mkPlayer (playableTop + 20)%js 0
  else mkPlayer y vy.

Definition updateWaveMode (isHolding : bool) (delta : number)
    (player : Player) : Player :=
  let flySpeed : number := 300 in
  let vy := if isHolding then levelJumpForce else flySpeed in
  let y := (p_y player + vy * (delta / 1000))%js in
  let topBound := (playableTop + 20)%js in
  let bottomBound := (height - groundHeight - 20)%js in
  let y := if (y < topBound)%js then topBound else y in
  let y := if (y > bottomBound)%js then bottomBound else y in
  mkPlayer y vy.

(** The player's part of [update]. *)
Definition updatePlayer (isHolding : bool) (delta : number)
    (player : Player) : Player :=
  match mode with
  | gravity => updateGravityMode isHolding delta player
  | wave => updateWaveMode isHolding delta player
  end.

(** [checkCollisions]; the result tells whether [die] was called. *)
Fixpoint checkCollisions (playerX playerY : number)
    (obstacles : list ObstacleData) : bool :=
  let playerSize : number := 32 in
  match obstacles with
  | [] => false
  | data :: rest =>
      match d_type data with
      | gap =>
          match mode with
          | gravity =>
              if (playerX > d_x data)%js
                 && (playerX < d_x data + d_width data)%js
                 && (playerY > height - groundHeight - 10)%js
              then true
              else checkCollisions playerX playerY rest
          | wave => checkCollisions playerX playerY rest
          end
      | _ =>
          if checkAABB (playerX - playerSize / 2)%js
                       (playerY - playerSize / 2)%js
                       playerSize playerSize
                       (d_x data) (d_y data) (d_width data) (d_height data)
          then true
          else checkCollisions playerX playerY rest
      end
  end.

End Scene.

End GameScene.

(** ** More notions used in the statements *)


(** Samples in the order of their [x]. *)
Definition xOrdered (p q : Position) : Prop := pos_x p <= pos_x q.


Definition notGap (data : GameScene.ObstacleData) : bool :=
  negb (isGap (GameScene.d_type data)).



(** A window of the scripts against the window of the production
    generator for the same obstacle: the same interval; a [hold] of the
    production generator is a [hold] of the scripts, with the same
    duration. *)
Definition windowAgrees (w1 w2 : JumpWindow) : Prop :=
  startX w1 = startX w2 /\ endX w1 = endX w2
  /\ (jw_type w2 = hold ->
      jw_type w1 = hold /\ jw_holdDuration w1 = jw_holdDuration w2).

(** The state of the scripts' loop against the state of the production
    loop on the same draws. *)
Definition loopsAgree (s : TestScript.ScriptState) (t : GenState) : Prop :=
  gen_x (TestScript.gen s) = gen_x t
  /\ drawn (TestScript.gen s) = drawn t
  /\ gen_obstacles (TestScript.gen s) = gen_obstacles t
  /\ Forall2 windowAgrees (gen_windows (TestScript.gen s)) (gen_windows t).


(** * Properties *)

(** ** The model at work *)

(** The tap of level 1 (impulse -426, gravity 670, speed 192): 77
    samples, from the launch to the landing 19/15 s later. *)
Example level1_tap_launch :
  firstn 2 (simulateJump 0 (-426) 670 192 0)
  = [mkPosition 0 698 0; mkPosition (16 # 5) (248791 # 360) (1 # 60)].
Proof. vm_compute. reflexivity. Qed.

Example level1_tap_landing :
  List.length (simulateJump 0 (-426) 670 192 0) = 77%nat
  /\ last (simulateJump 0 (-426) 670 192 0) (mkPosition 0 0 0)
     = mkPosition (1216 # 5) 698 (19 # 15).
Proof. split; vm_compute; reflexivity. Qed.

(** Without gravity the body sticks to the ceiling and only the clock
    ends the loop: the last of the 601 samples is taken at [t = 10]. *)
Example zero_gravity_runs_to_the_bound :
  List.length (simulateJump 0 (-426) 0 192 0) = 601%nat
  /\ last (simulateJump 0 (-426) 0 192 0) (mkPosition 0 0 0)
     = mkPosition 1920 80 10.
Proof. split; vm_compute; reflexivity. Qed.

(** The first spike of level 1 when every draw is 0. *)
Example level1_first_spike :
  calculateClearanceWindow 600 37 48 (-426) 670 192
  = mkClearance 429 568 false 0.
Proof. vm_compute. reflexivity. Qed.

(** ** Arithmetic of numbers *)

Lemma add_eq (a b : number) : (a + b)%js == a + b.
Proof. apply Qred_correct. Qed.

Lemma sub_eq (a b : number) : (a - b)%js == a - b.
Proof. apply Qred_correct. Qed.

Lemma mul_eq (a b : number) : (a * b)%js == a * b.
Proof. apply Qred_correct. Qed.

Lemma div_eq (a b : number) : (a / b)%js == a / b.
Proof. apply Qred_correct. Qed.

Lemma ltb_lt (a b : number) : (a < b)%js = true <-> a < b.
Proof.
  unfold Num.ltb. rewrite Qlt_alt.
  destruct (a ?= b); split; intros H; congruence.
Qed.

Lemma ltb_ge (a b : number) : (a < b)%js = false <-> b <= a.
Proof.
  unfold Num.ltb. rewrite Qle_alt, <- (Qcompare_antisym a b).
  destruct (a ?= b); simpl; split; intros H; congruence.
Qed.

Lemma leb_le (a b : number) : (a <= b)%js = true <-> a <= b.
Proof.
  unfold Num.leb. rewrite Qle_alt.
  destruct (a ?= b); split; intros H; congruence.
Qed.

Lemma leb_gt (a b : number) : (a <= b)%js = false <-> b < a.
Proof.
  unfold Num.leb. rewrite Qlt_alt, <- (Qcompare_antisym a b).
  destruct (a ?= b); simpl; split; intros H; congruence.
Qed.

Lemma max_eq (a b : number) : Num.max a b == Qmax a b.
Proof.
  unfold Num.max. destruct (a < b)%js eqn:E.
  - apply ltb_lt in E. symmetry. apply Q.max_r. lra.
  - apply ltb_ge in E. symmetry. apply Q.max_l. lra.
Qed.

Lemma min_eq (a b : number) : Num.min a b == Qmin a b.
Proof.
  unfold Num.min. destruct (b < a)%js eqn:E.
  - apply ltb_lt in E. symmetry. apply Q.min_r. lra.
  - apply ltb_ge in E. symmetry. apply Q.min_l. lra.
Qed.

(** Turn the arithmetic of numbers in the goal and the context into
    arithmetic of [Q]. *)
Ltac to_Q :=
  unfold Num.gtb, Num.geb in *;
  repeat match goal with
  | H : (_ < _)%js = true |- _ => apply ltb_lt in H
  | H : (_ < _)%js = false |- _ => apply ltb_ge in H
  | H : (_ <= _)%js = true |- _ => apply leb_le in H
  | H : (_ <= _)%js = false |- _ => apply leb_gt in H
  | |- (_ < _)%js = true => apply ltb_lt
  | |- (_ < _)%js = false => apply ltb_ge
  | |- (_ <= _)%js = true => apply leb_le
  | |- (_ <= _)%js = false => apply leb_gt
  end;
  repeat match goal with
  | H : context [Num.add _ _] |- _ => rewrite add_eq in H
  | H : context [Num.sub _ _] |- _ => rewrite sub_eq in H
  | H : context [Num.mul _ _] |- _ => rewrite mul_eq in H
  | H : context [Num.div _ _] |- _ => rewrite div_eq in H
  end;
  rewrite ?add_eq, ?sub_eq, ?mul_eq, ?div_eq.

Lemma dt_eq : dt == 1 # 60.
Proof. reflexivity. Qed.

Lemma ground_eq : PLAYER_GROUND_Y == 698.
Proof. reflexivity. Qed.

Lemma inject_succ (n : nat) :
  inject_Z (Z.of_nat (S n)) == inject_Z (Z.of_nat n) + 1.
Proof. rewrite Nat2Z.inj_succ, <- Z.add_1_r, inject_Z_plus. reflexivity. Qed.

(** ** The simulator always returns *)

Section SimulatorFacts.

Variables (jumpForce grav speed : number).

Lemma applyHold_t (s : SimState) :
  sim_t (applyHold jumpForce grav s) = sim_t s.
Proof.
  unfold applyHold.
  destruct (isHolding s && (holdTimeRemaining s > 0)%js); reflexivity.
Qed.

Lemma ceiling_t (s : SimState) : sim_t (ceiling s) = sim_t s.
Proof.
  unfold ceiling.
  destruct (sim_y s < PLAYABLE_TOP + PLAYER_SIZE / 2)%js; reflexivity.
Qed.

Lemma advance_t (s : SimState) :
  sim_t (advance jumpForce grav speed s) == sim_t s + (1 # 60).
Proof.
  unfold advance. rewrite ceiling_t. simpl.
  rewrite applyHold_t, add_eq, dt_eq. reflexivity.
Qed.

(** Once the clock is within [n + 1] steps of passing 10, [n + 1]
    iterations are enough, and more fuel changes nothing. *)
Lemma simLoop_enough (n : nat) : forall (s : SimState) (k : nat),
  10 < sim_t s + inject_Z (Z.of_nat (S n)) * (1 # 60) ->
  simLoop jumpForce grav speed (S n + k) s
  = simLoop jumpForce grav speed (S n) s
  /\ simLoop jumpForce grav speed (S n) s <> None.
Proof.
  induction n as [|n IH]; intros s k Ht.
  - simpl. destruct (airborne s); [|split; [reflexivity|discriminate]].
    destruct (landed _); [split; [reflexivity|discriminate]|].
    assert (E : (sim_t (advance jumpForce grav speed s) > 10)%js = true).
    { unfold Num.gtb. apply ltb_lt. rewrite advance_t.
      change (inject_Z (Z.of_nat 1)) with 1 in Ht. lra. }
    rewrite E. split; [reflexivity|discriminate].
  - change (simLoop jumpForce grav speed (S (S n) + k) s)
      with (if airborne s then
              let s' := advance jumpForce grav speed s in
              if landed s' then
                Some [sample s;
                      mkPosition (sim_x s') PLAYER_GROUND_Y (sim_t s')]
              else if (sim_t s' > 10)%js then Some [sample s]
              else option_map (cons (sample s))
                     (simLoop jumpForce grav speed (S n + k) s')
            else Some []).
    change (simLoop jumpForce grav speed (S (S n)) s)
      with (if airborne s then
              let s' := advance jumpForce grav speed s in
              if landed s' then
                Some [sample s;
                      mkPosition (sim_x s') PLAYER_GROUND_Y (sim_t s')]
              else if (sim_t s' > 10)%js then Some [sample s]
              else option_map (cons (sample s))
                     (simLoop jumpForce grav speed (S n) s')
            else Some []).
    destruct (airborne s); [|split; [reflexivity|discriminate]].
    cbv zeta.
    destruct (landed _); [split; [reflexivity|discriminate]|].
    destruct (sim_t _ > 10)%js; [split; [reflexivity|discriminate]|].
    destruct (IH (advance jumpForce grav speed s) k) as [E N].
    { rewrite advance_t. rewrite inject_succ in Ht. lra. }
    rewrite E. split; [reflexivity|].
    destruct (simLoop jumpForce grav speed (S n)
                (advance jumpForce grav speed s));
      [discriminate|contradiction].
Qed.

(** Every sample is taken at most one step after the clock reads 10. *)
Lemma simLoop_time (n : nat) : forall (s : SimState) (l : list Position),
  sim_t s <= 10 ->
  simLoop jumpForce grav speed n s = Some l ->
  Forall (fun p => pos_t p <= 10 + (1 # 60)) l.
Proof.
  induction n as [|n IH]; intros s l Ht; simpl; [discriminate|].
  destruct (airborne s); [|intros [= <-]; constructor].
  destruct (landed _).
  - intros [= <-]. repeat constructor; simpl; [lra|].
    rewrite advance_t. lra.
  - destruct (sim_t _ > 10)%js eqn:E.
    + intros [= <-]. repeat constructor; simpl; lra.
    + destruct (simLoop _ _ _ n _) as [l'|] eqn:El; [|discriminate].
      intros [= <-]. constructor; [simpl; lra|].
      apply (IH _ _ (proj1 (ltb_ge _ _) E) El).
Qed.

Lemma simLoop_length (n : nat) : forall (s : SimState) (l : list Position),
  simLoop jumpForce grav speed n s = Some l -> (length l <= S n)%nat.
Proof.
  induction n as [|n IH]; intros s l; simpl; [discriminate|].
  destruct (airborne s); [|intros [= <-]; simpl; lia].
  destruct (landed _); [intros [= <-]; simpl; lia|].
  destruct (sim_t _ > 10)%js; [intros [= <-]; simpl; lia|].
  destruct (simLoop _ _ _ n _) as [l'|] eqn:El; [|discriminate].
  intros [= <-]. simpl. apply IH in El. lia.
Qed.

Lemma simLoop_grounded (n : nat) (s : SimState) :
  airborne s = false -> simLoop jumpForce grav speed (S n) s = Some [].
Proof. intros H. simpl. rewrite H. reflexivity. Qed.

End SimulatorFacts.

Lemma simulateJump_fuel_enough
    (startX jumpForce grav speed holdDuration : number) (k : nat) :
  simulateJump_fuel (simFuel + k) startX jumpForce grav speed holdDuration
  = Some (simulateJump startX jumpForce grav speed holdDuration).
Proof.
  unfold simulateJump, simulateJump_fuel.
  destruct (simLoop_enough jumpForce grav speed 600
              (simInit startX jumpForce holdDuration) k) as [E N].
  { simpl. reflexivity. }
  change (S 600) with simFuel in E, N. rewrite E.
  destruct (simLoop jumpForce grav speed simFuel _); congruence.
Qed.

(** C6: for every input the simulator leaves its loop within 601
    iterations (so any larger fuel gives the same finite list of at most
    602 samples), and no sample is later than 10 seconds plus one
    timestep. *)
Theorem simulateJump_terminates
    (startX jumpForce grav speed holdDuration : number) :
  (forall k : nat,
      simulateJump_fuel (simFuel + k) startX jumpForce grav speed
                        holdDuration
      = Some (simulateJump startX jumpForce grav speed holdDuration))
  /\ (length (simulateJump startX jumpForce grav speed holdDuration)
      <= 602)%nat
  /\ Forall (fun p => pos_t p <= 10 + (1 # 60))
            (simulateJump startX jumpForce grav speed holdDuration).
Proof.
  pose proof (simulateJump_fuel_enough startX jumpForce grav speed
                holdDuration 0) as E.
  rewrite Nat.add_0_r in E. unfold simulateJump_fuel in E.
  split; [apply simulateJump_fuel_enough|]. split.
  - apply (simLoop_length _ _ _ _ _ _ E).
  - eapply simLoop_time; [|exact E]. simpl. lra.
Qed.

(** C9: with a non-negative impulse the loop condition is false at the
    start, so the simulator returns the empty list. *)
Theorem simulateJump_nonneg_impulse_empty
    (startX jumpForce grav speed holdDuration : number) :
  0 <= jumpForce ->
  simulateJump startX jumpForce grav speed holdDuration = [].
Proof.
  intros H. unfold simulateJump, simulateJump_fuel.
  change simFuel with (S 600).
  rewrite simLoop_grounded; [reflexivity|].
  unfold airborne. cbn [simInit sim_y sim_vy].
  replace (jumpForce < 0)%js with false; [reflexivity|].
  symmetry. apply ltb_ge. exact H.
Qed.

Lemma simulateJump_nonneg_impulse_empty_witness :
  0 <= 5 /\ simulateJump 0 5 670 192 (1 # 2) = [].
Proof.
  split; [lra | apply simulateJump_nonneg_impulse_empty; lra].
Defined.

(** ** Loops with fuel *)

Section WhileFacts.

Context {St : Type} (cond : St -> bool) (body : St -> St).

Lemma while_fuel_more (fuel : nat) : forall (s s' : St) (k : nat),
  while_fuel cond body fuel s = Some s' ->
  while_fuel cond body (fuel + k) s = Some s'.
Proof.
  induction fuel as [|fuel IH]; intros s s' k; simpl; [discriminate|].
  destruct (cond s); [apply IH|trivial].
Qed.

Lemma while_fuel_unique (f1 f2 : nat) (s s1 s2 : St) :
  while_fuel cond body f1 s = Some s1 ->
  while_fuel cond body f2 s = Some s2 -> s1 = s2.
Proof.
  intros H1 H2.
  apply (while_fuel_more _ _ _ f2) in H1.
  apply (while_fuel_more _ _ _ f1) in H2.
  rewrite Nat.add_comm in H2. congruence.
Qed.

(** A property kept by the body holds when the loop is left. *)
Lemma while_fuel_invariant (P : St -> Prop) :
  (forall s, P s -> cond s = true -> P (body s)) ->
  forall (fuel : nat) (s s' : St),
    P s -> while_fuel cond body fuel s = Some s' -> P s'.
Proof.
  intros step fuel.
  induction fuel as [|fuel IH]; intros s s' Hs; simpl; [discriminate|].
  destruct (cond s) eqn:C.
  - apply IH. apply step; assumption.
  - intros [= <-]. exact Hs.
Qed.

(** A measure that is positive while the loop runs and drops by at
    least one in each pass bounds the number of passes. *)
Lemma while_fuel_total (mu : St -> Q) :
  (forall s, cond s = true -> 0 < mu s /\ mu (body s) + 1 <= mu s) ->
  forall s : St, exists (fuel : nat) (s' : St),
    while_fuel cond body fuel s = Some s'.
Proof.
  intros step.
  assert (G : forall (n : nat) (s : St),
             mu s <= inject_Z (Z.of_nat n) ->
             exists s', while_fuel cond body (S n) s = Some s').
  { induction n as [|n IH]; intros s Hmu.
    - simpl. destruct (cond s) eqn:C; [|eauto].
      destruct (step s C) as [Hpos _].
      change (inject_Z (Z.of_nat 0)) with 0 in Hmu. lra.
    - change (while_fuel cond body (S (S n)) s)
        with (if cond s then while_fuel cond body (S n) (body s)
              else Some s).
      destruct (cond s) eqn:C; [|eauto].
      apply IH. destruct (step s C) as [_ Hdrop].
      rewrite inject_succ in Hmu. lra. }
  intros s. exists (S (Z.to_nat (Qceiling (mu s)))).
  apply G. pose proof (Qle_ceiling (mu s)) as Hc.
  destruct (Z.le_gt_cases 0 (Qceiling (mu s))) as [Hz|Hz].
  - rewrite Z2Nat.id by exact Hz. exact Hc.
  - replace (Z.to_nat (Qceiling (mu s))) with 0%nat by lia.
    apply Qle_trans with (1 := Hc).
    rewrite <- Zle_Qle. simpl. lia.
Qed.

End WhileFacts.

(** ** The solver *)

Section SolverFacts.

Variables (jumpForce grav speed requiredPlayerY : number).

Lemma holdSweep_fuel_list (fuel : nat) : forall (hd : number) (st st' : Search),
  holdSweep_fuel jumpForce grav speed requiredPlayerY fuel hd st = Some st' ->
  st' = sweepOver jumpForce grav speed requiredPlayerY
          (sweepDurations fuel hd) st.
Proof.
  induction fuel as [|fuel IH]; intros hd st st';
    cbn [holdSweep_fuel sweepDurations]; [discriminate|].
  destruct (hd <= 1.0)%js; [|intros [= <-]; reflexivity].
  cbn [sweepOver]. cbv zeta.
  destruct (holdPeak _ <= requiredPlayerY)%js;
    [intros [= <-]; reflexivity | apply IH].
Qed.

Lemma holdSweep_fuel_enough_from (n : nat) :
  forall (hd : number) (k : nat) (st : Search),
    1 < hd + inject_Z (Z.of_nat n) * (1 # 10) ->
    holdSweep_fuel jumpForce grav speed requiredPlayerY (S n + k) hd st
    = holdSweep_fuel jumpForce grav speed requiredPlayerY (S n) hd st
    /\ holdSweep_fuel jumpForce grav speed requiredPlayerY (S n) hd st
       <> None.
Proof.
  induction n as [|n IH]; intros hd k st Hhd.
  - cbn [holdSweep_fuel Nat.add]. destruct (hd <= 1.0)%js eqn:E.
    + to_Q. change (inject_Z (Z.of_nat 0)) with 0 in Hhd. lra.
    + split; [reflexivity|discriminate].
  - change (holdSweep_fuel jumpForce grav speed requiredPlayerY
              (S (S n) + k) hd st)
      with (if (hd <= 1.0)%js then
              let holdPositions := simulateJump 0 jumpForce grav speed hd in
              if (holdPeak holdPositions <= requiredPlayerY)%js then
                let fl := aboveRange requiredPlayerY holdPositions in
                Some (mkSearch (fst fl) (snd fl) (s_needsHold st) hd)
              else holdSweep_fuel jumpForce grav speed requiredPlayerY
                     (S n + k) (hd + 0.1)%js st
            else Some st).
    change (holdSweep_fuel jumpForce grav speed requiredPlayerY
              (S (S n)) hd st)
      with (if (hd <= 1.0)%js then
              let holdPositions := simulateJump 0 jumpForce grav speed hd in
              if (holdPeak holdPositions <= requiredPlayerY)%js then
                let fl := aboveRange requiredPlayerY holdPositions in
                Some (mkSearch (fst fl) (snd fl) (s_needsHold st) hd)
              else holdSweep_fuel jumpForce grav speed requiredPlayerY
                     (S n) (hd + 0.1)%js st
            else Some st).
    destruct (hd <= 1.0)%js; [|split; [reflexivity|discriminate]].
    cbv zeta.
    destruct (holdPeak _ <= requiredPlayerY)%js;
      [split; [reflexivity|discriminate]|].
    apply IH. rewrite add_eq. rewrite inject_succ in Hhd. lra.
Qed.

(** Eleven iterations leave the sweep; more fuel changes nothing. *)
Lemma holdSweep_fuel_enough (k : nat) (st : Search) :
  holdSweep_fuel jumpForce grav speed requiredPlayerY (sweepFuel + k) 0.1 st
  = Some (holdSweep jumpForce grav speed requiredPlayerY st).
Proof.
  unfold holdSweep.
  destruct (holdSweep_fuel_enough_from 10 0.1 k st) as [E N].
  { reflexivity. }
  change (S 10) with sweepFuel in E, N. rewrite E.
  destruct (holdSweep_fuel jumpForce grav speed requiredPlayerY
              sweepFuel 0.1 st); congruence.
Qed.

(** The sweep tries 0.1, 0.2, ..., 1.0 in this order. *)
Lemma holdSweep_list (st : Search) :
  holdSweep jumpForce grav speed requiredPlayerY st
  = sweepOver jumpForce grav speed requiredPlayerY holdDurations st.
Proof.
  apply holdSweep_fuel_list.
  rewrite <- (holdSweep_fuel_enough 0 st), Nat.add_0_r. reflexivity.
Qed.

End SolverFacts.

Lemma holdDurations_eq :
  holdDurations
  = [1 # 10; 1 # 5; 3 # 10; 2 # 5; 1 # 2; 3 # 5; 7 # 10; 4 # 5; 9 # 10; 1].
Proof. reflexivity. Qed.

(** *** Scanning a trajectory *)

Section ScanFacts.

Variable requiredPlayerY : number.

(** The single pass over the tap trajectory computes the peak and the
    first/last offsets independently. *)
Lemma scan_split (l : list Position) : forall acc : Scan,
  let r := fold_left (scanStep requiredPlayerY) l acc in
  peakY r = fold_left peakStep l (peakY acc)
  /\ (firstAboveX r, lastAboveX r)
     = fold_left (aboveStep requiredPlayerY) l
                 (firstAboveX acc, lastAboveX acc).
Proof.
  induction l as [|p l IH]; intros acc; simpl; [split; reflexivity|].
  destruct (IH (scanStep requiredPlayerY acc p)) as [Hp Hfl].
  split; [exact Hp|].
  rewrite Hfl. unfold scanStep. simpl.
  rewrite <- surjective_pairing. reflexivity.
Qed.

Lemma above_none (l : list Position) : forall fl : number * number,
  noneAbove requiredPlayerY l = true ->
  fold_left (aboveStep requiredPlayerY) l fl = fl.
Proof.
  induction l as [|p l IH]; intros fl; simpl; [reflexivity|].
  intros H. apply andb_prop in H. destruct H as [Hp Hl].
  unfold aboveStep at 2.
  destruct (pos_y p <= requiredPlayerY)%js; [discriminate|].
  apply IH. exact Hl.
Qed.

End ScanFacts.

Lemma tapScan_none (requiredPlayerY : number) (l : list Position) :
  noneAbove requiredPlayerY l = true ->
  firstAboveX (tapScan requiredPlayerY l) = -1
  /\ lastAboveX (tapScan requiredPlayerY l) = -1.
Proof.
  intros H. unfold tapScan.
  destruct (scan_split requiredPlayerY l (mkScan PLAYER_GROUND_Y (-1) (-1)))
    as [_ E].
  simpl in E. rewrite (above_none _ _ _ H) in E.
  split; congruence.
Qed.

Lemma sweepOver_none (jumpForce grav speed requiredPlayerY : number)
    (hds : list number) (st : Search) :
  forallb
    (fun hd =>
       noneAbove requiredPlayerY (simulateJump 0 jumpForce grav speed hd))
    hds = true ->
  s_firstAboveX st = -1 -> s_lastAboveX st = -1 ->
  let st' := sweepOver jumpForce grav speed requiredPlayerY hds st in
  s_firstAboveX st' = -1 /\ s_lastAboveX st' = -1
  /\ s_needsHold st' = s_needsHold st.
Proof.
  induction hds as [|hd hds IH]; cbn [forallb sweepOver]; cbv zeta;
    intros H Hf Hl; [auto|].
  apply andb_prop in H. destruct H as [Hhd Hrest].
  destruct (holdPeak _ <= requiredPlayerY)%js.
  - unfold aboveRange. rewrite (above_none _ _ _ Hhd).
    cbn [fst snd s_firstAboveX s_lastAboveX s_needsHold]. auto.
  - apply IH; assumption.
Qed.

(** *** The returned interval *)

Lemma min_le_max (a b : number) : Num.min a b <= Num.max a b.
Proof.
  unfold Num.min, Num.max.
  destruct (b < a)%js eqn:E1; destruct (a < b)%js eqn:E2; to_Q; lra.
Qed.

Lemma clearance_window_bounds
    (obstacleX obstacleWidth obstacleHeight jumpForce grav speed : number) :
  let c := calculateClearanceWindow obstacleX obstacleWidth obstacleHeight
             jumpForce grav speed in
  let st := searchOffsets jumpForce grav speed (requiredY obstacleHeight) in
  earliestJumpX c <= latestJumpX c
  /\ earliestJumpX c
     == Qmin (obstacleX + obstacleWidth - lastOffset st)
             (obstacleX - firstOffset st)
  /\ latestJumpX c
     == Qmax (obstacleX + obstacleWidth - lastOffset st)
             (obstacleX - firstOffset st).
Proof.
  unfold calculateClearanceWindow. cbn [earliestJumpX latestJumpX].
  split; [apply min_le_max|].
  rewrite min_eq, max_eq, !sub_eq, add_eq. split; reflexivity.
Qed.

(** C4: the returned interval is ordered, and its ends are the minimum
    and the maximum of the two raw bounds
    [obstacleX + obstacleWidth - lastOffset] and
    [obstacleX - firstOffset]. *)
Theorem clearance_window_ordered
    (obstacleX obstacleWidth obstacleHeight jumpForce grav speed : number) :
  let c := calculateClearanceWindow obstacleX obstacleWidth obstacleHeight
             jumpForce grav speed in
  let st := searchOffsets jumpForce grav speed (requiredY obstacleHeight) in
  earliestJumpX c <= latestJumpX c
  /\ earliestJumpX c
     == Qmin (obstacleX + obstacleWidth - lastOffset st)
             (obstacleX - firstOffset st)
  /\ latestJumpX c
     == Qmax (obstacleX + obstacleWidth - lastOffset st)
             (obstacleX - firstOffset st).
Proof.
  apply clearance_window_bounds.
Qed.

(** C7: an offset that is still negative when the search is over is
    replaced by its default, 50 for the first and 150 for the last.
    When neither the tap trajectory nor any trajectory of the sweep has
    a sample at the required height, both offsets are negative, and the
    solver returns the ordered interval built from 50 and 150, flagged
    as needing a hold. *)
Theorem solver_falls_back_to_defaults
    (obstacleX obstacleWidth obstacleHeight jumpForce grav speed : number) :
  let c := calculateClearanceWindow obstacleX obstacleWidth obstacleHeight
             jumpForce grav speed in
  let st := searchOffsets jumpForce grav speed (requiredY obstacleHeight) in
  (s_firstAboveX st < 0 -> firstOffset st = 50)
  /\ (s_lastAboveX st < 0 -> lastOffset st = 150)
  /\ (searchFindsNothing jumpForce grav speed (requiredY obstacleHeight)
      = true ->
      s_firstAboveX st < 0 /\ s_lastAboveX st < 0
      /\ earliestJumpX c
         == Qmin (obstacleX + obstacleWidth - 150) (obstacleX - 50)
      /\ latestJumpX c
         == Qmax (obstacleX + obstacleWidth - 150) (obstacleX - 50)
      /\ earliestJumpX c <= latestJumpX c
      /\ needsHold c = true).
Proof.
  intros c st.
  assert (F : s_firstAboveX st < 0 -> firstOffset st = 50).
  { intros H. unfold firstOffset.
    rewrite (proj2 (ltb_lt _ _) H). reflexivity. }
  assert (L : s_lastAboveX st < 0 -> lastOffset st = 150).
  { intros H. unfold lastOffset.
    rewrite (proj2 (ltb_lt _ _) H). reflexivity. }
  split; [exact F|]. split; [exact L|].
  intros H. apply andb_prop in H. destruct H as [Htap Hhold].
  destruct (tapScan_none _ _ Htap) as [Hf Hl].
  assert (Hst : s_firstAboveX st = -1 /\ s_lastAboveX st = -1
                /\ s_needsHold st = true).
  { subst st. unfold searchOffsets. cbv zeta. rewrite Hf, Hl.
    replace (-1 < 0)%js with true by reflexivity. rewrite orb_true_r.
    rewrite holdSweep_list.
    exact (sweepOver_none _ _ _ _ _ (mkSearch (-1) (-1) true 0) Hhold
             eq_refl eq_refl). }
  destruct Hst as [Sf [Sl Sn]].
  assert (Nf : s_firstAboveX st < 0) by (rewrite Sf; reflexivity).
  assert (Nl : s_lastAboveX st < 0) by (rewrite Sl; reflexivity).
  destruct (clearance_window_bounds obstacleX obstacleWidth obstacleHeight
              jumpForce grav speed) as [Ho [He Hm]].
  fold c in Ho, He, Hm. fold st in He, Hm.
  rewrite (F Nf), (L Nl) in He, Hm.
  repeat split; assumption.
Qed.

Lemma solver_falls_back_to_defaults_witness :
  searchFindsNothing (-426) 670 192 (requiredY 1000) = true
  /\ earliestJumpX (calculateClearanceWindow 1000 50 1000 (-426) 670 192)
     == Qmin (1000 + 50 - 150) (1000 - 50)
  /\ latestJumpX (calculateClearanceWindow 1000 50 1000 (-426) 670 192)
     == Qmax (1000 + 50 - 150) (1000 - 50).
Proof.
  assert (H : searchFindsNothing (-426) 670 192 (requiredY 1000) = true)
    by (vm_compute; reflexivity).
  split; [exact H|].
  destruct (solver_falls_back_to_defaults 1000 50 1000 (-426) 670 192)
    as [_ [_ D]].
  destruct (D H) as [_ [_ [He [Hm _]]]].
  split; [exact He|exact Hm].
Defined.

(** ** Fitting the window to the target width *)

Lemma baseWindowWidth_ge (difficulty : number) :
  60 <= baseWindowWidth difficulty.
Proof.
  unfold baseWindowWidth, Num.max.
  destruct (_ < 60)%js eqn:E; to_Q; lra.
Qed.

Lemma shrinkWindow_ordered (difficulty windowStart windowEnd : number) :
  windowStart <= windowEnd ->
  let w := shrinkWindow difficulty windowStart windowEnd in
  fst w <= snd w
  /\ snd w - fst w
     == Qmin (windowEnd - windowStart) (baseWindowWidth difficulty).
Proof.
  intros H. pose proof (baseWindowWidth_ge difficulty) as B.
  unfold shrinkWindow. cbv zeta.
  destruct (_ > baseWindowWidth difficulty)%js eqn:E; cbn [fst snd]; to_Q.
  - rewrite Q.min_r by lra. split; lra.
  - rewrite Q.min_l by lra. split; lra.
Qed.

(** C10: on the solver's interval the shrink step leaves a window whose
    end is not before its start (its width is the smaller of the natural
    width and the target width), so the clamp to [windowStart + 30] is
    never taken and [fitWindow] is the shrink alone. *)
Theorem minimum_window_clamp_unreachable
    (difficulty obstacleX obstacleWidth obstacleHeight
     jumpForce grav speed : number) :
  let c := calculateClearanceWindow obstacleX obstacleWidth obstacleHeight
             jumpForce grav speed in
  let w := shrinkWindow difficulty (earliestJumpX c) (latestJumpX c) in
  (snd w < fst w)%js = false
  /\ fitWindow difficulty c = w
  /\ snd w - fst w
     == Qmin (latestJumpX c - earliestJumpX c) (baseWindowWidth difficulty)
  /\ 0 <= snd w - fst w.
Proof.
  intros c w.
  destruct (clearance_window_bounds obstacleX obstacleWidth obstacleHeight
              jumpForce grav speed) as [Ho _].
  fold c in Ho.
  destruct (shrinkWindow_ordered difficulty _ _ Ho) as [Hw Hd].
  fold w in Hw, Hd.
  assert (E : (snd w < fst w)%js = false) by (apply ltb_ge; exact Hw).
  split; [exact E|]. split.
  - unfold fitWindow, clampWindow. fold w. rewrite E. reflexivity.
  - split; [exact Hd | lra].
Qed.

(** ** The generators *)

Section GravityFacts.

Variables (difficulty length speed jumpForce grav : number).
Variable random : nat -> number.

Lemma emitPair_gap (x : number) (sh : Shape) (c : Clearance) :
  isGap (obstacleType sh) = true ->
  emitPair difficulty x sh c
  = (mkObstacle x 1 (obstacleWidth sh) (obstacleHeight sh) gap,
     gapJumpWindow x).
Proof. intros H. unfold emitPair. rewrite H. reflexivity. Qed.

Lemma emitPair_ok (x : number) (sh : Shape) (c : Clearance) :
  pairOK (fst (emitPair difficulty x sh c))
         (snd (emitPair difficulty x sh c)).
Proof.
  unfold emitPair, pairOK.
  destruct (isGap (obstacleType sh)) eqn:G; cbn [fst snd].
  - split; [|reflexivity]. unfold gapJumpWindow.
    cbn [jw_holdDuration jw_type]. split; [congruence|discriminate].
  - split.
    + cbn [jw_holdDuration jw_type].
      destruct (needsHold c); split; congruence.
    + cbn [o_type]. intros E. rewrite E in G. discriminate.
Qed.

(** One pass pushes exactly one obstacle and one window. *)
Lemma placeObstacle_pushes (s : GenState) :
  exists (o : Obstacle) (w : JumpWindow),
    gen_obstacles (placeObstacle difficulty speed jumpForce grav random s)
    = gen_obstacles s ++ [o]
    /\ gen_windows (placeObstacle difficulty speed jumpForce grav random s)
       = gen_windows s ++ [w]
    /\ pairOK o w.
Proof.
  unfold placeObstacle.
  destruct (chooseObstacle _ _ _ _ _) as [sh n].
  pose proof (emitPair_ok (gen_x s) sh
                (clearanceFor speed jumpForce grav (gen_x s) sh)) as H.
  destruct (emitPair _ _ _ _) as [o w].
  exists o, w. simpl. auto.
Qed.

Lemma gravityLoop_pairs (fuel : nat) (s : GenState) :
  gravityLoop difficulty length speed jumpForce grav random fuel genInit
  = Some s ->
  Forall2 pairOK (gen_obstacles s) (gen_windows s).
Proof.
  apply (while_fuel_invariant _ _
           (fun s => Forall2 pairOK (gen_obstacles s) (gen_windows s))).
  - intros s0 H0 _.
    destruct (placeObstacle_pushes s0) as [o [w [Eo [Ew Hp]]]].
    rewrite Eo, Ew. apply Forall2_app; [exact H0|].
    constructor; [exact Hp|constructor].
  - constructor.
Qed.

(** Every shape is at least 215 wide together with the least spacing,
    whatever the difficulty. *)
Lemma chooseObstacle_width (isHoldJump : bool) (rand : number) (n : nat) :
  215 <= obstacleWidth
           (fst (chooseObstacle difficulty random isHoldJump rand n))
         + minSpacing difficulty.
Proof.
  unfold chooseObstacle, minSpacing, Num.max.
  destruct isHoldJump; [|destruct (rand < 0.5)%js;
                          [|destruct (rand < 0.85)%js]];
    cbn [fst obstacleWidth];
    destruct (_ < 180)%js eqn:E; to_Q; lra.
Qed.

Lemma placeObstacle_advances (s : GenState) :
  unitDraws random ->
  gen_x s + 215
  <= gen_x (placeObstacle difficulty speed jumpForce grav random s).
Proof.
  intros R. unfold placeObstacle.
  pose proof (chooseObstacle_width
                ((random (drawn s) < holdJumpProbability difficulty)%js
                 && (difficulty >= 3)%js)
                (random (drawn s)) (S (drawn s))) as W.
  destruct (chooseObstacle _ _ _ _ _) as [sh n].
  destruct (emitPair _ _ _ _) as [o w].
  cbn [gen_x fst] in *. destruct (R n) as [R0 _].
  unfold maxSpacing. to_Q.
  set (m := minSpacing difficulty) in *.
  assert (0 <= random n * 150) by (apply Qmult_le_0_compat; lra).
  lra.
Qed.

Lemma gravityLoop_total :
  unitDraws random ->
  exists (fuel : nat) (s : GenState),
    gravityLoop difficulty length speed jumpForce grav random fuel genInit
    = Some s.
Proof.
  intros R.
  apply (while_fuel_total _ _
           (fun s => (length - 400 - gen_x s) * (1 # 215))).
  intros s C. to_Q.
  pose proof (placeObstacle_advances s R) as A.
  set (x' := gen_x (placeObstacle _ _ _ _ _ s)) in *.
  split; lra.
Qed.

End GravityFacts.

Section WaveFacts.

Variables (difficulty length : number).
Variable random : nat -> number.

Lemma waveLoop_ok (fuel : nat) (s : GenState) :
  waveLoop difficulty length random fuel genInit = Some s -> waveOK s.
Proof.
  apply (while_fuel_invariant _ _ waveOK).
  - intros s0 [Hl [Hw Ho]] _. unfold waveOK, placeWavePair.
    cbn [gen_obstacles gen_windows].
    rewrite !length_app. simpl. split; [lia|]. split.
    + apply Forall_app. split; [exact Hw|]. repeat constructor.
    + apply Forall_app. split; [exact Ho|]. repeat constructor.
  - repeat split; constructor.
Qed.

Lemma waveSpacing_ge : 100 <= waveSpacing difficulty.
Proof.
  unfold waveSpacing, Num.max. destruct (_ < 100)%js eqn:E; to_Q; lra.
Qed.

Lemma waveLoop_total :
  unitDraws random ->
  exists (fuel : nat) (s : GenState),
    waveLoop difficulty length random fuel genInit = Some s.
Proof.
  intros R.
  apply (while_fuel_total _ _
           (fun s => (length - 200 - gen_x s) * (1 # 100))).
  intros s C. to_Q. unfold placeWavePair. cbn [gen_x].
  pose proof waveSpacing_ge as W.
  destruct (R (S (S (drawn s)))) as [R0 _]. to_Q.
  assert (0 <= random (S (S (drawn s))) * 80)
    by (apply Qmult_le_0_compat; lra).
  split; lra.
Qed.

End WaveFacts.

(** *** Generated levels *)

Lemma generate_total
    (difficulty length : number) (mode : Mode)
    (speed jumpForce grav : number) (random : nat -> number) :
  unitDraws random ->
  exists (fuel : nat) (lvl : Level),
    generateJumpWindowLevel fuel difficulty length mode speed jumpForce grav
                            random = Some lvl.
Proof.
  intros R. unfold generateJumpWindowLevel, generateWaveObstacles.
  destruct mode.
  - destruct (gravityLoop_total difficulty length speed jumpForce grav
                random R) as [fuel [s E]].
    exists fuel, (levelOf s). rewrite E. reflexivity.
  - destruct (waveLoop_total difficulty length random R) as [fuel [s E]].
    exists fuel, (levelOf s). rewrite E. reflexivity.
Qed.

(** The level does not depend on the fuel that sufficed. *)
Lemma generate_unique (f1 f2 : nat)
    (difficulty length : number) (mode : Mode)
    (speed jumpForce grav : number) (random : nat -> number)
    (l1 l2 : Level) :
  generateJumpWindowLevel f1 difficulty length mode speed jumpForce grav
                          random = Some l1 ->
  generateJumpWindowLevel f2 difficulty length mode speed jumpForce grav
                          random = Some l2 ->
  l1 = l2.
Proof.
  unfold generateJumpWindowLevel, generateWaveObstacles, gravityLoop,
    waveLoop.
  destruct mode;
    destruct (while_fuel _ _ f1 genInit) as [s1|] eqn:E1; try discriminate;
    destruct (while_fuel _ _ f2 genInit) as [s2|] eqn:E2; try discriminate;
    intros [= <-] [= <-];
    rewrite (while_fuel_unique _ _ _ _ _ _ _ E1 E2); reflexivity.
Qed.

Lemma generate_gravity_pairs (fuel : nat)
    (difficulty length speed jumpForce grav : number)
    (random : nat -> number) (lvl : Level) :
  generateJumpWindowLevel fuel difficulty length gravity speed jumpForce grav
                          random = Some lvl ->
  Forall2 pairOK (obstacles lvl) (jumpWindows lvl).
Proof.
  unfold generateJumpWindowLevel.
  destruct (gravityLoop _ _ _ _ _ _ fuel genInit) as [s|] eqn:E;
    [|discriminate].
  intros [= <-]. apply (gravityLoop_pairs _ _ _ _ _ _ _ _ E).
Qed.

Lemma generate_wave_ok (fuel : nat)
    (difficulty length speed jumpForce grav : number)
    (random : nat -> number) (lvl : Level) :
  generateJumpWindowLevel fuel difficulty length wave speed jumpForce grav
                          random = Some lvl ->
  List.length (obstacles lvl) = (2 * List.length (jumpWindows lvl))%nat
  /\ Forall (fun w => jw_holdDuration w = None) (jumpWindows lvl)
  /\ Forall (fun o => o_type o = block) (obstacles lvl).
Proof.
  unfold generateJumpWindowLevel, generateWaveObstacles.
  destruct (waveLoop _ _ _ fuel genInit) as [s|] eqn:E; [|discriminate].
  intros [= <-]. apply (waveLoop_ok _ _ _ _ _ E).
Qed.

Lemma Forall2_right {A B : Type} (P : B -> Prop) (R : A -> B -> Prop)
    (l : list A) (l' : list B) :
  (forall a b, R a b -> P b) -> Forall2 R l l' -> Forall P l'.
Proof. intros H F. induction F; constructor; eauto. Qed.

Lemma unitDraws_half : unitDraws (fun _ => 1 # 2).
Proof. intros n. split; [discriminate|reflexivity]. Qed.

Lemma unitDraws_zero : unitDraws (fun _ => 0).
Proof. intros n. split; [discriminate|reflexivity]. Qed.

(** C1, as the code has it: the generator returns a level; in gravity
    mode the two lists have the same length, in wave mode every window
    comes with two obstacles, so the obstacle list is twice as long. *)
Theorem obstacle_window_alignment
    (difficulty length : number) (mode : Mode)
    (speed jumpForce grav : number) (random : nat -> number) :
  unitDraws random ->
  (exists (fuel : nat) (lvl : Level),
      generateJumpWindowLevel fuel difficulty length mode speed jumpForce
                              grav random = Some lvl)
  /\ forall (fuel : nat) (lvl : Level),
       generateJumpWindowLevel fuel difficulty length mode speed jumpForce
                               grav random = Some lvl ->
       match mode with
       | gravity =>
           List.length (obstacles lvl) = List.length (jumpWindows lvl)
       | wave =>
           List.length (obstacles lvl)
           = (2 * List.length (jumpWindows lvl))%nat
       end.
Proof.
  intros R. split; [apply generate_total; exact R|].
  intros fuel lvl E. destruct mode.
  - apply generate_gravity_pairs in E.
    apply (Forall2_length E).
  - apply generate_wave_ok in E. apply E.
Qed.

Lemma obstacle_window_alignment_witness :
  unitDraws (fun _ => 1 # 2)
  /\ exists lvl : Level,
       generateTier 1 40 (fun _ => 1 # 2) = Some lvl
       /\ List.length (obstacles lvl)
          = (2 * List.length (jumpWindows lvl))%nat.
Proof.
  split; [exact unitDraws_half|].
  destruct (obstacle_window_alignment (tierDifficulty 1) (tierLength 1)
              (tierMode 1) (tierSpeed 1) (tierJumpForce 1) (tierGravity 1)
              (fun _ => 1 # 2) unitDraws_half) as [_ H].
  eexists. split; [vm_compute; reflexivity|].
  apply (H 40%nat). vm_compute. reflexivity.
Defined.

(** C1, counterexample: tier 2 is a wave level, and with every draw
    equal to 1/2 it has 30 obstacles for 15 windows. *)
Lemma alignment_fails_in_wave_mode :
  exists lvl : Level,
    generateTier 1 40 (fun _ => 1 # 2) = Some lvl
    /\ List.length (obstacles lvl) = 30%nat
    /\ List.length (jumpWindows lvl) = 15%nat.
Proof. eexists. split; [vm_compute; reflexivity|]. split; reflexivity. Qed.

(** C2, as the code has it: in gravity mode a window carries a hold
    duration exactly when its type is [hold]; in wave mode no window
    carries one, whatever its type. *)
Theorem hold_duration_presence
    (difficulty length : number) (mode : Mode)
    (speed jumpForce grav : number) (random : nat -> number) :
  unitDraws random ->
  (exists (fuel : nat) (lvl : Level),
      generateJumpWindowLevel fuel difficulty length mode speed jumpForce
                              grav random = Some lvl)
  /\ forall (fuel : nat) (lvl : Level),
       generateJumpWindowLevel fuel difficulty length mode speed jumpForce
                               grav random = Some lvl ->
       match mode with
       | gravity =>
           Forall (fun w => jw_holdDuration w <> None <-> jw_type w = hold)
                  (jumpWindows lvl)
       | wave =>
           Forall (fun w => jw_holdDuration w = None) (jumpWindows lvl)
       end.
Proof.
  intros R. split; [apply generate_total; exact R|].
  intros fuel lvl E. destruct mode.
  - apply generate_gravity_pairs in E.
    apply (Forall2_right _ pairOK _ _ (fun o w H => proj1 H) E).
  - apply generate_wave_ok in E. apply E.
Qed.

Lemma hold_duration_presence_witness :
  unitDraws (fun _ => 0)
  /\ exists lvl : Level,
       generateTier 1 40 (fun _ => 0) = Some lvl
       /\ Forall (fun w => jw_holdDuration w = None) (jumpWindows lvl).
Proof.
  split; [exact unitDraws_zero|].
  destruct (hold_duration_presence (tierDifficulty 1) (tierLength 1)
              (tierMode 1) (tierSpeed 1) (tierJumpForce 1) (tierGravity 1)
              (fun _ => 0) unitDraws_zero) as [_ H].
  eexists. split; [vm_compute; reflexivity|].
  apply (H 40%nat). vm_compute. reflexivity.
Defined.

(** C2, counterexample: the first window of the wave level of tier 2,
    with every draw equal to 0, is of type [hold] and has no hold
    duration. *)
Lemma wave_hold_window_without_duration :
  exists (lvl : Level) (w : JumpWindow),
    generateTier 1 40 (fun _ => 0) = Some lvl
    /\ nth_error (jumpWindows lvl) 0 = Some w
    /\ jw_type w = hold
    /\ jw_holdDuration w = None.
Proof.
  eexists. eexists. split; [vm_compute; reflexivity|].
  split; [reflexivity|]. split; reflexivity.
Qed.

(** C5: a gap obstacle is paired with the window
    [[x - 120, x - 20]] of type [tap], whatever the solver returned; in
    a generated level this holds at every index that carries a gap, and
    a gap at 1000 of width 80 gets [[880, 980]]. *)
Theorem gap_window_is_fixed_heuristic
    (difficulty length speed jumpForce grav : number)
    (random : nat -> number) :
  unitDraws random ->
  (exists (fuel : nat) (lvl : Level),
      generateJumpWindowLevel fuel difficulty length gravity speed jumpForce
                              grav random = Some lvl)
  /\ (forall (fuel : nat) (lvl : Level),
        generateJumpWindowLevel fuel difficulty length gravity speed
                                jumpForce grav random = Some lvl ->
        Forall2
          (fun o w =>
             o_type o = gap ->
             startX w == o_x o - 120 /\ endX w == o_x o - 20
             /\ jw_type w = tap /\ jw_holdDuration w = None)
          (obstacles lvl) (jumpWindows lvl))
  /\ (forall (x : number) (sh : Shape) (c c' : Clearance),
        isGap (obstacleType sh) = true ->
        snd (emitPair difficulty x sh c) = snd (emitPair difficulty x sh c'))
  /\ (forall c : Clearance,
        snd (emitPair difficulty 1000 (mkShape 100 80 gap) c)
        = mkJumpWindow 880 980 tap None).
Proof.
  intros R. split; [apply generate_total; exact R|]. split; [|split].
  - intros fuel lvl E. apply generate_gravity_pairs in E.
    apply (Forall2_impl (R1 := pairOK)); [|exact E].
    intros o w [_ H] G. rewrite (H G). unfold gapJumpWindow. simpl.
    rewrite !sub_eq. repeat split; reflexivity.
  - intros x sh c c' G. rewrite !emitPair_gap by exact G. reflexivity.
  - intros c. reflexivity.
Qed.

Lemma gap_window_is_fixed_heuristic_witness :
  unitDraws (fun n => if Nat.even n then 9 # 10 else 3 # 10)
  /\ exists lvl : Level,
       generateTier 0 20 (fun n => if Nat.even n then 9 # 10 else 3 # 10)
       = Some lvl
       /\ Forall2
            (fun o w =>
               o_type o = gap ->
               startX w == o_x o - 120 /\ endX w == o_x o - 20
               /\ jw_type w = tap /\ jw_holdDuration w = None)
            (obstacles lvl) (jumpWindows lvl).
Proof.
  assert (U : unitDraws (fun n => if Nat.even n then 9 # 10 else 3 # 10)).
  { intros n. destruct (Nat.even n); split;
      first [discriminate | reflexivity]. }
  split; [exact U|].
  destruct (gap_window_is_fixed_heuristic (tierDifficulty 0) (tierLength 0)
              (tierSpeed 0) (tierJumpForce 0) (tierGravity 0)
              _ U) as [_ [H _]].
  eexists. split; [vm_compute; reflexivity|].
  apply (H 20%nat). vm_compute. reflexivity.
Defined.

(** ** When a tap suffices *)

Section TapFacts.

Variable requiredPlayerY : number.

Lemma peak_fold_le (l : list Position) : forall peak : number,
  fold_left peakStep l peak <= peak
  /\ Forall (fun pos => fold_left peakStep l peak <= pos_y pos) l.
Proof.
  induction l as [|p l IH]; intros peak; simpl.
  - split; [lra|constructor].
  - destruct (IH (peakStep peak p)) as [Hle Hall].
    assert (Hs : peakStep peak p <= peak /\ peakStep peak p <= pos_y p).
    { unfold peakStep. destruct (pos_y p < peak)%js eqn:E; to_Q; lra. }
    split; [lra|]. constructor; [lra|exact Hall].
Qed.

(** Some sample at the required height or above is enough for the
    peak to reach it. *)
Lemma peak_reaches (l : list Position) : forall peak : number,
  noneAbove requiredPlayerY l = false ->
  fold_left peakStep l peak <= requiredPlayerY.
Proof.
  induction l as [|p l IH]; intros peak H; simpl in H; [discriminate|].
  cbn [fold_left].
  destruct (pos_y p <= requiredPlayerY)%js eqn:E; simpl in H.
  - destruct (peak_fold_le l (peakStep peak p)) as [Hle _].
    assert (peakStep peak p <= pos_y p).
    { unfold peakStep. destruct (pos_y p < peak)%js eqn:E'; to_Q; lra. }
    to_Q. lra.
  - apply IH. exact H.
Qed.

Lemma above_first_nonneg (l : list Position) : forall fl : number * number,
  Forall (fun pos => 0 <= pos_x pos) l ->
  noneAbove requiredPlayerY l = false \/ 0 <= fst fl ->
  0 <= fst (fold_left (aboveStep requiredPlayerY) l fl).
Proof.
  induction l as [|p l IH]; intros fl Hx H; simpl.
  - destruct H as [H|H]; [discriminate|exact H].
  - inversion Hx as [|? ? Hp Hl]; subst.
    apply IH; [exact Hl|].
    unfold aboveStep. simpl in H.
    destruct (pos_y p <= requiredPlayerY)%js eqn:E; simpl in H.
    + right. cbn [fst]. destruct (fst fl < 0)%js eqn:F; to_Q; lra.
    + exact H.
Qed.

End TapFacts.

Lemma sweepOver_needsHold (jumpForce grav speed requiredPlayerY : number)
    (hds : list number) (st : Search) :
  s_needsHold (sweepOver jumpForce grav speed requiredPlayerY hds st)
  = s_needsHold st.
Proof.
  induction hds as [|hd hds IH]; cbn [sweepOver]; [reflexivity|].
  cbv zeta. destruct (holdPeak _ <= requiredPlayerY)%js;
    [reflexivity|exact IH].
Qed.

Section SamplesFacts.

Variables (jumpForce grav speed : number).
Hypothesis speed_nonneg : 0 <= speed.

Lemma advance_x (s : SimState) :
  sim_x (advance jumpForce grav speed s) == sim_x s + speed * (1 # 60).
Proof.
  unfold advance, ceiling.
  destruct (sim_y _ < PLAYABLE_TOP + PLAYER_SIZE / 2)%js;
    cbn [sim_x integrate];
    (replace (sim_x (applyHold jumpForce grav s)) with (sim_x s)
      by (unfold applyHold;
          destruct (isHolding s && (holdTimeRemaining s > 0)%js);
          reflexivity));
    rewrite add_eq, mul_eq, dt_eq; reflexivity.
Qed.

Lemma simLoop_x_nonneg (n : nat) : forall (s : SimState) (l : list Position),
  0 <= sim_x s ->
  simLoop jumpForce grav speed n s = Some l ->
  Forall (fun pos => 0 <= pos_x pos) l.
Proof.
  induction n as [|n IH]; intros s l Hx; simpl; [discriminate|].
  assert (Hx' : 0 <= sim_x (advance jumpForce grav speed s)).
  { rewrite advance_x.
    assert (0 <= speed * (1 # 60)) by (apply Qmult_le_0_compat; lra).
    lra. }
  destruct (airborne s); [|intros [= <-]; constructor].
  destruct (landed _); [intros [= <-]; repeat constructor; assumption|].
  destruct (sim_t _ > 10)%js;
    [intros [= <-]; repeat constructor; assumption|].
  destruct (simLoop _ _ _ n _) as [l'|] eqn:El; [|discriminate].
  intros [= <-]. constructor; [exact Hx|].
  apply (IH _ _ Hx' El).
Qed.

Lemma simulateJump_x_nonneg (holdDuration : number) :
  Forall (fun pos => 0 <= pos_x pos)
         (simulateJump 0 jumpForce grav speed holdDuration).
Proof.
  pose proof (simulateJump_fuel_enough 0 jumpForce grav speed
                holdDuration 0) as E.
  unfold simulateJump_fuel in E.
  eapply simLoop_x_nonneg; [|exact E]. simpl. lra.
Qed.

(** A hold is asked for exactly when no sample of the tap trajectory
    is at the required height or above. *)
Lemma needsHold_iff (requiredPlayerY : number) :
  s_needsHold (searchOffsets jumpForce grav speed requiredPlayerY)
  = noneAbove requiredPlayerY (simulateJump 0 jumpForce grav speed 0).
Proof.
  unfold searchOffsets. cbv zeta.
  set (tapPositions := simulateJump 0 jumpForce grav speed 0).
  destruct (noneAbove requiredPlayerY tapPositions) eqn:N.
  - destruct (tapScan_none _ _ N) as [Hf _]. rewrite Hf.
    replace (-1 < 0)%js with true by reflexivity. rewrite orb_true_r.
    rewrite holdSweep_list, sweepOver_needsHold. reflexivity.
  - destruct (scan_split requiredPlayerY tapPositions
                (mkScan PLAYER_GROUND_Y (-1) (-1))) as [Hp Hfl].
    apply (f_equal fst) in Hfl.
    cbn [fst peakY firstAboveX lastAboveX] in Hp, Hfl.
    unfold tapScan. rewrite Hp, Hfl.
    replace (fold_left peakStep tapPositions PLAYER_GROUND_Y
             > requiredPlayerY)%js with false.
    2:{ symmetry. unfold Num.gtb. apply ltb_ge.
        apply peak_reaches. exact N. }
    match goal with
    | |- context [(?a < 0)%js] => assert (F : (a < 0)%js = false)
    end.
    { apply ltb_ge. apply above_first_nonneg;
        [apply simulateJump_x_nonneg | left; exact N]. }
    rewrite F. reflexivity.
Qed.

End SamplesFacts.

Lemma noneAbove_mono (r r' : number) (l : list Position) :
  r <= r' -> noneAbove r l = false -> noneAbove r' l = false.
Proof.
  intros H. induction l as [|p l IH]; simpl; [trivial|].
  destruct (pos_y p <= r)%js eqn:E; simpl.
  - intros _. replace (pos_y p <= r')%js with true; [reflexivity|].
    symmetry. to_Q. lra.
  - intros N. rewrite (IH N). apply andb_false_r.
Qed.

Lemma needsHold_calculate
    (obstacleX obstacleWidth obstacleHeight jumpForce grav speed : number) :
  0 <= speed ->
  needsHold (calculateClearanceWindow obstacleX obstacleWidth obstacleHeight
               jumpForce grav speed)
  = noneAbove (requiredY obstacleHeight)
              (simulateJump 0 jumpForce grav speed 0).
Proof.
  intros H. unfold calculateClearanceWindow. cbn [needsHold].
  apply needsHold_iff. exact H.
Qed.

(** ** The hold of level 1 *)

Lemma requiredY_eq (obstacleHeight : number) :
  requiredY obstacleHeight == 688 - obstacleHeight.
Proof.
  unfold requiredY, GROUND_Y, SCREEN_HEIGHT, GROUND_HEIGHT, PLAYER_SIZE.
  cbv zeta. to_Q.
  assert (E : 40 / 2 == 20) by reflexivity. rewrite E. lra.
Qed.

(** The tap of level 1 peaks above [y = 625]. *)
Lemma level1_tap_peak :
  noneAbove 625 (simulateJump 0 (-426) 670 192 0) = false.
Proof. vm_compute. reflexivity. Qed.

(** With the motion parameters of level 1 no obstacle up to 63 high
    needs a hold. *)
Lemma level1_low_obstacle_tap (x width height : number) :
  height <= 63 ->
  needsHold (calculateClearanceWindow x width height (-426) 670 192) = false.
Proof.
  intros H. rewrite needsHold_calculate by lra.
  apply (noneAbove_mono 625); [rewrite requiredY_eq; lra|].
  exact level1_tap_peak.
Qed.

Section Level1Production.

Variable random : nat -> number.
Hypothesis draws : unitDraws random.

(** At difficulty 1 the production generator never picks a held jump,
    and every window it pushes is a [tap]. *)
Lemma level1_place_tap (s : GenState) :
  exists w : JumpWindow,
    gen_windows (level1Place random s) = gen_windows s ++ [w]
    /\ jw_type w = tap.
Proof.
  unfold level1Place, placeObstacle.
  replace (1 >= 3)%js with false by reflexivity. rewrite andb_false_r.
  destruct (draws (S (drawn s))) as [R0 R1].
  unfold chooseObstacle.
  destruct (random (drawn s) < 0.5)%js;
    [|destruct (random (drawn s) < 0.85)%js].
  - unfold emitPair. cbn [obstacleType isGap obstacleWidth obstacleHeight].
    unfold clearanceFor. cbn [obstacleType isGap obstacleWidth obstacleHeight].
    rewrite level1_low_obstacle_tap.
    + eexists. cbn [gen_windows]. split; reflexivity.
    + unfold baseObstacleHeight, obstacleHeightVariation. to_Q. lra.
  - unfold emitPair. cbn [obstacleType isGap obstacleWidth obstacleHeight].
    unfold clearanceFor. cbn [obstacleType isGap obstacleWidth obstacleHeight].
    rewrite level1_low_obstacle_tap.
    + eexists. cbn [gen_windows]. split; reflexivity.
    + unfold baseObstacleHeight, obstacleHeightVariation. to_Q. lra.
  - unfold emitPair. cbn [obstacleType isGap].
    eexists. cbn [gen_windows]. split; reflexivity.
Qed.

Lemma level1_place_advance (s : GenState) :
  gen_x (level1Place random s) <= gen_x s + 609.
Proof.
  unfold level1Place, placeObstacle.
  replace (1 >= 3)%js with false by reflexivity. rewrite andb_false_r.
  unfold chooseObstacle.
  destruct (random (drawn s) < 0.5)%js;
    [|destruct (random (drawn s) < 0.85)%js];
    destruct (emitPair _ _ _ _) as [o w];
    cbn [gen_x obstacleWidth];
    match goal with
    | |- context [Num.mul (random ?n) _] =>
        destruct (draws n) as [R0 R1]
    end;
    replace (maxSpacing 1 - minSpacing 1)%js with 150 by reflexivity;
    replace (minSpacing 1) with 385 by reflexivity;
    to_Q; lra.
Qed.

Lemma level1_tap_only (length : number) (fuel : nat) (s : GenState) :
  gravityLoop 1 length 192 (-426) 670 random fuel genInit = Some s ->
  Forall (fun w => jw_type w = tap) (gen_windows s).
Proof.
  apply (while_fuel_invariant _ _
           (fun s => Forall (fun w => jw_type w = tap) (gen_windows s))).
  - intros s0 H0 _. destruct (level1_place_tap s0) as [w [E T]].
    fold (level1Place random). rewrite E.
    apply Forall_app. split; [exact H0|].
    constructor; [exact T|constructor].
  - constructor.
Qed.

Lemma level1_three_obstacles (fuel : nat) (s : GenState) :
  gravityLoop 1 3400 192 (-426) 670 random fuel genInit = Some s ->
  (3 <= List.length (gen_obstacles s))%nat.
Proof.
  unfold gravityLoop. fold (level1Place random).
  set (cond := fun s : GenState => (gen_x s < 3400 - 400)%js).
  assert (C : forall s0 : GenState, gen_x s0 <= 1818 -> cond s0 = true).
  { intros s0 H0. unfold cond.
    replace (3400 - 400)%js with 3000 by reflexivity. to_Q. lra. }
  assert (L : forall s0 : GenState,
             List.length (gen_obstacles (level1Place random s0))
             = S (List.length (gen_obstacles s0))).
  { intros s0. unfold level1Place.
    destruct (placeObstacle_pushes 1 192 (-426) 670 random s0)
      as [o [w [E _]]].
    rewrite E, length_app. simpl. lia. }
  pose proof (level1_place_advance genInit) as A1.
  pose proof (level1_place_advance (level1Place random genInit)) as A2.
  change (gen_x genInit) with 600 in A1.
  destruct fuel as [|[|[|fuel]]]; cbn [while_fuel].
  - discriminate.
  - rewrite C by (simpl; lra). discriminate.
  - rewrite C by (simpl; lra). rewrite C by lra. discriminate.
  - rewrite C by (simpl; lra). rewrite C by lra. rewrite C by lra.
    apply (while_fuel_invariant _ _
             (fun s => (3 <= List.length (gen_obstacles s))%nat)).
    + intros s0 H0 _. rewrite L. lia.
    + rewrite !L. simpl. lia.
Qed.

End Level1Production.

(** C3 on the shipped generator: level 1 of the table (difficulty 1,
    length 3400, speed 192, impulse -426, gravity 670) is generated for
    every stream of draws, has at least three obstacles, and not one of
    its windows is of type [hold]. *)
Theorem level1_production_has_no_hold (random : nat -> number) :
  unitDraws random ->
  (exists (fuel : nat) (lvl : Level), generateTier 0 fuel random = Some lvl)
  /\ forall (fuel : nat) (lvl : Level),
       generateTier 0 fuel random = Some lvl ->
       (3 <= List.length (obstacles lvl))%nat
       /\ Forall (fun w => jw_type w = tap) (jumpWindows lvl).
Proof.
  intros R. split; [apply generate_total; exact R|].
  intros fuel lvl. unfold generateTier.
  change (tierDifficulty 0) with 1. change (tierLength 0) with 3400.
  change (tierMode 0) with gravity. change (tierSpeed 0) with 192.
  change (tierJumpForce 0) with (-426). change (tierGravity 0) with 670.
  unfold generateJumpWindowLevel.
  destruct (gravityLoop _ _ _ _ _ _ fuel genInit) as [s|] eqn:E;
    [|discriminate].
  intros [= <-]. split.
  - apply (level1_three_obstacles random R fuel s E).
  - apply (level1_tap_only random R 3400 fuel s E).
Qed.

Lemma level1_production_has_no_hold_witness :
  unitDraws (fun _ => 0)
  /\ exists lvl : Level,
       generateTier 0 20 (fun _ => 0) = Some lvl
       /\ (3 <= List.length (obstacles lvl))%nat
       /\ Forall (fun w => jw_type w = tap) (jumpWindows lvl).
Proof.
  split; [exact unitDraws_zero|].
  destruct (level1_production_has_no_hold (fun _ => 0) unitDraws_zero)
    as [_ H].
  eexists. split; [vm_compute; reflexivity|].
  apply (H 20%nat). vm_compute. reflexivity.
Defined.

(** *** The same level in the test scripts *)

Section Level1Script.

Variables (length speed jumpForce grav : number).
Variable random : nat -> number.

Lemma script_place_unfold (s : TestScript.ScriptState) :
  let g := TestScript.gen s in
  let isHoldJump :=
    negb (TestScript.hasHadHeldJump s) && (2 <=? obstacleCount g)%nat in
  let shn :=
    chooseObstacle 1 random isHoldJump (random (drawn g)) (S (drawn g)) in
  let ow :=
    TestScript.emitPair 1 isHoldJump (gen_x g) (fst shn)
      (clearanceFor speed jumpForce grav (gen_x g) (fst shn)) in
  let s' := scriptLevel1Place speed jumpForce grav random s in
  gen_windows (TestScript.gen s') = gen_windows g ++ [snd ow]
  /\ obstacleCount (TestScript.gen s') = S (obstacleCount g)
  /\ TestScript.hasHadHeldJump s'
     = TestScript.hasHadHeldJump s || isHoldJump.
Proof.
  unfold scriptLevel1Place, TestScript.placeObstacle.
  replace (1 === 1)%js with true by reflexivity.
  replace (1 >= 2)%js with false by reflexivity.
  rewrite andb_false_r, orb_false_r, andb_true_l.
  cbv zeta.
  destruct (chooseObstacle _ _ _ _ _) as [sh n].
  destruct (TestScript.emitPair _ _ _ _ _) as [o w].
  cbn. auto.
Qed.

(** What the script's loop keeps true at difficulty 1: no held jump is
    picked before the third obstacle, and the third is one. *)
Lemma script_third_is_hold (fuel : nat) (s : TestScript.ScriptState) :
  TestScript.scriptLoop 1 length speed jumpForce grav random fuel
                        TestScript.scriptInit = Some s ->
  let g := TestScript.gen s in
  List.length (gen_windows g) = obstacleCount g
  /\ ((obstacleCount g <= 2)%nat -> TestScript.hasHadHeldJump s = false)
  /\ ((3 <= obstacleCount g)%nat ->
      exists w : JumpWindow,
        nth_error (gen_windows g) 2 = Some w
        /\ jw_type w = hold /\ jw_holdDuration w <> None).
Proof.
  apply (while_fuel_invariant _ _
    (fun s =>
       let g := TestScript.gen s in
       List.length (gen_windows g) = obstacleCount g
       /\ ((obstacleCount g <= 2)%nat ->
           TestScript.hasHadHeldJump s = false)
       /\ ((3 <= obstacleCount g)%nat ->
           exists w : JumpWindow,
             nth_error (gen_windows g) 2 = Some w
             /\ jw_type w = hold /\ jw_holdDuration w <> None))).
  - intros s0 [Hlen [Hearly Hthird]] _.
    destruct (script_place_unfold s0) as [Ew [Ec Eh]].
    fold (scriptLevel1Place speed jumpForce grav random).
    cbv zeta in *. rewrite Ew, Ec, Eh.
    split; [rewrite length_app; simpl; lia|]. split.
    + intros Hc.
      rewrite Hearly by lia.
      replace (2 <=? obstacleCount (TestScript.gen s0))%nat with false
        by (symmetry; apply Nat.leb_gt; lia).
      reflexivity.
    + intros Hc.
      destruct (Nat.eq_dec (obstacleCount (TestScript.gen s0)) 2) as [E2|N2].
      * rewrite Hearly by lia. rewrite E2. cbn [negb Nat.leb andb].
        unfold chooseObstacle. cbn [fst].
        unfold TestScript.emitPair. cbn [obstacleType isGap orb snd].
        eexists. split.
        { rewrite nth_error_app2 by lia.
          rewrite Hlen, E2. reflexivity. }
        split; [reflexivity|discriminate].
      * destruct Hthird as [w [Hn Hw]]; [lia|].
        exists w. split; [|exact Hw].
        rewrite nth_error_app1; [exact Hn|lia].
  - cbn. split; [reflexivity|]. split; [reflexivity|]. lia.
Qed.

End Level1Script.

(** With every draw 0 the script's level 1 is the production one, except
    for the third obstacle: a block 78 high with a [hold] window. *)
Example script_level1_zero_draws :
  option_map (fun lvl => map jw_type (jumpWindows lvl))
    (TestScript.generateJumpWindowLevel 20 1 3400 192 (-426) 670
                                        (fun _ => 0))
  = Some [tap; tap; hold; tap; tap; tap]
  /\ option_map (fun lvl => map jw_type (jumpWindows lvl))
       (generateTier 0 20 (fun _ => 0))
     = Some [tap; tap; tap; tap; tap; tap].
Proof. split; vm_compute; reflexivity. Qed.

(** In the test scripts a difficulty-1 level with at least three
    obstacles does have a [hold] window: the third one, whatever the
    draws and the motion parameters. *)
Lemma script_level1_forces_hold
    (length speed jumpForce grav : number) (random : nat -> number)
    (fuel : nat) (lvl : Level) :
  TestScript.generateJumpWindowLevel fuel 1 length speed jumpForce grav
                                     random = Some lvl ->
  (3 <= List.length (jumpWindows lvl))%nat ->
  exists w : JumpWindow,
    nth_error (jumpWindows lvl) 2 = Some w
    /\ jw_type w = hold /\ jw_holdDuration w <> None.
Proof.
  unfold TestScript.generateJumpWindowLevel.
  destruct (TestScript.scriptLoop _ _ _ _ _ _ fuel _) as [s|] eqn:E;
    [|discriminate].
  intros [= <-]. cbn [jumpWindows levelOf].
  destruct (script_third_is_hold _ _ _ _ _ _ _ E) as [Hlen [_ H3]].
  intros H. apply H3. cbv zeta in Hlen. lia.
Qed.

(** ** Gravity and the need for a hold *)

Section TapStep.

Variables (jumpForce grav speed : number).

(** One pass of a tap: gravity, the position update, the ceiling. *)
Lemma advance_tap (s : SimState) :
  isHolding s = false ->
  let s' := advance jumpForce grav speed s in
  let vy := sim_vy s + grav * (1 # 60) in
  let y := sim_y s + vy * (1 # 60) in
  isHolding s' = false
  /\ sim_t s' = (sim_t s + dt)%js
  /\ ((y < 80 /\ sim_y s' == 80 /\ sim_vy s' == 0)
      \/ (80 <= y /\ sim_y s' == y /\ sim_vy s' == vy)).
Proof.
  intros H. unfold advance, applyHold. rewrite H. cbn [andb].
  unfold integrate, ceiling.
  cbn [sim_x sim_y sim_vy sim_t isHolding holdTimeRemaining].
  replace (PLAYABLE_TOP + PLAYER_SIZE / 2)%js with 80 by reflexivity.
  destruct (_ < 80)%js eqn:E;
    cbn [sim_x sim_y sim_vy sim_t isHolding holdTimeRemaining];
    (split; [reflexivity|]); (split; [reflexivity|]);
    [left|right]; to_Q; rewrite dt_eq in *; repeat split;
    first [exact E | reflexivity].
Qed.

Lemma landed_iff (s : SimState) :
  isHolding s = false ->
  (landed s = true <-> 698 <= sim_y s /\ 0 < sim_vy s).
Proof.
  intros H. unfold landed. rewrite H, andb_true_r, andb_true_iff.
  unfold Num.geb, Num.gtb. rewrite leb_le, ltb_lt, ground_eq. tauto.
Qed.

Lemma airborne_iff (s : SimState) :
  airborne s = true <-> sim_y s < 698 \/ sim_vy s < 0.
Proof.
  unfold airborne. rewrite orb_true_iff, !ltb_lt, ground_eq. tauto.
Qed.

(** An airborne state contributes its own sample first. *)
Lemma simLoop_head (n : nat) (s : SimState) (l : list Position) :
  airborne s = true ->
  simLoop jumpForce grav speed n s = Some l ->
  exists rest : list Position, l = sample s :: rest.
Proof.
  intros A. destruct n as [|n]; simpl; [discriminate|]. rewrite A.
  destruct (landed _); [intros [= <-]; eauto|].
  destruct (sim_t _ > 10)%js; [intros [= <-]; eauto|].
  destruct (simLoop _ _ _ n _); [|discriminate].
  intros [= <-]. eauto.
Qed.

(** No sample of a tap is above the ceiling line [y = 80]. *)
Lemma simLoop_tap_floor (n : nat) : forall (s : SimState) (l : list Position),
  isHolding s = false -> 80 <= sim_y s ->
  simLoop jumpForce grav speed n s = Some l ->
  Forall (fun pos => 80 <= pos_y pos) l.
Proof.
  induction n as [|n IH]; intros s l H Hy; simpl; [discriminate|].
  destruct (advance_tap s H) as [H' [_ C]].
  destruct (airborne s); [|intros [= <-]; constructor].
  destruct (landed _).
  { intros [= <-]. repeat constructor; [exact Hy|].
    simpl. rewrite ground_eq. lra. }
  destruct (sim_t _ > 10)%js;
    [intros [= <-]; repeat constructor; exact Hy|].
  destruct (simLoop _ _ _ n _) as [l'|] eqn:El; [|discriminate].
  intros [= <-]. constructor; [exact Hy|].
  apply (IH _ _ H'); [|exact El].
  destruct C as [[_ [Ey _]]|[Ey' [Ey _]]]; rewrite Ey; lra.
Qed.

End TapStep.

Lemma noneAbove_floor (r : number) (l : list Position) :
  Forall (fun pos => 80 <= pos_y pos) l ->
  noneAbove r l = false -> 80 <= r.
Proof.
  induction 1 as [|p l Hp _ IH]; simpl; [discriminate|].
  destruct (pos_y p <= r)%js eqn:E; simpl; [|exact IH].
  intros _. to_Q. lra.
Qed.

Section TapMonotone.

Variables (jumpForce speed g1 g2 requiredPlayerY : number).
Hypothesis gravity_le : g1 <= g2.

(** Under the weaker gravity the tap is at least as high, sample by
    sample, until it hits the ceiling; so whatever height the tap
    reaches under [g2] it also reaches under [g1]. *)
Lemma tap_dominates (n : nat) :
  forall (s1 s2 : SimState) (l1 l2 : list Position),
    tapOrdered s1 s2 ->
    simLoop jumpForce g1 speed n s1 = Some l1 ->
    simLoop jumpForce g2 speed n s2 = Some l2 ->
    noneAbove requiredPlayerY l2 = false ->
    noneAbove requiredPlayerY l1 = false.
Proof.
  induction n as [|n IH]; intros s1 s2 l1 l2 O E1 E2 N2;
    [discriminate|].
  destruct O as [H1 [H2 [Ht [Hy [Hv [Hg Hc]]]]]].
  destruct (airborne s2) eqn:A2.
  2:{ simpl in E2. rewrite A2 in E2. injection E2 as <-. discriminate. }
  assert (A1 : airborne s1 = true).
  { apply airborne_iff. apply airborne_iff in A2. lra. }
  destruct (simLoop_head _ _ _ _ _ _ A1 E1) as [r1 ->].
  cbn [noneAbove forallb sample pos_y].
  destruct (sim_y s1 <= requiredPlayerY)%js eqn:Q1; [reflexivity|].
  cbn [negb andb]. apply leb_gt in Q1.
  destruct (advance_tap jumpForce g1 speed s1 H1) as [H1' [T1 C1]].
  destruct (advance_tap jumpForce g2 speed s2 H2) as [H2' [T2 C2]].
  cbv zeta in C1, C2.
  assert (Q2 : (sim_y s2 <= requiredPlayerY)%js = false)
    by (apply leb_gt; lra).
  simpl in E1, E2. rewrite A1 in E1. rewrite A2 in E2.
  rewrite <- Ht in T2. rewrite <- T1 in T2.
  set (s1' := advance jumpForce g1 speed s1) in *.
  set (s2' := advance jumpForce g2 speed s2) in *.
  destruct (landed s2') eqn:D2.
  { injection E2 as <-. simpl in N2. rewrite Q2 in N2. simpl in N2.
    rewrite andb_true_r in N2. apply negb_false_iff in N2.
    apply leb_le in N2. rewrite ground_eq in N2. lra. }
  destruct (sim_t s2' > 10)%js eqn:X2.
  { injection E2 as <-. simpl in N2. rewrite Q2 in N2. discriminate. }
  destruct (simLoop jumpForce g2 speed n s2') as [l2'|] eqn:E2';
    [|discriminate].
  injection E2 as <-. simpl in N2. rewrite Q2 in N2. simpl in N2.
  destruct (landed s1') eqn:D1.
  { exfalso. apply (landed_iff s1' H1') in D1.
    assert (D : landed s2' = true); [|congruence].
    apply (landed_iff s2' H2').
    destruct C1 as [[_ [Ey1 Ev1]]|[_ [Ey1 Ev1]]];
      destruct C2 as [[B2 [Ey2 Ev2]]|[B2 [Ey2 Ev2]]];
      rewrite ?Ey1, ?Ev1, ?Ey2, ?Ev2 in *; lra. }
  rewrite T2 in X2. rewrite X2 in E1.
  destruct (simLoop jumpForce g1 speed n s1') as [l1'|] eqn:E1';
    [|discriminate].
  injection E1 as <-.
  assert (NL : sim_y s2' < 698 \/ sim_vy s2' <= 0).
  { destruct (Qlt_le_dec (sim_y s2') 698) as [?|Hge]; [left; assumption|].
    right. destruct (Qlt_le_dec 0 (sim_vy s2')) as [Hpos|?]; [|assumption].
    assert (D : landed s2' = true)
      by (apply (landed_iff s2' H2'); split; assumption).
    congruence. }
  destruct C1 as [[B1 [Ey1 Ev1]]|[B1 [Ey1 Ev1]]].
  - (* the tap under g1 is at the ceiling *)
    destruct C2 as [[B2 [Ey2 Ev2]]|[B2 [Ey2 Ev2]]].
    + apply (IH s1' s2' l1' l2'); try assumption.
      repeat split; try assumption; try congruence;
        rewrite ?Ey1, ?Ev1, ?Ey2, ?Ev2; lra.
    + assert (F : 80 <= requiredPlayerY).
      { apply (noneAbove_floor _ l2'); [|exact N2].
        apply (simLoop_tap_floor jumpForce g2 speed n s2' l2' H2');
          [rewrite Ey2; exact B2 | exact E2']. }
      assert (A1' : airborne s1' = true)
        by (apply airborne_iff; left; rewrite Ey1; lra).
      destruct (simLoop_head _ _ _ _ _ _ A1' E1') as [r1' ->].
      cbn [noneAbove forallb sample pos_y].
      replace (sim_y s1' <= requiredPlayerY)%js with true; [reflexivity|].
      symmetry. apply leb_le. rewrite Ey1. exact F.
  - destruct C2 as [[B2 [Ey2 Ev2]]|[B2 [Ey2 Ev2]]]; [lra|].
    apply (IH s1' s2' l1' l2'); try assumption.
    repeat split; try assumption; try congruence;
      rewrite ?Ey1, ?Ev1, ?Ey2, ?Ev2 in *; lra.
Qed.

Lemma simulateJump_tap_dominates :
  noneAbove requiredPlayerY (simulateJump 0 jumpForce g2 speed 0) = false ->
  noneAbove requiredPlayerY (simulateJump 0 jumpForce g1 speed 0) = false.
Proof.
  pose proof (simulateJump_fuel_enough 0 jumpForce g1 speed 0 0) as E1.
  pose proof (simulateJump_fuel_enough 0 jumpForce g2 speed 0 0) as E2.
  refine (tap_dominates _ _ _ _ _ _ E1 E2).
  unfold tapOrdered, simInit. cbn [isHolding sim_t sim_y sim_vy].
  rewrite ground_eq.
  repeat split; try reflexivity; lra.
Qed.

End TapMonotone.

(** ** The hold duration *)

(** The sweep keeps the first duration whose trajectory peaks high enough,
    and changes nothing when there is none. *)
Lemma sweepOver_first (jumpForce grav speed requiredPlayerY : number)
    (hds : list number) (st : Search) :
  let peakOf hd := holdPeak (simulateJump 0 jumpForce grav speed hd) in
  let st' := sweepOver jumpForce grav speed requiredPlayerY hds st in
  (st' = st /\ Forall (fun hd => requiredPlayerY < peakOf hd) hds)
  \/ exists (pre : list number) (hd : number) (post : list number),
       hds = pre ++ hd :: post
       /\ Forall (fun hd' => requiredPlayerY < peakOf hd') pre
       /\ peakOf hd <= requiredPlayerY
       /\ s_holdDuration st' = hd.
Proof.
  cbv zeta. induction hds as [|hd hds IH]; cbn [sweepOver].
  - left. split; [reflexivity|constructor].
  - cbv zeta. destruct (holdPeak _ <= requiredPlayerY)%js eqn:E.
    + right. exists [], hd, hds. apply leb_le in E.
      split; [reflexivity|]. split; [constructor|].
      split; [exact E|reflexivity].
    + apply leb_gt in E.
      destruct IH as [[Es F]|[pre [h [post [Eh [F [P D]]]]]]].
      * left. split; [exact Es|]. constructor; assumption.
      * right. exists (hd :: pre), h, post. subst hds.
        split; [reflexivity|]. split; [constructor; assumption|].
        split; assumption.
Qed.

Lemma holdDuration_calculate
    (obstacleX obstacleWidth obstacleHeight jumpForce grav speed : number) :
  let c := calculateClearanceWindow obstacleX obstacleWidth obstacleHeight
             jumpForce grav speed in
  let requiredPlayerY := requiredY obstacleHeight in
  let peakOf hd := holdPeak (simulateJump 0 jumpForce grav speed hd) in
  (needsHold c = false -> cw_holdDuration c = 0)
  /\ (needsHold c = true ->
      (cw_holdDuration c = 0
       /\ Forall (fun hd => requiredPlayerY < peakOf hd) holdDurations)
      \/ exists (pre : list number) (hd : number) (post : list number),
           holdDurations = pre ++ hd :: post
           /\ Forall (fun hd' => requiredPlayerY < peakOf hd') pre
           /\ peakOf hd <= requiredPlayerY
           /\ cw_holdDuration c = hd).
Proof.
  unfold calculateClearanceWindow. cbn [needsHold cw_holdDuration].
  unfold searchOffsets. cbv zeta.
  destruct (_ || _).
  - rewrite holdSweep_list. split.
    + rewrite sweepOver_needsHold. discriminate.
    + intros _.
      destruct (sweepOver_first jumpForce grav speed
                  (requiredY obstacleHeight) holdDurations
                  (mkSearch
                     (firstAboveX
                        (tapScan (requiredY obstacleHeight)
                           (simulateJump 0 jumpForce grav speed 0)))
                     (lastAboveX
                        (tapScan (requiredY obstacleHeight)
                           (simulateJump 0 jumpForce grav speed 0)))
                     true 0)) as [[Es F]|H].
      * left. rewrite Es. split; [reflexivity|exact F].
      * right. exact H.
  - split; [reflexivity|discriminate].
Qed.

(** C8, as the code has it.  For gravities [g1 <= g2] and a scroll
    speed that is not negative: if a tap suffices under [g2] it suffices
    under [g1], and both hold durations are 0.  Beyond that the duration
    is fixed by the sweep alone: 0 when a tap suffices, else the first
    of 0.1, ..., 1.0 whose held trajectory peaks high enough, or 0 when
    none does. *)
Theorem hold_duration_by_gravity
    (obstacleX obstacleWidth obstacleHeight jumpForce speed : number) :
  let solve := calculateClearanceWindow obstacleX obstacleWidth
                 obstacleHeight jumpForce in
  (forall g1 g2 : number,
      g1 <= g2 -> 0 <= speed ->
      needsHold (solve g2 speed) = false ->
      needsHold (solve g1 speed) = false
      /\ cw_holdDuration (solve g1 speed) = 0
      /\ cw_holdDuration (solve g2 speed) = 0)
  /\ forall grav : number,
       let requiredPlayerY := requiredY obstacleHeight in
       let peakOf hd := holdPeak (simulateJump 0 jumpForce grav speed hd) in
       (needsHold (solve grav speed) = false ->
        cw_holdDuration (solve grav speed) = 0)
       /\ (needsHold (solve grav speed) = true ->
           (cw_holdDuration (solve grav speed) = 0
            /\ Forall (fun hd => requiredPlayerY < peakOf hd) holdDurations)
           \/ exists (pre : list number) (hd : number) (post : list number),
                holdDurations = pre ++ hd :: post
                /\ Forall (fun hd' => requiredPlayerY < peakOf hd') pre
                /\ peakOf hd <= requiredPlayerY
                /\ cw_holdDuration (solve grav speed) = hd).
Proof.
  cbv zeta. split.
  - intros g1 g2 Hg Hs N2.
    assert (N1 : needsHold
                   (calculateClearanceWindow obstacleX obstacleWidth
                      obstacleHeight jumpForce g1 speed) = false).
    { rewrite needsHold_calculate in * by exact Hs.
      apply (simulateJump_tap_dominates jumpForce speed g1 g2 _ Hg N2). }
    split; [exact N1|]. split.
    + apply (holdDuration_calculate obstacleX obstacleWidth obstacleHeight
               jumpForce g1 speed). exact N1.
    + apply (holdDuration_calculate obstacleX obstacleWidth obstacleHeight
               jumpForce g2 speed). exact N2.
  - intros grav.
    apply (holdDuration_calculate obstacleX obstacleWidth obstacleHeight
             jumpForce grav speed).
Qed.

Lemma hold_duration_by_gravity_witness :
  670 <= 900 /\ 0 <= 192
  /\ needsHold (calculateClearanceWindow 1000 50 60 (-426) 900 192) = false
  /\ needsHold (calculateClearanceWindow 1000 50 60 (-426) 670 192) = false
  /\ cw_holdDuration (calculateClearanceWindow 1000 50 60 (-426) 670 192) = 0.
Proof.
  assert (H1 : 670 <= 900) by discriminate.
  assert (H2 : 0 <= 192) by discriminate.
  assert (H3 : needsHold (calculateClearanceWindow 1000 50 60 (-426) 900 192)
               = false) by (vm_compute; reflexivity).
  split; [exact H1|]. split; [exact H2|]. split; [exact H3|].
  destruct (hold_duration_by_gravity 1000 50 60 (-426) 192) as [H _].
  destruct (H 670 900 H1 H2 H3) as [N [D _]].
  split; [exact N|exact D].
Defined.

(** C8, counterexample: for an obstacle 83 high, impulse -426 and speed
    192 the solver returns a hold of 0.9 s under gravity 1000 and a
    shorter one, 0.8 s, under the stronger gravity 1050. *)
Lemma hold_duration_not_monotone_in_gravity :
  0 < 1000 /\ 1000 <= 1050
  /\ cw_holdDuration (calculateClearanceWindow 1000 50 83 (-426) 1000 192)
     = 9 # 10
  /\ cw_holdDuration (calculateClearanceWindow 1000 50 83 (-426) 1050 192)
     = 4 # 5
  /\ ~ (cw_holdDuration (calculateClearanceWindow 1000 50 83 (-426) 1000 192)
        <= cw_holdDuration
             (calculateClearanceWindow 1000 50 83 (-426) 1050 192)).
Proof.
  assert (E1 : cw_holdDuration
                 (calculateClearanceWindow 1000 50 83 (-426) 1000 192)
               = 9 # 10) by (vm_compute; reflexivity).
  assert (E2 : cw_holdDuration
                 (calculateClearanceWindow 1000 50 83 (-426) 1050 192)
               = 4 # 5) by (vm_compute; reflexivity).
  split; [reflexivity|]. split; [discriminate|].
  split; [exact E1|]. split; [exact E2|].
  rewrite E1, E2. intros H. apply H. reflexivity.
Qed.

(** * Further properties *)

(** ** The shape of a trajectory *)

Section TrajectoryFacts.

Variables (jumpForce grav speed : number).

Lemma applyHold_y (s : SimState) :
  sim_y (applyHold jumpForce grav s) = sim_y s.
Proof.
  unfold applyHold.
  destruct (isHolding s && (holdTimeRemaining s > 0)%js); reflexivity.
Qed.

(** One pass: some velocity [v] is integrated, then the ceiling clamps. *)
Lemma advance_y (s : SimState) :
  let s' := advance jumpForce grav speed s in
  exists v : number,
    (sim_y s + v * (1 # 60) < 80 /\ sim_y s' == 80 /\ sim_vy s' == 0)
    \/ (80 <= sim_y s + v * (1 # 60)
        /\ sim_y s' == sim_y s + v * (1 # 60) /\ sim_vy s' == v).
Proof.
  unfold advance, integrate, ceiling.
  cbn [sim_x sim_y sim_vy sim_t isHolding holdTimeRemaining].
  rewrite applyHold_y.
  replace (PLAYABLE_TOP + PLAYER_SIZE / 2)%js with 80 by reflexivity.
  exists (sim_vy (applyHold jumpForce grav s)).
  destruct (_ < 80)%js eqn:E;
    cbn [sim_x sim_y sim_vy sim_t isHolding holdTimeRemaining];
    [left|right]; to_Q; rewrite dt_eq in *; repeat split;
    first [exact E | reflexivity].
Qed.

(** Samples stay between the ceiling line and the ground line. *)
Lemma simLoop_band (n : nat) : forall (s : SimState) (l : list Position),
  80 <= sim_y s -> (airborne s = true -> sim_y s <= 698) ->
  simLoop jumpForce grav speed n s = Some l ->
  Forall (fun pos => 80 <= pos_y pos /\ pos_y pos <= 698) l.
Proof.
  induction n as [|n IH]; intros s l Hc Hg; simpl; [discriminate|].
  destruct (airborne s) eqn:A; [|intros [= <-]; constructor].
  specialize (Hg eq_refl).
  assert (Hs : 80 <= pos_y (sample s) /\ pos_y (sample s) <= 698)
    by (split; assumption).
  destruct (landed _).
  { intros [= <-]. constructor; [exact Hs|]. constructor; [|constructor].
    cbn [pos_y]. rewrite ground_eq. split; lra. }
  destruct (sim_t _ > 10)%js;
    [intros [= <-]; constructor; [exact Hs|constructor]|].
  destruct (simLoop _ _ _ n _) as [l'|] eqn:El; [|discriminate].
  intros [= <-]. constructor; [exact Hs|].
  destruct (advance_y s) as [v C]. cbv zeta in C.
  apply (IH _ _) in El; [exact El| |].
  - destruct C as [[_ [Ey _]]|[B [Ey _]]]; rewrite Ey; lra.
  - intros A'. apply airborne_iff in A'.
    destruct C as [[_ [Ey Ev]]|[B [Ey Ev]]]; rewrite Ey, ?Ev in *;
      [lra|].
    destruct A' as [?|Hv]; [lra|].
    assert (v * (1 # 60) <= 0); [|lra].
    setoid_replace 0 with (0 * (1 # 60)) by reflexivity.
    apply Qmult_le_compat_r; lra.
Qed.

(** The [i]-th sample is taken at [i / 60], a distance [speed * i / 60]
    from the start. *)
Lemma simLoop_clock (n : nat) :
  forall (s : SimState) (l : list Position) (i : nat) (pos : Position),
    simLoop jumpForce grav speed n s = Some l ->
    nth_error l i = Some pos ->
    pos_t pos == sim_t s + inject_Z (Z.of_nat i) * (1 # 60)
    /\ pos_x pos == sim_x s + speed * (inject_Z (Z.of_nat i) * (1 # 60)).
Proof.
  induction n as [|n IH]; intros s l i pos; simpl; [discriminate|].
  assert (Z0 : forall q : Q, q + inject_Z (Z.of_nat 0) * (1 # 60) == q)
    by (intros q; change (inject_Z (Z.of_nat 0)) with 0; lra).
  assert (H0 : sample s = pos ->
               pos_t pos == sim_t s + inject_Z (Z.of_nat 0) * (1 # 60)
               /\ pos_x pos
                  == sim_x s + speed * (inject_Z (Z.of_nat 0) * (1 # 60))).
  { intros <-. cbn [sample pos_t pos_x].
    change (inject_Z (Z.of_nat 0)) with 0. split; lra. }
  pose proof (advance_t jumpForce grav speed s) as Ht.
  pose proof (advance_x jumpForce grav speed s) as Hx.
  destruct (airborne s).
  2:{ intros [= <-]. destruct i; discriminate. }
  destruct (landed _).
  { intros [= <-]. destruct i as [|[|i]]; cbn [nth_error].
    - intros [= E]. apply H0. exact E.
    - intros [= <-]. cbn [pos_t pos_x]. rewrite Ht, Hx.
      change (inject_Z (Z.of_nat 1)) with 1. split; lra.
    - destruct i; discriminate. }
  destruct (sim_t _ > 10)%js.
  { intros [= <-]. destruct i as [|i]; cbn [nth_error].
    - intros [= E]. apply H0. exact E.
    - destruct i; discriminate. }
  destruct (simLoop _ _ _ n _) as [l'|] eqn:El; [|discriminate].
  intros [= <-]. destruct i as [|i]; cbn [nth_error].
  - intros [= E]. apply H0. exact E.
  - intros Hn. destruct (IH _ _ _ _ El Hn) as [Et Ex].
    rewrite Et, Ex, Ht, Hx, inject_succ. split; lra.
Qed.

End TrajectoryFacts.

(** X1: whatever the inputs, every sample of a trajectory lies between
    the ceiling line [y = 80] and the ground line [y = 698]. *)
Theorem simulateJump_samples_in_band
    (startX jumpForce grav speed holdDuration : number) :
  Forall (fun pos => 80 <= pos_y pos /\ pos_y pos <= 698)
         (simulateJump startX jumpForce grav speed holdDuration).
Proof.
  pose proof (simulateJump_fuel_enough startX jumpForce grav speed
                holdDuration 0) as E.
  unfold simulateJump_fuel in E.
  eapply simLoop_band; [| |exact E]; cbn [simInit sim_y];
    rewrite ?ground_eq; intros; lra.
Qed.

(** X2: the [i]-th sample of a trajectory is taken at time [i / 60] and
    lies at [startX + speed * t]: the clock and the horizontal motion do
    not depend on the jump. *)
Theorem simulateJump_clock
    (startX jumpForce grav speed holdDuration : number)
    (i : nat) (pos : Position) :
  nth_error (simulateJump startX jumpForce grav speed holdDuration) i
  = Some pos ->
  pos_t pos == inject_Z (Z.of_nat i) * (1 # 60)
  /\ pos_x pos == startX + speed * pos_t pos.
Proof.
  intros H.
  pose proof (simulateJump_fuel_enough startX jumpForce grav speed
                holdDuration 0) as E.
  destruct (simLoop_clock _ _ _ _ _ _ _ _ E H) as [Et Ex].
  cbn [simInit sim_t sim_x] in Et, Ex.
  split; [rewrite Et; lra | rewrite Ex, Et; lra].
Qed.

Lemma simulateJump_clock_witness :
  nth_error (simulateJump 100 (-426) 670 192 0) 30
  = Some (mkPosition 196 (13717 # 24) (1 # 2))
  /\ (1 # 2) == inject_Z (Z.of_nat 30) * (1 # 60)
  /\ 196 == 100 + 192 * (1 # 2).
Proof.
  assert (H : nth_error (simulateJump 100 (-426) 670 192 0) 30
              = Some (mkPosition 196 (13717 # 24) (1 # 2)))
    by (vm_compute; reflexivity).
  split; [exact H|].
  exact (simulateJump_clock 100 (-426) 670 192 0 30 _ H).
Defined.

(** ** What a trajectory depends on *)

Section RelatedRuns.

Variables (jumpForce grav speed : number).

(** Two states that agree on everything but [x], and on the remaining
    hold time only while a hold is active, still do after one pass. *)
Lemma advance_related (x1 x2 y vy t : number) (h : bool) (r1 r2 : number) :
  (h = true -> r1 = r2) ->
  let a1 := advance jumpForce grav speed (mkSimState x1 y vy t h r1) in
  let a2 := advance jumpForce grav speed (mkSimState x2 y vy t h r2) in
  sim_y a1 = sim_y a2 /\ sim_vy a1 = sim_vy a2 /\ sim_t a1 = sim_t a2
  /\ isHolding a1 = isHolding a2
  /\ (isHolding a1 = true -> holdTimeRemaining a1 = holdTimeRemaining a2)
  /\ sim_x a1 = (x1 + speed * dt)%js /\ sim_x a2 = (x2 + speed * dt)%js.
Proof.
  intros Hr. destruct h; [rewrite (Hr eq_refl)|];
    unfold advance, applyHold;
    cbn [sim_x sim_y sim_vy sim_t isHolding holdTimeRemaining andb];
    repeat (match goal with
            | |- context [if ?c then _ else _] => destruct c
            end;
            cbn [sim_x sim_y sim_vy sim_t isHolding holdTimeRemaining]);
    unfold integrate, ceiling;
    cbn [sim_x sim_y sim_vy sim_t isHolding holdTimeRemaining];
    match goal with
    | |- context [if ?c then _ else _] => destruct c
    end;
    cbn [sim_x sim_y sim_vy sim_t isHolding holdTimeRemaining];
    repeat split; try reflexivity; intros;
    first [reflexivity | discriminate].
Qed.

Variable Rx : number -> number -> Prop.
Hypothesis Rx_step :
  forall a b : number, Rx a b -> Rx (a + speed * dt)%js (b + speed * dt)%js.

Lemma simLoop_related (n : nat) : forall s1 s2 : SimState,
  sim_y s1 = sim_y s2 -> sim_vy s1 = sim_vy s2 -> sim_t s1 = sim_t s2 ->
  isHolding s1 = isHolding s2 ->
  (isHolding s1 = true -> holdTimeRemaining s1 = holdTimeRemaining s2) ->
  Rx (sim_x s1) (sim_x s2) ->
  match simLoop jumpForce grav speed n s1,
        simLoop jumpForce grav speed n s2 with
  | Some l1, Some l2 =>
      Forall2 (fun p q => pos_y p = pos_y q /\ pos_t p = pos_t q
                          /\ Rx (pos_x p) (pos_x q)) l1 l2
  | None, None => True
  | _, _ => False
  end.
Proof.
  induction n as [|n IH]; intros s1 s2 Ey Ev Et Eh Er Ex; [exact I|].
  destruct s1 as [x1 y1 vy1 t1 h1 r1], s2 as [x2 y2 vy2 t2 h2 r2].
  cbn [sim_x sim_y sim_vy sim_t isHolding holdTimeRemaining] in *.
  subst y2 vy2 t2 h2.
  destruct (advance_related x1 x2 y1 vy1 t1 h1 r1 r2 Er)
    as [Ay [Av [At [Ah [Ar [Ax1 Ax2]]]]]].
  cbn [simLoop]. unfold airborne.
  cbn [sim_x sim_y sim_vy sim_t isHolding holdTimeRemaining].
  destruct (_ || _); [|cbv beta iota; constructor].
  cbv zeta. unfold landed.
  rewrite <- Ay, <- Av, <- At, <- Ah.
  set (a1 := advance jumpForce grav speed (mkSimState x1 y1 vy1 t1 h1 r1))
    in *.
  set (a2 := advance jumpForce grav speed (mkSimState x2 y1 vy1 t1 h1 r2))
    in *.
  assert (S0 : pos_y (sample (mkSimState x1 y1 vy1 t1 h1 r1))
               = pos_y (sample (mkSimState x2 y1 vy1 t1 h1 r2))
               /\ pos_t (sample (mkSimState x1 y1 vy1 t1 h1 r1))
                  = pos_t (sample (mkSimState x2 y1 vy1 t1 h1 r2))
               /\ Rx (pos_x (sample (mkSimState x1 y1 vy1 t1 h1 r1)))
                     (pos_x (sample (mkSimState x2 y1 vy1 t1 h1 r2))))
    by (cbn; auto).
  assert (Xa : Rx (sim_x a1) (sim_x a2))
    by (rewrite Ax1, Ax2; apply Rx_step; exact Ex).
  destruct (_ && _).
  { cbv beta iota. constructor; [exact S0|]. constructor; [|constructor].
    cbn [pos_x pos_y pos_t]. auto. }
  destruct (sim_t a1 > 10)%js;
    [cbv beta iota; constructor; [exact S0|constructor]|].
  specialize (IH a1 a2 Ay Av At Ah Ar Xa).
  destruct (simLoop jumpForce grav speed n a1),
           (simLoop jumpForce grav speed n a2); cbn [option_map];
    try contradiction; [|exact I].
  constructor; [exact S0|exact IH].
Qed.

End RelatedRuns.

(** X3: moving the start of a jump moves every sample by the same
    amount and changes nothing else; this is what lets the solver
    simulate from [x = 0] and shift the offsets to the obstacle. *)
Theorem simulateJump_translates
    (startX jumpForce grav speed holdDuration : number) :
  Forall2 (fun p q => pos_y p = pos_y q /\ pos_t p = pos_t q
                      /\ pos_x p == startX + pos_x q)
          (simulateJump startX jumpForce grav speed holdDuration)
          (simulateJump 0 jumpForce grav speed holdDuration).
Proof.
  pose proof (simulateJump_fuel_enough startX jumpForce grav speed
                holdDuration 0) as E1.
  pose proof (simulateJump_fuel_enough 0 jumpForce grav speed
                holdDuration 0) as E2.
  unfold simulateJump_fuel in E1, E2.
  pose proof (simLoop_related jumpForce grav speed
                (fun a b => a == startX + b)
                (fun a b H => ltac:(to_Q; rewrite H; lra))
                (simFuel + 0)
                (simInit startX jumpForce holdDuration)
                (simInit 0 jumpForce holdDuration)
                eq_refl eq_refl eq_refl eq_refl (fun _ => eq_refl)) as R.
  rewrite E1, E2 in R. apply R. cbn [simInit sim_x]. lra.
Qed.

(** X4: with a negative impulse the trajectory is not empty and opens
    with the launch sample, the start position on the ground at time
    0. *)
Theorem simulateJump_launch_sample
    (startX jumpForce grav speed holdDuration : number) :
  jumpForce < 0 ->
  exists rest : list Position,
    simulateJump startX jumpForce grav speed holdDuration
    = mkPosition startX PLAYER_GROUND_Y 0 :: rest.
Proof.
  intros H.
  pose proof (simulateJump_fuel_enough startX jumpForce grav speed
                holdDuration 0) as E.
  unfold simulateJump_fuel in E.
  apply (simLoop_head _ _ _ _ _ _) in E; [exact E|].
  apply airborne_iff. right. exact H.
Qed.

Lemma simulateJump_launch_sample_witness :
  -426 < 0
  /\ exists rest : list Position,
       simulateJump 100 (-426) 670 192 (3 # 10)
       = mkPosition 100 PLAYER_GROUND_Y 0 :: rest.
Proof.
  assert (H : -426 < 0) by reflexivity.
  split; [exact H|].
  exact (simulateJump_launch_sample 100 (-426) 670 192 (3 # 10) H).
Defined.

Lemma samples_equal (l1 l2 : list Position) :
  Forall2 (fun p q => pos_y p = pos_y q /\ pos_t p = pos_t q
                      /\ pos_x p = pos_x q) l1 l2 ->
  l1 = l2.
Proof.
  induction 1 as [|p q l l' [Ey [Et Ex]] _ IH]; [reflexivity|].
  rewrite IH. destruct p, q. cbn in Ey, Et, Ex. congruence.
Qed.

(** X5: a hold duration that is not positive is no hold at all: the
    trajectory is the tap trajectory. *)
Theorem simulateJump_nonpositive_hold_is_tap
    (startX jumpForce grav speed holdDuration : number) :
  holdDuration <= 0 ->
  simulateJump startX jumpForce grav speed holdDuration
  = simulateJump startX jumpForce grav speed 0.
Proof.
  intros H.
  pose proof (simulateJump_fuel_enough startX jumpForce grav speed
                holdDuration 0) as E1.
  pose proof (simulateJump_fuel_enough startX jumpForce grav speed
                0 0) as E2.
  unfold simulateJump_fuel in E1, E2.
  assert (Hh : (holdDuration > 0)%js = false) by (to_Q; exact H).
  pose proof (simLoop_related jumpForce grav speed eq
                (fun a b E => f_equal (fun x => (x + speed * dt)%js) E)
                (simFuel + 0)
                (simInit startX jumpForce holdDuration)
                (simInit startX jumpForce 0)
                eq_refl eq_refl eq_refl) as R.
  cbn [simInit isHolding holdTimeRemaining sim_x] in R.
  rewrite Hh in R.
  specialize (R eq_refl (fun A => ltac:(discriminate)) eq_refl).
  rewrite E1, E2 in R.
  apply samples_equal. exact R.
Qed.

Lemma simulateJump_nonpositive_hold_is_tap_witness :
  -(1 # 4) <= 0
  /\ simulateJump 0 (-426) 670 192 (-(1 # 4))
     = simulateJump 0 (-426) 670 192 0.
Proof.
  assert (H : -(1 # 4) <= 0) by discriminate.
  split; [exact H|].
  exact (simulateJump_nonpositive_hold_is_tap 0 (-426) 670 192 _ H).
Defined.

(** ** What the solver returns *)

Lemma holdDurations_range (hd : number) :
  In hd holdDurations -> 0 < hd /\ hd <= 1.
Proof.
  rewrite holdDurations_eq. simpl.
  intros H.
  repeat (destruct H as [<-|H];
          [split; [reflexivity|discriminate]|]).
  contradiction.
Qed.

Lemma holdDuration_cases
    (obstacleX obstacleWidth obstacleHeight jumpForce grav speed : number) :
  let c := calculateClearanceWindow obstacleX obstacleWidth obstacleHeight
             jumpForce grav speed in
  (cw_holdDuration c = 0 \/ In (cw_holdDuration c) holdDurations)
  /\ (needsHold c = false -> cw_holdDuration c = 0)
  /\ 0 <= cw_holdDuration c * 1000 <= 1000.
Proof.
  intros c.
  destruct (holdDuration_calculate obstacleX obstacleWidth obstacleHeight
              jumpForce grav speed) as [H0 H1].
  fold c in H0, H1. cbv zeta in H1.
  assert (D : cw_holdDuration c = 0 \/ In (cw_holdDuration c) holdDurations).
  { destruct (needsHold c); [|left; apply H0; reflexivity].
    destruct (H1 eq_refl) as [[E _]|[pre [hd [post [E [_ [_ Eh]]]]]]];
      [left; exact E|].
    right. rewrite Eh, E. apply in_or_app. right. left. reflexivity. }
  split; [exact D|]. split; [exact H0|].
  destruct D as [E|I]; [rewrite E; split; discriminate|].
  apply holdDurations_range in I. lra.
Qed.

(** X6: the hold duration the solver returns is 0 or one of the ten
    durations 0.1, 0.2, ..., 1.0 of the sweep, and it is 0 whenever no
    hold is needed; so the duration written on a window, in
    milliseconds, lies between 0 and 1000. *)
Theorem solver_hold_duration_range
    (obstacleX obstacleWidth obstacleHeight jumpForce grav speed : number) :
  let c := calculateClearanceWindow obstacleX obstacleWidth obstacleHeight
             jumpForce grav speed in
  (cw_holdDuration c = 0 \/ In (cw_holdDuration c) holdDurations)
  /\ (needsHold c = false -> cw_holdDuration c = 0)
  /\ 0 <= cw_holdDuration c * 1000 <= 1000.
Proof. apply holdDuration_cases. Qed.

(** X7: with a scroll speed that is not negative, a taller obstacle
    never gets away with a tap where a lower one needs a hold, wherever
    the two stand and however wide they are. *)
Theorem needsHold_monotone_in_height
    (x1 w1 h1 x2 w2 h2 jumpForce grav speed : number) :
  0 <= speed -> h1 <= h2 ->
  needsHold (calculateClearanceWindow x1 w1 h1 jumpForce grav speed) = true ->
  needsHold (calculateClearanceWindow x2 w2 h2 jumpForce grav speed) = true.
Proof.
  intros Hs Hh. rewrite !needsHold_calculate by exact Hs.
  intros N1.
  destruct (noneAbove (requiredY h2) _) eqn:N2; [reflexivity|].
  rewrite (noneAbove_mono (requiredY h2) (requiredY h1)) in N1;
    [discriminate| |exact N2].
  rewrite !requiredY_eq. lra.
Qed.

Lemma needsHold_monotone_in_height_witness :
  0 <= 192 /\ 130 <= 150
  /\ needsHold (calculateClearanceWindow 600 37 130 (-426) 670 192) = true
  /\ needsHold (calculateClearanceWindow 900 52 150 (-426) 670 192) = true.
Proof.
  assert (H1 : 0 <= 192) by discriminate.
  assert (H2 : 130 <= 150) by discriminate.
  assert (H3 : needsHold (calculateClearanceWindow 600 37 130 (-426) 670 192)
               = true) by (vm_compute; reflexivity).
  split; [exact H1|]. split; [exact H2|]. split; [exact H3|].
  exact (needsHold_monotone_in_height 600 37 130 900 52 150 (-426) 670 192
           H1 H2 H3).
Defined.

(** *** The offsets *)

Section OffsetFacts.

Variables (jumpForce grav speed requiredPlayerY : number).
Hypothesis speed_nonneg : 0 <= speed.

(** The samples of a trajectory come in the order of their [x]. *)
Lemma simLoop_x_ordered (n : nat) : forall (s : SimState) (l : list Position),
  simLoop jumpForce grav speed n s = Some l ->
  StronglySorted xOrdered l /\ Forall (fun pos => sim_x s <= pos_x pos) l.
Proof.
  induction n as [|n IH]; intros s l; simpl; [discriminate|].
  assert (Hx : sim_x s <= sim_x (advance jumpForce grav speed s)).
  { rewrite advance_x.
    assert (0 <= speed * (1 # 60)) by (apply Qmult_le_0_compat; lra).
    lra. }
  destruct (airborne s); [|intros [= <-]; split; constructor].
  destruct (landed _).
  { intros [= <-]. split.
    - repeat constructor. exact Hx.
    - repeat constructor; cbn [pos_x sample]; [lra|exact Hx]. }
  destruct (sim_t _ > 10)%js.
  { intros [= <-]. split; repeat constructor. cbn [pos_x sample]. lra. }
  destruct (simLoop _ _ _ n _) as [l'|] eqn:El; [|discriminate].
  intros [= <-]. destruct (IH _ _ El) as [Hs Hf].
  assert (Hf' : Forall (fun pos => sim_x s <= pos_x pos) l').
  { revert Hf. apply Forall_impl. intros p Hp. lra. }
  split.
  - constructor; [exact Hs|exact Hf'].
  - constructor; [cbn [pos_x sample]; lra|exact Hf'].
Qed.

(** Scanning samples that come in the order of their [x], none before
    [b]: either nothing qualified and the offsets are still [-1], or
    they are ordered and not negative. *)
Lemma above_ordered (l : list Position) :
  forall (fl : number * number) (b : number),
    StronglySorted xOrdered l -> Forall (fun pos => b <= pos_x pos) l ->
    0 <= b ->
    fl = (-1, -1) \/ (0 <= fst fl /\ fst fl <= snd fl /\ snd fl <= b) ->
    let r := fold_left (aboveStep requiredPlayerY) l fl in
    r = (-1, -1) \/ (0 <= fst r /\ fst r <= snd r).
Proof.
  induction l as [|p l IH]; intros fl b Hs Hf Hb Hfl; cbv zeta in *;
    cbn [fold_left].
  - destruct Hfl as [E|[H0 [H1 _]]]; [left; exact E|right; split; assumption].
  - inversion Hs as [|? ? Hs' Hp]; subst.
    inversion Hf as [|? ? Hbp Hf']; subst.
    set (fl' := aboveStep requiredPlayerY fl p).
    assert (H' : exists b' : number,
               0 <= b' /\ Forall (fun pos => b' <= pos_x pos) l
               /\ (fl' = (-1, -1)
                   \/ (0 <= fst fl' /\ fst fl' <= snd fl' /\ snd fl' <= b'))).
    { subst fl'. unfold aboveStep.
      destruct (pos_y p <= requiredPlayerY)%js.
      - exists (pos_x p). split; [lra|]. split; [exact Hp|].
        right. cbn [fst snd].
        destruct Hfl as [E|[H0 [H1 H2]]].
        + rewrite E. cbn [fst].
          replace (-1 < 0)%js with true by reflexivity.
          repeat split; lra.
        + replace (fst fl < 0)%js with false by (symmetry; to_Q; exact H0).
          repeat split; lra.
      - exists b. auto. }
    destruct H' as [b' [Hb' [Hf'' Hfl']]].
    apply (IH fl' b'); assumption.
Qed.

Lemma aboveRange_ordered (holdDuration : number) :
  let r := fold_left (aboveStep requiredPlayerY)
             (simulateJump 0 jumpForce grav speed holdDuration) (-1, -1) in
  r = (-1, -1) \/ (0 <= fst r /\ fst r <= snd r).
Proof.
  pose proof (simulateJump_fuel_enough 0 jumpForce grav speed
                holdDuration 0) as E.
  destruct (simLoop_x_ordered _ _ _ E) as [Hs Hf].
  cbn [simInit sim_x] in Hf.
  apply (above_ordered _ _ 0 Hs Hf); [lra|left; reflexivity].
Qed.

Lemma sweepOver_ordered (hds : list number) (st : Search) :
  ((s_firstAboveX st, s_lastAboveX st) = (-1, -1)
   \/ (0 <= s_firstAboveX st /\ s_firstAboveX st <= s_lastAboveX st)) ->
  let st' := sweepOver jumpForce grav speed requiredPlayerY hds st in
  (s_firstAboveX st', s_lastAboveX st') = (-1, -1)
  \/ (0 <= s_firstAboveX st' /\ s_firstAboveX st' <= s_lastAboveX st').
Proof.
  intros H. induction hds as [|hd hds IH]; cbn [sweepOver]; [exact H|].
  cbv zeta. destruct (holdPeak _ <= requiredPlayerY)%js; [|exact IH].
  cbn [s_firstAboveX s_lastAboveX]. unfold aboveRange.
  rewrite <- surjective_pairing. apply aboveRange_ordered.
Qed.

Lemma searchOffsets_ordered :
  let st := searchOffsets jumpForce grav speed requiredPlayerY in
  0 <= firstOffset st /\ firstOffset st <= lastOffset st.
Proof.
  intros st.
  assert (H : (s_firstAboveX st, s_lastAboveX st) = (-1, -1)
              \/ (0 <= s_firstAboveX st
                  /\ s_firstAboveX st <= s_lastAboveX st)).
  { subst st. unfold searchOffsets. cbv zeta.
    set (tapPositions := simulateJump 0 jumpForce grav speed 0).
    assert (T : (firstAboveX (tapScan requiredPlayerY tapPositions),
                 lastAboveX (tapScan requiredPlayerY tapPositions))
                = (-1, -1)
                \/ (0 <= firstAboveX (tapScan requiredPlayerY tapPositions)
                    /\ firstAboveX (tapScan requiredPlayerY tapPositions)
                       <= lastAboveX (tapScan requiredPlayerY tapPositions))).
    { destruct (scan_split requiredPlayerY tapPositions
                  (mkScan PLAYER_GROUND_Y (-1) (-1))) as [_ E].
      fold (tapScan requiredPlayerY tapPositions) in E.
      cbn [firstAboveX lastAboveX] in E.
      pose proof (f_equal fst E) as E1. pose proof (f_equal snd E) as E2.
      cbn [fst snd] in E1, E2.
      pose proof (aboveRange_ordered 0) as A. cbv zeta in A.
      fold tapPositions in A.
      destruct A as [A|A]; [left; rewrite E; exact A|right].
      rewrite E1, E2. exact A. }
    destruct (_ || _); [|exact T].
    rewrite holdSweep_list. apply sweepOver_ordered. exact T. }
  unfold firstOffset, lastOffset.
  destruct H as [E|[H0 H1]].
  - injection E as -> ->.
    replace (-1 < 0)%js with true by reflexivity. split; discriminate.
  - replace (s_firstAboveX st < 0)%js with false
      by (symmetry; to_Q; exact H0).
    replace (s_lastAboveX st < 0)%js with false
      by (symmetry; to_Q; lra).
    split; assumption.
Qed.

End OffsetFacts.

(** X8: with a scroll speed that is not negative the two offsets are
    ordered, [0 <= firstOffset <= lastOffset]; the interval never opens
    after the obstacle's leading edge, and when the obstacle is no wider
    than the airborne span [lastOffset - firstOffset] the two raw bounds
    are returned as they are, no reordering taking place. *)
Theorem solver_offsets_ordered
    (obstacleX obstacleWidth obstacleHeight jumpForce grav speed : number) :
  0 <= speed ->
  let c := calculateClearanceWindow obstacleX obstacleWidth obstacleHeight
             jumpForce grav speed in
  let st := searchOffsets jumpForce grav speed (requiredY obstacleHeight) in
  0 <= firstOffset st /\ firstOffset st <= lastOffset st
  /\ earliestJumpX c <= obstacleX
  /\ (obstacleWidth <= lastOffset st - firstOffset st ->
      earliestJumpX c == obstacleX + obstacleWidth - lastOffset st
      /\ latestJumpX c == obstacleX - firstOffset st).
Proof.
  intros Hs c st.
  destruct (searchOffsets_ordered jumpForce grav speed
              (requiredY obstacleHeight) Hs) as [H0 H1].
  fold st in H0, H1.
  split; [exact H0|]. split; [exact H1|].
  destruct (clearance_window_bounds obstacleX obstacleWidth obstacleHeight
              jumpForce grav speed) as [_ [He Hm]].
  fold c in He, Hm. fold st in He, Hm. split.
  - rewrite He.
    apply Qle_trans with (1 := Q.le_min_r _ _). lra.
  - intros Hw. rewrite He, Hm.
    rewrite Q.min_l by lra. rewrite Q.max_r by lra. split; reflexivity.
Qed.

Lemma solver_offsets_ordered_witness :
  0 <= 192
  /\ earliestJumpX (calculateClearanceWindow 600 37 48 (-426) 670 192)
     <= 600.
Proof.
  assert (H : 0 <= 192) by discriminate.
  split; [exact H|].
  destruct (solver_offsets_ordered 600 37 48 (-426) 670 192 H)
    as [_ [_ [He _]]].
  exact He.
Defined.

(** X9: the solver's answer moves rigidly with the obstacle: shifting
    the obstacle by [d] shifts both ends of the interval by [d], and
    neither the position nor the width of the obstacle has a say in
    whether a hold is needed or for how long. *)
Theorem solver_translates
    (obstacleX obstacleWidth obstacleHeight jumpForce grav speed : number)
    (d obstacleWidth' : number) :
  let c := calculateClearanceWindow obstacleX obstacleWidth obstacleHeight
             jumpForce grav speed in
  let c' := calculateClearanceWindow (obstacleX + d) obstacleWidth
              obstacleHeight jumpForce grav speed in
  let c'' := calculateClearanceWindow (obstacleX + d) obstacleWidth'
               obstacleHeight jumpForce grav speed in
  earliestJumpX c' == earliestJumpX c + d
  /\ latestJumpX c' == latestJumpX c + d
  /\ needsHold c'' = needsHold c
  /\ cw_holdDuration c'' = cw_holdDuration c.
Proof.
  unfold calculateClearanceWindow.
  cbn [earliestJumpX latestJumpX needsHold cw_holdDuration].
  set (st := searchOffsets jumpForce grav speed (requiredY obstacleHeight)).
  rewrite !min_eq, !max_eq, !sub_eq, !add_eq.
  split; [|split; [|split; reflexivity]].
  - setoid_replace (obstacleX + d + obstacleWidth - lastOffset st)
      with (obstacleX + obstacleWidth - lastOffset st + d) by ring.
    setoid_replace (obstacleX + d - firstOffset st)
      with (obstacleX - firstOffset st + d) by ring.
    apply Q.plus_min_distr_r.
  - setoid_replace (obstacleX + d + obstacleWidth - lastOffset st)
      with (obstacleX + obstacleWidth - lastOffset st + d) by ring.
    setoid_replace (obstacleX + d - firstOffset st)
      with (obstacleX - firstOffset st + d) by ring.
    apply Q.plus_max_distr_r.
Qed.

(** ** What a gravity level looks like *)


Section GravityLevelFacts.

Variables (difficulty length speed jumpForce grav : number).
Variable random : nat -> number.

(** The body of the loop, with its two destructuring [let]s spelt out. *)
Lemma placeObstacle_unfold (s : GenState) :
  let rand := random (drawn s) in
  let isHoldJump :=
    (rand < holdJumpProbability difficulty)%js && (difficulty >= 3)%js in
  let shn := chooseObstacle difficulty random isHoldJump rand (S (drawn s)) in
  let sh := fst shn in
  let ow := emitPair difficulty (gen_x s) sh
              (clearanceFor speed jumpForce grav (gen_x s) sh) in
  let spacing :=
    (minSpacing difficulty
     + random (snd shn)
       * (maxSpacing difficulty - minSpacing difficulty))%js in
  placeObstacle difficulty speed jumpForce grav random s
  = mkGenState (gen_x s + (obstacleWidth sh + spacing))%js
               (S (obstacleCount s)) (S (snd shn))
               (gen_obstacles s ++ [fst ow]) (gen_windows s ++ [snd ow]).
Proof.
  unfold placeObstacle. cbv zeta.
  destruct (chooseObstacle _ _ _ _ _) as [sh n]. cbn [fst snd].
  destruct (emitPair _ _ _ _) as [o w]. reflexivity.
Qed.

(** The obstacle of a placement stands at the cursor and has the chosen
    width, height and type. *)
Lemma emitPair_obstacle (x : number) (sh : Shape) (c : Clearance) :
  fst (emitPair difficulty x sh c)
  = mkObstacle x 1 (obstacleWidth sh) (obstacleHeight sh) (obstacleType sh).
Proof.
  unfold emitPair. destruct (isGap (obstacleType sh)) eqn:G; cbn [fst];
    [|reflexivity].
  destruct (obstacleType sh); try discriminate. reflexivity.
Qed.

(** The fitted window of a solver result: ordered, and no wider than
    the target width. *)
Lemma fitWindow_bounds (x width height : number) :
  let w := fitWindow difficulty
             (calculateClearanceWindow x width height jumpForce grav speed) in
  fst w <= snd w /\ snd w - fst w <= baseWindowWidth difficulty.
Proof.
  destruct (clearance_window_bounds x width height jumpForce grav speed)
    as [Ho _].
  destruct (shrinkWindow_ordered difficulty _ _ Ho) as [Hw Hd].
  cbv zeta in Hw, Hd. unfold fitWindow, clampWindow.
  replace (snd _ < fst _)%js with false
    by (symmetry; apply ltb_ge; exact Hw).
  split; [exact Hw|]. rewrite Hd. apply Q.le_min_r.
Qed.

(** What every window of a gravity level satisfies, next to its
    obstacle. *)
Lemma emitPair_window (x : number) (sh : Shape) :
  let ow := emitPair difficulty x sh
              (clearanceFor speed jumpForce grav x sh) in
  startX (snd ow) <= endX (snd ow)
  /\ (o_type (fst ow) = gap -> endX (snd ow) - startX (snd ow) == 100)
  /\ (o_type (fst ow) <> gap ->
      endX (snd ow) - startX (snd ow) <= baseWindowWidth difficulty)
  /\ (forall v : number,
        jw_holdDuration (snd ow) = Some v -> 0 <= v /\ v <= 1000).
Proof.
  cbv zeta. rewrite emitPair_obstacle. cbn [o_type].
  unfold emitPair. destruct (isGap (obstacleType sh)) eqn:G; cbn [snd].
  - unfold gapJumpWindow. cbn [startX endX jw_holdDuration]. to_Q.
    split; [lra|]. split; [intros _; lra|].
    split; [|discriminate].
    intros N. destruct (obstacleType sh); try discriminate.
    contradiction.
  - cbn [startX endX jw_holdDuration]. unfold clearanceFor. rewrite G.
    destruct (fitWindow_bounds x (obstacleWidth sh) (obstacleHeight sh))
      as [Hw Hd].
    cbv zeta in Hw, Hd.
    split; [exact Hw|]. split.
    { intros E. rewrite E in G. discriminate. }
    split; [intros _; exact Hd|].
    intros v. destruct (needsHold _); [|discriminate].
    intros [= <-]. rewrite mul_eq.
    apply (holdDuration_cases x (obstacleWidth sh) (obstacleHeight sh)
             jumpForce grav speed).
Qed.

End GravityLevelFacts.

(** X10: every window of a generated level is ordered,
    [startX <= endX]: in gravity mode whatever the difficulty, in wave
    mode as long as the obstacle width [55 + 2 * difficulty] is at least
    [-100], which every difficulty from 0 on satisfies. *)
Theorem windows_are_ordered
    (difficulty length : number) (mode : Mode)
    (speed jumpForce grav : number) (random : nat -> number)
    (fuel : nat) (lvl : Level) :
  (mode = wave -> -(155 # 2) <= difficulty) ->
  generateJumpWindowLevel fuel difficulty length mode speed jumpForce grav
                          random = Some lvl ->
  Forall (fun w => startX w <= endX w) (jumpWindows lvl).
Proof.
  intros Hd. unfold generateJumpWindowLevel, generateWaveObstacles.
  destruct mode.
  - destruct (gravityLoop _ _ _ _ _ _ fuel genInit) as [s|] eqn:E;
      [|discriminate].
    intros [= <-]. cbn [jumpWindows levelOf]. revert E.
    apply (while_fuel_invariant _ _
             (fun s => Forall (fun w => startX w <= endX w) (gen_windows s))).
    + intros s0 H0 _. rewrite placeObstacle_unfold. cbn [gen_windows].
      apply Forall_app. split; [exact H0|].
      constructor; [|constructor].
      apply (emitPair_window difficulty speed jumpForce grav).
    + constructor.
  - specialize (Hd eq_refl).
    destruct (waveLoop _ _ _ fuel genInit) as [s|] eqn:E; [|discriminate].
    intros [= <-]. cbn [jumpWindows levelOf]. revert E.
    apply (while_fuel_invariant _ _
             (fun s => Forall (fun w => startX w <= endX w) (gen_windows s))).
    + intros s0 H0 _. unfold placeWavePair. cbn [gen_windows].
      apply Forall_app. split; [exact H0|].
      constructor; [|constructor].
      cbn [startX endX]. to_Q. lra.
    + constructor.
Qed.

Lemma windows_are_ordered_witness :
  (tierMode 1 = wave -> -(155 # 2) <= tierDifficulty 1)
  /\ exists lvl : Level,
       generateTier 1 40 (fun _ => 1 # 2) = Some lvl
       /\ Forall (fun w => startX w <= endX w) (jumpWindows lvl).
Proof.
  assert (H : tierMode 1 = wave -> -(155 # 2) <= tierDifficulty 1)
    by (intros _; discriminate).
  split; [exact H|].
  eexists. split; [vm_compute; reflexivity|].
  apply (windows_are_ordered (tierDifficulty 1) (tierLength 1) (tierMode 1)
           (tierSpeed 1) (tierJumpForce 1) (tierGravity 1)
           (fun _ => 1 # 2) 40 _ H).
  vm_compute. reflexivity.
Defined.



Section GravityPositions.

Variables (difficulty length speed jumpForce grav : number).
Variable random : nat -> number.
Hypothesis draws : unitDraws random.





End GravityPositions.



Lemma generate_starts
    (difficulty length : number) (mode : Mode)
    (speed jumpForce grav : number) (random : nat -> number)
    (fuel : nat) (lvl : Level) :
  generateJumpWindowLevel fuel difficulty length mode speed jumpForce grav
                          random = Some lvl ->
  let threshold : number :=
    match mode with gravity => 1000 | wave => 800 end in
  (length <= threshold -> obstacles lvl = [] /\ jumpWindows lvl = [])
  /\ (threshold < length ->
      jumpWindows lvl <> []
      /\ exists (o : Obstacle) (rest : list Obstacle),
           obstacles lvl = o :: rest /\ o_x o = 600).
Proof.
  set (started := fun s : GenState =>
         gen_windows s <> []
         /\ exists (o : Obstacle) (rest : list Obstacle),
              gen_obstacles s = o :: rest /\ o_x o = 600).
  unfold generateJumpWindowLevel, generateWaveObstacles.
  destruct mode; cbv zeta.
  - destruct (gravityLoop _ _ _ _ _ _ fuel genInit) as [s|] eqn:E;
      [|discriminate].
    intros [= <-]. cbn [obstacles jumpWindows levelOf].
    destruct fuel as [|fuel]; [discriminate|].
    unfold gravityLoop in E. cbn [while_fuel] in E.
    destruct (gen_x genInit < length - 400)%js eqn:C.
    + cbn [gen_x genInit] in C. to_Q. split; [intros L; lra|]. intros _.
      revert E. apply (while_fuel_invariant _ _ started).
      * intros s0 [Hw [o [rest [Eo Ex]]]] _. rewrite placeObstacle_unfold.
        cbn [gen_obstacles gen_windows]. split.
        { intros N. apply app_eq_nil in N. destruct N as [_ N].
          discriminate. }
        exists o, (rest ++ [fst (emitPair difficulty (gen_x s0)
                     (fst (chooseObstacle difficulty random
                        ((random (drawn s0)
                          < holdJumpProbability difficulty)%js
                         && (difficulty >= 3)%js)
                        (random (drawn s0)) (S (drawn s0))))
                     (clearanceFor speed jumpForce grav (gen_x s0)
                        (fst (chooseObstacle difficulty random
                           ((random (drawn s0)
                             < holdJumpProbability difficulty)%js
                            && (difficulty >= 3)%js)
                           (random (drawn s0)) (S (drawn s0))))))]).
        rewrite Eo. split; [reflexivity|exact Ex].
      * rewrite placeObstacle_unfold. cbn [gen_obstacles gen_windows genInit].
        split; [discriminate|]. rewrite emitPair_obstacle.
        eexists. eexists. split; [reflexivity|]. reflexivity.
    + injection E as <-. cbn [gen_x genInit gen_obstacles gen_windows] in *.
      to_Q. split; [intros _; split; reflexivity|]. intros L. lra.
  - destruct (waveLoop _ _ _ fuel genInit) as [s|] eqn:E; [|discriminate].
    intros [= <-]. cbn [obstacles jumpWindows levelOf].
    destruct fuel as [|fuel]; [discriminate|].
    unfold waveLoop in E. cbn [while_fuel] in E.
    destruct (gen_x genInit < length - 200)%js eqn:C.
    + cbn [gen_x genInit] in C. to_Q. split; [intros L; lra|]. intros _.
      revert E. apply (while_fuel_invariant _ _ started).
      * intros s0 [Hw [o [rest [Eo Ex]]]] _. unfold placeWavePair.
        cbn [gen_obstacles gen_windows]. split.
        { intros N. apply app_eq_nil in N. destruct N as [_ N].
          discriminate. }
        rewrite Eo. eexists. eexists. cbn [app].
        split; [reflexivity|exact Ex].
      * unfold placeWavePair. cbn [gen_obstacles gen_windows genInit gen_x].
        split; [discriminate|].
        eexists. eexists. cbn [app]. split; reflexivity.
    + injection E as <-. cbn [gen_x genInit gen_obstacles gen_windows] in *.
      to_Q. split; [intros _; split; reflexivity|]. intros L. lra.
Qed.

(** X13: a level too short for the first obstacle at 600 (a length of
    at most 1000 in gravity mode, 800 in wave mode) has no obstacle and
    no window at all; any longer level has both, and its first obstacle
    stands at 600. *)
Theorem level_empty_or_starts_at_600
    (difficulty length : number) (mode : Mode)
    (speed jumpForce grav : number) (random : nat -> number)
    (fuel : nat) (lvl : Level) :
  generateJumpWindowLevel fuel difficulty length mode speed jumpForce grav
                          random = Some lvl ->
  let threshold : number :=
    match mode with gravity => 1000 | wave => 800 end in
  (length <= threshold -> obstacles lvl = [] /\ jumpWindows lvl = [])
  /\ (threshold < length ->
      jumpWindows lvl <> []
      /\ exists (o : Obstacle) (rest : list Obstacle),
           obstacles lvl = o :: rest /\ o_x o = 600).
Proof. apply generate_starts. Qed.

Lemma level_empty_or_starts_at_600_witness :
  exists lvl : Level,
    generateTier 1 40 (fun _ => 1 # 2) = Some lvl
    /\ (tierLength 1 <= 800 -> obstacles lvl = [] /\ jumpWindows lvl = [])
    /\ (800 < tierLength 1 ->
        jumpWindows lvl <> []
        /\ exists (o : Obstacle) (rest : list Obstacle),
             obstacles lvl = o :: rest /\ o_x o = 600).
Proof.
  eexists. split; [vm_compute; reflexivity|].
  apply (level_empty_or_starts_at_600 (tierDifficulty 1) (tierLength 1)
           (tierMode 1) (tierSpeed 1) (tierJumpForce 1) (tierGravity 1)
           (fun _ => 1 # 2) 40).
  vm_compute. reflexivity.
Defined.

(** ** Shapes *)




(** ** Wave pairs *)





(** ** The level table *)

Lemma tierLength_ge (i : nat) : 3400 <= tierLength i.
Proof.
  unfold tierLength, tierDifficulty. to_Q.
  assert (0 <= inject_Z (Z.of_nat i)).
  { change 0 with (inject_Z 0). rewrite <- Zle_Qle. lia. }
  lra.
Qed.

(** X16: every tier of the level table launches upwards (its jump
    force is negative) and, with draws in [0, 1), its generation ends
    in a level that has obstacles and windows, the first obstacle at
    600. *)
Theorem every_tier_generates (i : nat) (random : nat -> number) :
  unitDraws random ->
  tierJumpForce i < 0
  /\ exists (fuel : nat) (lvl : Level),
       generateTier i fuel random = Some lvl
       /\ jumpWindows lvl <> []
       /\ exists (o : Obstacle) (rest : list Obstacle),
            obstacles lvl = o :: rest /\ o_x o = 600.
Proof.
  intros R.
  assert (D : 0 <= inject_Z (Z.of_nat i)).
  { change 0 with (inject_Z 0). rewrite <- Zle_Qle. lia. }
  split.
  - unfold tierJumpForce, tierDifficulty. destruct (tierMode i); to_Q; lra.
  - unfold generateTier.
    destruct (generate_total (tierDifficulty i) (tierLength i) (tierMode i)
                (tierSpeed i) (tierJumpForce i) (tierGravity i) random R)
      as [fuel [lvl E]].
    exists fuel, lvl. split; [exact E|].
    apply (generate_starts _ _ _ _ _ _ _ _ _ E).
    pose proof (tierLength_ge i) as L.
    destruct (tierMode i); lra.
Qed.

Lemma every_tier_generates_witness :
  unitDraws (fun _ => 1 # 2)
  /\ tierJumpForce 14 < 0
  /\ exists (fuel : nat) (lvl : Level),
       generateTier 14 fuel (fun _ => 1 # 2) = Some lvl
       /\ jumpWindows lvl <> []
       /\ exists (o : Obstacle) (rest : list Obstacle),
            obstacles lvl = o :: rest /\ o_x o = 600.
Proof.
  assert (R : unitDraws (fun _ => 1 # 2)) by exact unitDraws_half.
  split; [exact R|].
  exact (every_tier_generates 14 (fun _ => 1 # 2) R).
Defined.

(** ** The generator of the test scripts *)

Section ScriptFacts.

Variables (difficulty length speed jumpForce grav : number).
Variable random : nat -> number.

(** The body of the scripts' loop, with its [let]s spelt out. *)
Lemma script_placeObstacle_unfold (s : TestScript.ScriptState) :
  let g := TestScript.gen s in
  let rand := random (drawn g) in
  let isHoldJump :=
    (difficulty === 1)%js && negb (TestScript.hasHadHeldJump s)
    && (2 <=? obstacleCount g)%nat
    || ((rand < holdJumpProbability difficulty)%js
        && (difficulty >= 2)%js) in
  let shn := chooseObstacle difficulty random isHoldJump rand (S (drawn g)) in
  let sh := fst shn in
  let ow := TestScript.emitPair difficulty isHoldJump (gen_x g) sh
              (clearanceFor speed jumpForce grav (gen_x g) sh) in
  let spacing :=
    (minSpacing difficulty
     + random (snd shn)
       * (maxSpacing difficulty - minSpacing difficulty))%js in
  TestScript.placeObstacle difficulty speed jumpForce grav random s
  = TestScript.mkScriptState
      (mkGenState (gen_x g + (obstacleWidth sh + spacing))%js
                  (S (obstacleCount g)) (S (snd shn))
                  (gen_obstacles g ++ [fst ow]) (gen_windows g ++ [snd ow]))
      (TestScript.hasHadHeldJump s || isHoldJump).
Proof.
  unfold TestScript.placeObstacle. cbv zeta.
  destruct (chooseObstacle _ _ _ _ _) as [sh n]. cbn [fst snd].
  destruct (TestScript.emitPair _ _ _ _ _) as [o w]. reflexivity.
Qed.

(** The scripts push the obstacle the production generator would push
    for the same shape. *)
Lemma script_emitPair_obstacle (isHoldJump : bool) (x : number)
    (sh : Shape) (c : Clearance) :
  fst (TestScript.emitPair difficulty isHoldJump x sh c)
  = fst (emitPair difficulty x sh c).
Proof.
  unfold TestScript.emitPair, emitPair.
  destruct (isGap (obstacleType sh)); reflexivity.
Qed.

Lemma script_emitPair_ok (isHoldJump : bool) (x : number)
    (sh : Shape) (c : Clearance) :
  pairOK (fst (TestScript.emitPair difficulty isHoldJump x sh c))
         (snd (TestScript.emitPair difficulty isHoldJump x sh c)).
Proof.
  unfold TestScript.emitPair, pairOK.
  destruct (isGap (obstacleType sh)) eqn:G; cbn [fst snd].
  - split; [|reflexivity]. unfold gapJumpWindow.
    cbn [jw_holdDuration jw_type]. split; [congruence|discriminate].
  - split.
    + cbn [jw_holdDuration jw_type].
      destruct (isHoldJump || needsHold c); split; congruence.
    + cbn [o_type]. intros E. rewrite E in G. discriminate.
Qed.

Lemma script_placeObstacle_advances (s : TestScript.ScriptState) :
  unitDraws random ->
  gen_x (TestScript.gen s) + 215
  <= gen_x (TestScript.gen
              (TestScript.placeObstacle difficulty speed jumpForce grav
                                        random s)).
Proof.
  intros R. rewrite script_placeObstacle_unfold.
  cbn [TestScript.gen gen_x].
  match goal with
  | |- context [chooseObstacle difficulty random ?b ?r ?n] =>
      pose proof (chooseObstacle_width difficulty random b r n) as W;
      set (shn := chooseObstacle difficulty random b r n) in *
  end.
  destruct (R (snd shn)) as [R0 _].
  unfold maxSpacing. to_Q.
  set (m := minSpacing difficulty) in *.
  assert (0 <= random (snd shn) * 150) by (apply Qmult_le_0_compat; lra).
  lra.
Qed.

End ScriptFacts.

(** X17: the generator of the test scripts keeps the alignment of the
    production generator, whatever the difficulty: with draws in
    [0, 1) it returns a level, with one window for each obstacle, a hold
    duration exactly on the [hold] windows, and the fixed window
    [[x - 120, x - 20]] before every gap. *)
Theorem script_levels_are_aligned
    (difficulty length speed jumpForce grav : number)
    (random : nat -> number) :
  unitDraws random ->
  exists (fuel : nat) (lvl : Level),
    TestScript.generateJumpWindowLevel fuel difficulty length speed
                                       jumpForce grav random = Some lvl
    /\ Forall2 pairOK (obstacles lvl) (jumpWindows lvl).
Proof.
  intros R. unfold TestScript.generateJumpWindowLevel.
  destruct (while_fuel_total
              (fun s => (gen_x (TestScript.gen s) < length - 400)%js)
              (TestScript.placeObstacle difficulty speed jumpForce grav
                                        random)
              (fun s => (length - 400 - gen_x (TestScript.gen s))
                        * (1 # 215)))
    with (s := TestScript.scriptInit) as [fuel [s E]].
  { intros s C. to_Q.
    pose proof (script_placeObstacle_advances difficulty speed jumpForce
                  grav random s R) as A.
    set (x' := gen_x (TestScript.gen _)) in *.
    split; lra. }
  exists fuel, (levelOf (TestScript.gen s)).
  unfold TestScript.scriptLoop. rewrite E. split; [reflexivity|].
  cbn [obstacles jumpWindows levelOf]. revert E.
  apply (while_fuel_invariant _ _
           (fun s => Forall2 pairOK (gen_obstacles (TestScript.gen s))
                             (gen_windows (TestScript.gen s)))).
  - intros s0 H0 _. rewrite script_placeObstacle_unfold.
    cbn [TestScript.gen gen_obstacles gen_windows].
    apply Forall2_app; [exact H0|]. constructor; [|constructor].
    apply script_emitPair_ok.
  - constructor.
Qed.

Lemma script_levels_are_aligned_witness :
  unitDraws (fun _ => 1 # 2)
  /\ exists (fuel : nat) (lvl : Level),
       TestScript.generateJumpWindowLevel fuel 5 5000 240 (-450) 750
                                          (fun _ => 1 # 2) = Some lvl
       /\ Forall2 pairOK (obstacles lvl) (jumpWindows lvl).
Proof.
  assert (R : unitDraws (fun _ => 1 # 2)) by exact unitDraws_half.
  split; [exact R|].
  exact (script_levels_are_aligned 5 5000 240 (-450) 750 (fun _ => 1 # 2) R).
Defined.

(** *** Level 1 in the scripts *)

(** The tap of level 1 peaks above [y = 590]. *)
Lemma level1_tap_peak_590 :
  noneAbove 590 (simulateJump 0 (-426) 670 192 0) = false.
Proof. vm_compute. reflexivity. Qed.

(** With the motion parameters of level 1 no obstacle up to 98 high
    needs a hold, and the solver returns the duration 0 for it. *)
Lemma level1_obstacle_tap (x width height : number) :
  height <= 98 ->
  needsHold (calculateClearanceWindow x width height (-426) 670 192) = false
  /\ cw_holdDuration
       (calculateClearanceWindow x width height (-426) 670 192) = 0.
Proof.
  intros H.
  assert (N : needsHold
                (calculateClearanceWindow x width height (-426) 670 192)
              = false).
  { rewrite needsHold_calculate by lra.
    apply (noneAbove_mono 590); [rewrite requiredY_eq; lra|].
    exact level1_tap_peak_590. }
  split; [exact N|].
  apply (holdDuration_cases x width height (-426) 670 192). exact N.
Qed.

Section Level1ScriptWindows.

Variable length : number.
Variable random : nat -> number.
Hypothesis draws : unitDraws random.

(** The window pushed by the scripts at difficulty 1 for an obstacle
    that was not picked as a held jump is a [tap]; the one pushed for a
    held jump is a [hold] of duration 0. *)
Lemma script_level1_window (isHoldJump : bool) (x rand : number) (n : nat) :
  let sh := fst (chooseObstacle 1 random isHoldJump rand n) in
  let w := snd (TestScript.emitPair 1 isHoldJump x sh
                  (clearanceFor 192 (-426) 670 x sh)) in
  if isHoldJump
  then jw_type w = hold /\ jw_holdDuration w = Some 0
  else jw_type w = tap.
Proof.
  cbv zeta. destruct (draws n) as [R0 R1].
  assert (M15 : random n * 15 < 15) by nra.
  assert (M20 : random n * 20 < 20) by nra.
  unfold chooseObstacle, baseObstacleHeight, obstacleHeightVariation.
  destruct isHoldJump; [|destruct (rand < 0.5)%js;
                          [|destruct (rand < 0.85)%js]];
    unfold TestScript.emitPair, clearanceFor;
    cbn [fst snd obstacleType isGap obstacleWidth obstacleHeight orb
         jw_type jw_holdDuration];
    try reflexivity.
  - split; [reflexivity|].
    match goal with
    | |- context [calculateClearanceWindow x ?w ?h _ _ _] =>
        destruct (level1_obstacle_tap x w h) as [_ E]
    end.
    { to_Q. lra. }
    rewrite E. reflexivity.
  - match goal with
    | |- context [calculateClearanceWindow x ?w ?h _ _ _] =>
        destruct (level1_obstacle_tap x w h) as [E _]
    end.
    { to_Q. lra. }
    rewrite E. reflexivity.
  - match goal with
    | |- context [calculateClearanceWindow x ?w ?h _ _ _] =>
        destruct (level1_obstacle_tap x w h) as [E _]
    end.
    { to_Q. lra. }
    rewrite E. reflexivity.
Qed.

Lemma script_level1_windows (fuel : nat) (s : TestScript.ScriptState) :
  TestScript.scriptLoop 1 length 192 (-426) 670 random fuel
                        TestScript.scriptInit = Some s ->
  let g := TestScript.gen s in
  List.length (gen_windows g) = obstacleCount g
  /\ ((obstacleCount g <= 2)%nat -> TestScript.hasHadHeldJump s = false)
  /\ ((3 <= obstacleCount g)%nat -> TestScript.hasHadHeldJump s = true)
  /\ forall (i : nat) (w : JumpWindow),
       nth_error (gen_windows g) i = Some w ->
       (jw_type w = hold <-> i = 2%nat)
       /\ (i = 2%nat -> jw_holdDuration w = Some 0).
Proof.
  apply (while_fuel_invariant _ _
    (fun s =>
       let g := TestScript.gen s in
       List.length (gen_windows g) = obstacleCount g
       /\ ((obstacleCount g <= 2)%nat ->
           TestScript.hasHadHeldJump s = false)
       /\ ((3 <= obstacleCount g)%nat ->
           TestScript.hasHadHeldJump s = true)
       /\ forall (i : nat) (w : JumpWindow),
            nth_error (gen_windows g) i = Some w ->
            (jw_type w = hold <-> i = 2%nat)
            /\ (i = 2%nat -> jw_holdDuration w = Some 0))).
  - intros s0 [Hlen [Hearly [Hlate Hw]]] _.
    destruct (script_place_unfold 192 (-426) 670 random s0) as [Ew [Ec Eh]].
    fold (scriptLevel1Place 192 (-426) 670 random).
    cbv zeta in *. rewrite Ew, Ec, Eh.
    set (c := obstacleCount (TestScript.gen s0)) in *.
    set (b := negb (TestScript.hasHadHeldJump s0) && (2 <=? c)%nat) in *.
    assert (B : b = (c =? 2)%nat).
    { unfold b. destruct (Nat.lt_ge_cases c 3) as [L|L].
      - rewrite Hearly by lia. cbn [negb andb].
        destruct c as [|[|[|c']]]; try reflexivity. lia.
      - rewrite Hlate by lia. cbn [negb andb].
        symmetry. apply Nat.eqb_neq. lia. }
    pose proof (script_level1_window b (gen_x (TestScript.gen s0))
                  (random (drawn (TestScript.gen s0)))
                  (S (drawn (TestScript.gen s0)))) as W.
    cbv zeta in W.
    split; [rewrite length_app; cbn [List.length]; lia|]. split.
    { intros Hc. rewrite Hearly by lia. rewrite B.
      replace (c =? 2)%nat with false by (symmetry; apply Nat.eqb_neq; lia).
      reflexivity. }
    split.
    { intros Hc. rewrite B.
      destruct (Nat.eq_dec c 2) as [E2|N2].
      - rewrite E2. apply orb_true_r.
      - rewrite Hlate by lia. reflexivity. }
    intros i w Hn.
    destruct (Nat.lt_ge_cases i (List.length (gen_windows (TestScript.gen s0))))
      as [L|L].
    + rewrite nth_error_app1 in Hn by exact L. apply Hw. exact Hn.
    + rewrite nth_error_app2 in Hn by exact L.
      destruct (i - List.length (gen_windows (TestScript.gen s0)))%nat
        as [|k] eqn:K; [|destruct k; discriminate].
      cbn [nth_error] in Hn. injection Hn as <-.
      assert (I : i = c) by lia.
      rewrite B in W. rewrite B. rewrite I.
      destruct (c =? 2)%nat eqn:E2.
      * apply Nat.eqb_eq in E2. destruct W as [W1 W2].
        split; [split; intros _; [exact E2|exact W1]|].
        intros _. exact W2.
      * apply Nat.eqb_neq in E2. split; [|intros F; contradiction].
        split; [intros F; rewrite W in F; discriminate|].
        intros F. contradiction.
  - cbn. split; [reflexivity|]. split; [reflexivity|].
    split; [lia|]. intros [|i] w; discriminate.
Qed.

End Level1ScriptWindows.

(** X18: with the motion parameters of level 1 and draws in [0, 1), the
    level 1 of the test scripts has exactly one [hold] window, the
    third one, and no other; the solver finds that a tap clears its
    obstacle, so the hold duration written on it is 0. *)
Theorem script_level1_single_hold
    (length : number) (random : nat -> number) (fuel : nat) (lvl : Level) :
  unitDraws random ->
  TestScript.generateJumpWindowLevel fuel 1 length 192 (-426) 670 random
  = Some lvl ->
  forall (i : nat) (w : JumpWindow),
    nth_error (jumpWindows lvl) i = Some w ->
    (jw_type w = hold <-> i = 2%nat)
    /\ (i = 2%nat -> jw_holdDuration w = Some 0).
Proof.
  intros R. unfold TestScript.generateJumpWindowLevel.
  destruct (TestScript.scriptLoop _ _ _ _ _ _ fuel _) as [s|] eqn:E;
    [|discriminate].
  intros [= <-]. cbn [jumpWindows levelOf].
  apply (script_level1_windows length random R fuel s E).
Qed.

Lemma script_level1_single_hold_witness :
  unitDraws (fun _ => 1 # 2)
  /\ exists (lvl : Level) (w : JumpWindow),
       TestScript.generateJumpWindowLevel 20 1 3400 192 (-426) 670
                                          (fun _ => 1 # 2) = Some lvl
       /\ nth_error (jumpWindows lvl) 2 = Some w
       /\ (jw_type w = hold <-> 2%nat = 2%nat)
       /\ (2%nat = 2%nat -> jw_holdDuration w = Some 0).
Proof.
  assert (R : unitDraws (fun _ => 1 # 2)) by exact unitDraws_half.
  split; [exact R|].
  eexists. eexists.
  split; [vm_compute; reflexivity|].
  split; [vm_compute; reflexivity|].
  eapply (script_level1_single_hold 3400 (fun _ => 1 # 2) 20 _ R);
    vm_compute; reflexivity.
Defined.

(** *** The scripts against the production generator *)

Section RelatedLoops.

Context {S1 S2 : Type}.
Variables (cond1 : S1 -> bool) (body1 : S1 -> S1).
Variables (cond2 : S2 -> bool) (body2 : S2 -> S2).
Variable R : S1 -> S2 -> Prop.
Hypothesis R_cond : forall s t, R s t -> cond1 s = cond2 t.
Hypothesis R_body :
  forall s t, R s t -> cond1 s = true -> R (body1 s) (body2 t).

(** Two loops that stay related leave together, in related states. *)
Lemma while_fuel_related (fuel : nat) : forall (s s' : S1) (t : S2),
  R s t -> while_fuel cond1 body1 fuel s = Some s' ->
  exists t' : S2, while_fuel cond2 body2 fuel t = Some t' /\ R s' t'.
Proof.
  induction fuel as [|fuel IH]; intros s s' t H; cbn [while_fuel];
    [discriminate|].
  rewrite <- (R_cond s t H). destruct (cond1 s) eqn:C.
  - apply IH. apply R_body; assumption.
  - intros [= <-]. exists t. split; [reflexivity|exact H].
Qed.

End RelatedLoops.

Lemma script_place_agrees
    (difficulty speed jumpForce grav : number) (random : nat -> number)
    (s : TestScript.ScriptState) (t : GenState) :
  3 <= difficulty -> loopsAgree s t ->
  loopsAgree
    (TestScript.placeObstacle difficulty speed jumpForce grav random s)
    (placeObstacle difficulty speed jumpForce grav random t).
Proof.
  intros D [Hx [Hd [Ho Hw]]].
  rewrite script_placeObstacle_unfold, placeObstacle_unfold.
  rewrite Hx, Hd.
  assert (E1 : (difficulty === 1)%js = false).
  { destruct (difficulty === 1)%js eqn:E; [|reflexivity].
    unfold Num.eqb in E.
    destruct (difficulty ?= 1) eqn:C; try discriminate.
    apply Qeq_alt in C. lra. }
  assert (E2 : (difficulty >= 2)%js = true) by (to_Q; lra).
  assert (E3 : (difficulty >= 3)%js = true) by (to_Q; lra).
  rewrite E1, E2, E3. cbn [andb orb].
  set (b := (random (drawn t) < holdJumpProbability difficulty)%js && true).
  set (shn := chooseObstacle difficulty random b (random (drawn t))
                             (S (drawn t))).
  unfold loopsAgree. cbn [TestScript.gen gen_x drawn gen_obstacles
                          gen_windows].
  split; [reflexivity|]. split; [reflexivity|]. split.
  - rewrite Ho, script_emitPair_obstacle. reflexivity.
  - apply Forall2_app; [exact Hw|]. constructor; [|constructor].
    unfold windowAgrees, TestScript.emitPair, emitPair.
    destruct (isGap (obstacleType (fst shn))); cbn [snd].
    + repeat split; discriminate.
    + cbn [startX endX jw_type jw_holdDuration].
      split; [reflexivity|]. split; [reflexivity|].
      destruct (needsHold _); [|discriminate].
      rewrite orb_true_r. intros _. split; reflexivity.
Qed.

(** X19: from difficulty 3 on the generator of the test scripts and the
    production generator build the same course from the same draws:
    whenever the scripts' generator returns, the production one returns
    with the same fuel, the obstacles are the same, and each window has
    the same interval; a window that is a [hold] in production is a
    [hold] of the same duration in the scripts, which may tag more of
    them. *)
Theorem script_agrees_with_production
    (difficulty length speed jumpForce grav : number)
    (random : nat -> number) (fuel : nat) (lvl : Level) :
  3 <= difficulty ->
  TestScript.generateJumpWindowLevel fuel difficulty length speed jumpForce
                                     grav random = Some lvl ->
  exists lvl' : Level,
    generateJumpWindowLevel fuel difficulty length gravity speed jumpForce
                            grav random = Some lvl'
    /\ obstacles lvl = obstacles lvl'
    /\ Forall2 windowAgrees (jumpWindows lvl) (jumpWindows lvl').
Proof.
  intros D. unfold TestScript.generateJumpWindowLevel,
              generateJumpWindowLevel.
  destruct (TestScript.scriptLoop _ _ _ _ _ _ fuel _) as [s|] eqn:E;
    [|discriminate].
  intros [= <-].
  destruct (while_fuel_related
              (fun s => (gen_x (TestScript.gen s) < length - 400)%js)
              (TestScript.placeObstacle difficulty speed jumpForce grav
                                        random)
              (fun t => (gen_x t < length - 400)%js)
              (placeObstacle difficulty speed jumpForce grav random)
              loopsAgree) with (fuel := fuel) (s := TestScript.scriptInit)
              (s' := s) (t := genInit) as [t [Et Ht]].
  - intros s0 t0 [Hx _]. rewrite Hx. reflexivity.
  - intros s0 t0 H0 _. apply script_place_agrees; assumption.
  - unfold loopsAgree. cbn. repeat split. constructor.
  - exact E.
  - exists (levelOf t). unfold gravityLoop. rewrite Et.
    split; [reflexivity|]. destruct Ht as [_ [_ [Ho Hw]]].
    cbn [obstacles jumpWindows levelOf]. split; assumption.
Qed.

Lemma script_agrees_with_production_witness :
  3 <= tierDifficulty 2
  /\ exists lvl : Level,
       TestScript.generateJumpWindowLevel 20 (tierDifficulty 2)
         (tierLength 2) (tierSpeed 2) (tierJumpForce 2) (tierGravity 2)
         (fun n => if Nat.even n then 1 # 10 else 9 # 10) = Some lvl
       /\ exists lvl' : Level,
            generateTier 2 20 (fun n => if Nat.even n then 1 # 10 else 9 # 10)
            = Some lvl'
            /\ obstacles lvl = obstacles lvl'
            /\ Forall2 windowAgrees (jumpWindows lvl) (jumpWindows lvl').
Proof.
  assert (D : 3 <= tierDifficulty 2) by discriminate.
  split; [exact D|].
  eexists. split; [vm_compute; reflexivity|].
  apply (script_agrees_with_production (tierDifficulty 2) (tierLength 2)
           (tierSpeed 2) (tierJumpForce 2) (tierGravity 2)
           (fun n => if Nat.even n then 1 # 10 else 9 # 10) 20 _ D).
  vm_compute. reflexivity.
Defined.

(** ** The game scene *)

Lemma updatePlayer_band
    (height : number) (mode : Mode) (levelGravity levelJumpForce : number)
    (isHolding : bool) (delta : number) (player : GameScene.Player) :
  150 <= height ->
  let player' :=
    GameScene.updatePlayer height mode levelGravity levelJumpForce
                           isHolding delta player in
  80 <= GameScene.p_y player' /\ GameScene.p_y player' <= height - 70.
Proof.
  intros H. cbv zeta.
  unfold GameScene.updatePlayer, GameScene.updateGravityMode,
    GameScene.updateWaveMode, GameScene.playableTop, GameScene.topMargin,
    GameScene.groundHeight.
  replace (60 + 20)%js with 80 by reflexivity.
  destruct mode; cbv zeta.
  - set (vy := if isHolding && _ then _ else _).
    set (y := (GameScene.p_y player + vy * (delta / 1000))%js).
    destruct (y > (height - 50 - 20)%js)%js eqn:G.
    + destruct ((height - 50 - 20)%js < 80)%js eqn:C;
        cbn [GameScene.p_y]; to_Q; lra.
    + destruct (y < 80)%js eqn:C; cbn [GameScene.p_y]; to_Q; lra.
  - set (y := (GameScene.p_y player + _)%js).
    destruct (y < 80)%js eqn:C.
    + destruct (80 > (height - 50 - 20)%js)%js eqn:G;
        cbn [GameScene.p_y]; to_Q; lra.
    + destruct (y > (height - 50 - 20)%js)%js eqn:G;
        cbn [GameScene.p_y]; to_Q; lra.
Qed.

(** X20: on a screen at least 150 high, one frame of the player's
    motion, in either mode and whatever the key, the frame length and
    the state before, leaves the player between the ceiling line
    [playableTop + 20 = 80] and the ground line [height - 70]. *)
Theorem player_stays_in_band
    (height : number) (mode : Mode) (levelGravity levelJumpForce : number)
    (isHolding : bool) (delta : number) (player : GameScene.Player) :
  150 <= height ->
  let player' :=
    GameScene.updatePlayer height mode levelGravity levelJumpForce
                           isHolding delta player in
  80 <= GameScene.p_y player' /\ GameScene.p_y player' <= height - 70.
Proof. apply updatePlayer_band. Qed.

Lemma player_stays_in_band_witness :
  150 <= 768
  /\ 80 <= GameScene.p_y
             (GameScene.updatePlayer 768 gravity 670 (-426) true 5000
                (GameScene.createPlayer 768 gravity))
  /\ GameScene.p_y
       (GameScene.updatePlayer 768 gravity 670 (-426) true 5000
          (GameScene.createPlayer 768 gravity))
     <= 768 - 70.
Proof.
  assert (H : 150 <= 768) by discriminate.
  split; [exact H|].
  exact (player_stays_in_band 768 gravity 670 (-426) true 5000
           (GameScene.createPlayer 768 gravity) H).
Defined.

Lemma checkCollisions_skips_gaps
    (height : number) (mode : Mode) (playerX playerY : number)
    (obstacles : list GameScene.ObstacleData) :
  playerY <= height - 60 ->
  GameScene.checkCollisions height mode playerX playerY obstacles
  = GameScene.checkCollisions height mode playerX playerY
      (filter notGap obstacles).
Proof.
  intros H. induction obstacles as [|data rest IH]; [reflexivity|].
  cbn [filter GameScene.checkCollisions]. unfold notGap at 1.
  destruct (GameScene.d_type data) eqn:T; cbn [isGap negb];
    cbn [GameScene.checkCollisions]; rewrite ?T, <- ?IH; try reflexivity.
  destruct mode; [|reflexivity].
  replace (playerY > height - GameScene.groundHeight - 10)%js with false;
    [rewrite andb_false_r; reflexivity|].
  symmetry. unfold GameScene.groundHeight. to_Q. lra.
Qed.

(** X21: the pit of a gap never kills.  On a screen at least 150 high,
    the collision test that [update] runs after the player's motion
    gives the same verdict with every gap removed from the obstacles:
    the player is kept at or above [height - 70], and the pit test asks
    for a player below [height - 60]. *)
Theorem gaps_never_kill
    (height : number) (mode : Mode) (levelGravity levelJumpForce : number)
    (isHolding : bool) (delta : number) (player : GameScene.Player)
    (playerX : number) (obstacles : list GameScene.ObstacleData) :
  150 <= height ->
  let player' :=
    GameScene.updatePlayer height mode levelGravity levelJumpForce
                           isHolding delta player in
  GameScene.checkCollisions height mode playerX (GameScene.p_y player')
                            obstacles
  = GameScene.checkCollisions height mode playerX (GameScene.p_y player')
      (filter notGap obstacles).
Proof.
  intros H. cbv zeta. apply checkCollisions_skips_gaps.
  pose proof (updatePlayer_band height mode levelGravity levelJumpForce
                isHolding delta player H) as B.
  cbv zeta in B. lra.
Qed.

Lemma gaps_never_kill_witness :
  150 <= 768
  /\ GameScene.checkCollisions 768 gravity 640
       (GameScene.p_y
          (GameScene.updatePlayer 768 gravity 670 (-426) false 16
             (GameScene.createPlayer 768 gravity)))
       (GameScene.createObstacles 768 gravity [mkObstacle 600 1 74 100 gap])
     = GameScene.checkCollisions 768 gravity 640
         (GameScene.p_y
            (GameScene.updatePlayer 768 gravity 670 (-426) false 16
               (GameScene.createPlayer 768 gravity)))
         (filter notGap
            (GameScene.createObstacles 768 gravity
               [mkObstacle 600 1 74 100 gap])).
Proof.
  assert (H : 150 <= 768) by discriminate.
  split; [exact H|].
  exact (gaps_never_kill 768 gravity 670 (-426) false 16
           (GameScene.createPlayer 768 gravity) 640
           (GameScene.createObstacles 768 gravity
              [mkObstacle 600 1 74 100 gap]) H).
Defined.

(** X22: the height the solver asks for is enough in the game.  On the
    768-high screen, a player whose centre is at or above the required
    height of every obstacle of a gravity level (for a gap, the height
    that the generator hands to the solver is 0) touches none of them,
    wherever it is along the course. *)
Theorem solver_height_clears_in_game
    (playerX playerY : number) (obstacles : list Obstacle) :
  Forall (fun o =>
            playerY <= requiredY (if isGap (o_type o) then 0
                                  else o_height o))
         obstacles ->
  GameScene.checkCollisions 768 gravity playerX playerY
    (GameScene.createObstacles 768 gravity obstacles) = false.
Proof.
  induction 1 as [|o rest Ho _ IH]; [reflexivity|].
  unfold GameScene.createObstacles in *. cbn [map].
  cbn [GameScene.checkCollisions]. rewrite IH.
  unfold GameScene.obstacleData. cbv zeta.
  cbn [GameScene.d_type GameScene.d_x GameScene.d_y GameScene.d_width
       GameScene.d_height].
  rewrite requiredY_eq in Ho.
  assert (E : (32 / 2)%js = 16) by reflexivity.
  destruct (o_type o); cbn [isGap] in Ho.
  - replace (GameScene.checkAABB _ _ _ _ _ _ _ _) with false;
      [reflexivity|].
    symmetry. unfold GameScene.checkAABB, GameScene.groundHeight.
    rewrite E. apply andb_false_intro2. to_Q. lra.
  - replace (GameScene.checkAABB _ _ _ _ _ _ _ _) with false;
      [reflexivity|].
    symmetry. unfold GameScene.checkAABB, GameScene.groundHeight.
    rewrite E. apply andb_false_intro2. to_Q. lra.
  - replace (playerY > 768 - GameScene.groundHeight - 10)%js with false;
      [rewrite andb_false_r; reflexivity|].
    symmetry. unfold GameScene.groundHeight. to_Q. lra.
  - replace (GameScene.checkAABB _ _ _ _ _ _ _ _) with false;
      [reflexivity|].
    symmetry. unfold GameScene.checkAABB, GameScene.groundHeight.
    rewrite E. apply andb_false_intro2. to_Q. lra.
Qed.

Lemma solver_height_clears_in_game_witness :
  Forall (fun o =>
            600 <= requiredY (if isGap (o_type o) then 0 else o_height o))
         [mkObstacle 600 1 37 48 spike; mkObstacle 1100 1 74 100 gap]
  /\ GameScene.checkCollisions 768 gravity 618 600
       (GameScene.createObstacles 768 gravity
          [mkObstacle 600 1 37 48 spike; mkObstacle 1100 1 74 100 gap])
     = false.
Proof.
  assert (H : Forall (fun o =>
                600 <= requiredY (if isGap (o_type o) then 0
                                  else o_height o))
                [mkObstacle 600 1 37 48 spike; mkObstacle 1100 1 74 100 gap]).
  { constructor; [discriminate|].
    constructor; [discriminate|constructor]. }
  split; [exact H|].
  exact (solver_height_clears_in_game 618 600 _ H).
Defined.

(** X23: a player standing on the ground stays there while the key is
    up: on a screen at least 150 high, with a gravity and a frame
    length that are not negative, a frame of gravity mode leaves a
    player at [height - 70] with no vertical speed as it is. *)
Theorem standing_player_stays
    (height levelGravity levelJumpForce delta : number)
    (player : GameScene.Player) :
  150 <= height -> 0 <= levelGravity -> 0 <= delta ->
  GameScene.p_y player == height - 70 ->
  GameScene.velocityY player == 0 ->
  let player' :=
    GameScene.updateGravityMode height levelGravity levelJumpForce false
                                delta player in
  GameScene.p_y player' == height - 70
  /\ GameScene.velocityY player' == 0.
Proof.
  intros H G D Py Pv. cbv zeta.
  unfold GameScene.updateGravityMode, GameScene.playableTop,
    GameScene.topMargin, GameScene.groundHeight.
  replace (60 + 20)%js with 80 by reflexivity.
  cbn [andb]. cbv zeta.
  assert (T : 0 <= delta / 1000).
  { unfold Qdiv. apply Qmult_le_0_compat; [exact D|discriminate]. }
  set (vy := (GameScene.velocityY player + levelGravity * (delta / 1000))%js).
  set (y := (GameScene.p_y player + vy * (delta / 1000))%js).
  assert (Ev : vy == levelGravity * (delta / 1000)).
  { unfold vy. to_Q. lra. }
  assert (Ey : y == height - 70 + vy * (delta / 1000)).
  { unfold y. to_Q. lra. }
  destruct (y > (height - 50 - 20)%js)%js eqn:C.
  - destruct ((height - 50 - 20)%js < 80)%js eqn:C';
      cbn [GameScene.p_y GameScene.velocityY]; to_Q;
      split; first [lra | reflexivity].
  - assert (C0 : y <= height - 70) by (to_Q; lra).
    set (t := delta / 1000) in *.
    assert (V0 : 0 <= vy) by (rewrite Ev; apply Qmult_le_0_compat; lra).
    assert (P0 : 0 <= vy * t) by (apply Qmult_le_0_compat; lra).
    assert (Z : vy * t == 0) by lra.
    assert (Vz : vy == 0).
    { destruct (Qlt_le_dec 0 t) as [Tp|Tn].
      - apply Qmult_integral in Z. destruct Z as [Z|Z]; [exact Z|lra].
      - assert (Tz : t == 0) by lra. rewrite Ev, Tz. ring. }
    destruct (y < 80)%js eqn:C';
      cbn [GameScene.p_y GameScene.velocityY]; to_Q; split; lra.
Qed.

Lemma standing_player_stays_witness :
  150 <= 768 /\ 0 <= 670 /\ 0 <= 16
  /\ GameScene.p_y (GameScene.createPlayer 768 gravity) == 768 - 70
  /\ GameScene.velocityY (GameScene.createPlayer 768 gravity) == 0
  /\ GameScene.p_y
       (GameScene.updateGravityMode 768 670 (-426) false 16
          (GameScene.createPlayer 768 gravity)) == 768 - 70
  /\ GameScene.velocityY
       (GameScene.updateGravityMode 768 670 (-426) false 16
          (GameScene.createPlayer 768 gravity)) == 0.
Proof.
  assert (H : 150 <= 768) by discriminate.
  assert (G : 0 <= 670) by discriminate.
  assert (D : 0 <= 16) by discriminate.
  assert (Py : GameScene.p_y (GameScene.createPlayer 768 gravity)
               == 768 - 70) by reflexivity.
  assert (Pv : GameScene.velocityY (GameScene.createPlayer 768 gravity) == 0)
    by reflexivity.
  split; [exact H|]. split; [exact G|]. split; [exact D|].
  split; [exact Py|]. split; [exact Pv|].
  exact (standing_player_stays 768 670 (-426) 16
           (GameScene.createPlayer 768 gravity) H G D Py Pv).
Defined.

(** ** Levels without a hold *)

Section TapLevels.

Variables (difficulty length speed jumpForce grav : number).
Variable random : nat -> number.
Hypothesis draws : unitDraws random.
Hypothesis speed_nonneg : 0 <= speed.
Hypothesis tap_reaches :
  noneAbove (593 - 3 * difficulty) (simulateJump 0 jumpForce grav speed 0)
  = false.

(** No shape is as high as [95 + 3 * difficulty], gaps apart. *)
Lemma chooseObstacle_height (isHoldJump : bool) (rand : number) (n : nat) :
  let sh := fst (chooseObstacle difficulty random isHoldJump rand n) in
  isGap (obstacleType sh) = false ->
  obstacleHeight sh <= 95 + 3 * difficulty.
Proof.
  cbv zeta. destruct (draws n) as [R0 R1].
  assert (M15 : random n * 15 < 15) by nra.
  assert (M20 : random n * 20 < 20) by nra.
  unfold chooseObstacle, baseObstacleHeight, obstacleHeightVariation.
  destruct isHoldJump; [|destruct (rand < 0.5)%js;
                          [|destruct (rand < 0.85)%js]];
    cbn [fst obstacleType isGap obstacleHeight]; intros G;
    try discriminate; to_Q; lra.
Qed.

Lemma placeObstacle_tap (s : GenState) :
  exists w : JumpWindow,
    gen_windows (placeObstacle difficulty speed jumpForce grav random s)
    = gen_windows s ++ [w]
    /\ jw_type w = tap /\ jw_holdDuration w = None.
Proof.
  rewrite placeObstacle_unfold. cbn [gen_windows].
  eexists. split; [reflexivity|].
  match goal with
  | |- context [chooseObstacle difficulty random ?b ?r ?n] =>
      pose proof (chooseObstacle_height b r n) as Hh;
      set (shn := chooseObstacle difficulty random b r n) in *
  end.
  cbv zeta in Hh. unfold emitPair, clearanceFor.
  destruct (isGap (obstacleType (fst shn))) eqn:G; cbn [snd].
  - split; reflexivity.
  - cbn [jw_type jw_holdDuration].
    rewrite needsHold_calculate by exact speed_nonneg.
    rewrite (noneAbove_mono (593 - 3 * difficulty)); [split; reflexivity| |].
    + rewrite requiredY_eq. specialize (Hh eq_refl). lra.
    + exact tap_reaches.
Qed.

Lemma gravityLoop_taps (fuel : nat) (s : GenState) :
  gravityLoop difficulty length speed jumpForce grav random fuel genInit
  = Some s ->
  Forall (fun w => jw_type w = tap /\ jw_holdDuration w = None)
         (gen_windows s).
Proof.
  apply (while_fuel_invariant _ _
           (fun s => Forall (fun w => jw_type w = tap
                                      /\ jw_holdDuration w = None)
                            (gen_windows s))).
  - intros s0 H0 _. destruct (placeObstacle_tap s0) as [w [Ew Hw]].
    rewrite Ew. apply Forall_app. split; [exact H0|].
    constructor; [exact Hw|constructor].
  - constructor.
Qed.

End TapLevels.

(** X24: when the plain tap of a level rises to [y = 593 - 3 *
    difficulty] or higher (draws in [0, 1), a scroll speed that is not
    negative), the gravity generator writes no [hold] window and no hold
    duration at all: the tap clears even the tall blocks picked as held
    jumps, whose height stays below [95 + 3 * difficulty]. *)
Theorem tap_level_has_no_hold
    (difficulty length speed jumpForce grav : number)
    (random : nat -> number) (fuel : nat) (lvl : Level) :
  unitDraws random -> 0 <= speed ->
  noneAbove (593 - 3 * difficulty) (simulateJump 0 jumpForce grav speed 0)
  = false ->
  generateJumpWindowLevel fuel difficulty length gravity speed jumpForce
                          grav random = Some lvl ->
  Forall (fun w => jw_type w = tap /\ jw_holdDuration w = None)
         (jumpWindows lvl).
Proof.
  intros R S T. unfold generateJumpWindowLevel.
  destruct (gravityLoop _ _ _ _ _ _ fuel genInit) as [s|] eqn:E;
    [|discriminate].
  intros [= <-]. cbn [jumpWindows levelOf].
  apply (gravityLoop_taps difficulty length speed jumpForce grav random
           R S T fuel s E).
Qed.

Lemma tap_level_has_no_hold_witness :
  unitDraws (fun n => if Nat.even n then 1 # 10 else 9 # 10)
  /\ 0 <= tierSpeed 2
  /\ noneAbove (593 - 3 * tierDifficulty 2)
       (simulateJump 0 (tierJumpForce 2) (tierGravity 2) (tierSpeed 2) 0)
     = false
  /\ exists lvl : Level,
       generateTier 2 20 (fun n => if Nat.even n then 1 # 10 else 9 # 10)
       = Some lvl
       /\ Forall (fun w => jw_type w = tap /\ jw_holdDuration w = None)
                 (jumpWindows lvl).
Proof.
  assert (R : unitDraws (fun n => if Nat.even n then 1 # 10 else 9 # 10)).
  { intros n. destruct (Nat.even n); split;
      first [discriminate | reflexivity]. }
  assert (S : 0 <= tierSpeed 2) by discriminate.
  assert (T : noneAbove (593 - 3 * tierDifficulty 2)
                (simulateJump 0 (tierJumpForce 2) (tierGravity 2)
                   (tierSpeed 2) 0) = false)
    by (vm_compute; reflexivity).
  split; [exact R|]. split; [exact S|]. split; [exact T|].
  eexists. split; [vm_compute; reflexivity|].
  apply (tap_level_has_no_hold (tierDifficulty 2) (tierLength 2)
           (tierSpeed 2) (tierJumpForce 2) (tierGravity 2)
           (fun n => if Nat.even n then 1 # 10 else 9 # 10) 20 _ R S T).
  vm_compute. reflexivity.
Defined.

(** X25: levels 1, 3, 5 and 7 of the table never have a [hold] window,
    whatever the draws: their tap rises to about [y = 566], which is
    enough for every obstacle these levels can contain, the tall blocks
    of levels 3, 5 and 7 included. *)
Theorem levels_1_to_7_have_no_hold
    (i : nat) (random : nat -> number) (fuel : nat) (lvl : Level) :
  i = 0%nat \/ i = 2%nat \/ i = 4%nat \/ i = 6%nat ->
  unitDraws random ->
  generateTier i fuel random = Some lvl ->
  Forall (fun w => jw_type w = tap /\ jw_holdDuration w = None)
         (jumpWindows lvl).
Proof.
  intros Hi R. unfold generateTier.
  assert (M : tierMode i = gravity)
    by (destruct Hi as [->|[->|[->| ->]]]; reflexivity).
  rewrite M. unfold generateJumpWindowLevel.
  destruct (gravityLoop _ _ _ _ _ _ fuel genInit) as [s|] eqn:E;
    [|discriminate].
  intros [= <-]. cbn [jumpWindows levelOf].
  revert E. apply gravityLoop_taps; [exact R| |].
  - destruct Hi as [->|[->|[->| ->]]]; discriminate.
  - destruct Hi as [->|[->|[->| ->]]]; vm_compute; reflexivity.
Qed.

Lemma levels_1_to_7_have_no_hold_witness :
  (6 = 0 \/ 6 = 2 \/ 6 = 4 \/ 6 = 6)%nat
  /\ unitDraws (fun n => if Nat.even n then 1 # 10 else 9 # 10)
  /\ exists lvl : Level,
       generateTier 6 30 (fun n => if Nat.even n then 1 # 10 else 9 # 10)
       = Some lvl
       /\ Forall (fun w => jw_type w = tap /\ jw_holdDuration w = None)
                 (jumpWindows lvl).
Proof.
  assert (Hi : (6 = 0 \/ 6 = 2 \/ 6 = 4 \/ 6 = 6)%nat)
    by (right; right; right; reflexivity).
  assert (R : unitDraws (fun n => if Nat.even n then 1 # 10 else 9 # 10)).
  { intros n. destruct (Nat.even n); split;
      first [discriminate | reflexivity]. }
  split; [exact Hi|]. split; [exact R|].
  eexists. split; [vm_compute; reflexivity|].
  apply (levels_1_to_7_have_no_hold 6
           (fun n => if Nat.even n then 1 # 10 else 9 # 10) 30 _ Hi R).
  vm_compute. reflexivity.
Defined.
